(** * Agora ConvoAI Express server: validation, agent and token routes

    A shallow embedding of the Express implementation
    (express/src/utils/validation.ts, express/src/routes/agent.ts,
    express/src/routes/token.ts, express/src/index.ts) together with the
    properties of its request pipeline, and of the body validation of the
    Fastify sibling (fastify/src/utils/validation.ts) for comparison.

    Conventions of the embedding:
    - [process.env] is a finite map from variable names to strings;
    - a JavaScript string is a [string], one character per code unit
      (the code units below 256);
    - a JavaScript number is a [number]: a rational (every finite double
      is one), the two infinities or NaN;
    - [undefined] is [None] of an [option];
    - an exception is the [Throw] case of [result], carrying [error.message];
    - the handlers return the list of calls made to external collaborators
      (token builder, provisioning service) together with the HTTP reply;
    - of Express, the embedding keeps what index.ts relies on: [cors()]
      and [express.json()] come before the root router, routes match
      without regard to letter case and to a trailing slash, and
      [router.get] also serves HEAD. *)

From Stdlib Require Import ZArith QArith_base Lia Ascii.
From stdpp Require Import base strings list gmap pretty.

Close Scope Q_scope.

(* ===================================================================== *)
(** * JavaScript values *)
(* ===================================================================== *)

Module JS.

(** Numbers.  [Finite q] stands for the double whose exact value is [q]. *)
Inductive number :=
  | NaN
  | Infinite (negative : bool)
  | Finite (q : Q).

(** [!n] for a number: zero (of either sign) and NaN are falsy. *)
Definition number_falsy (n : number) : bool :=
  match n with
  | NaN => true
  | Infinite _ => false
  | Finite q => (Qnum q =? 0)%Z
  end.

(** [Number.isInteger(n)]. *)
Definition Number_isInteger (n : number) : bool :=
  match n with
  | Finite q => (Qnum q mod Zpos (Qden q) =? 0)%Z
  | _ => false
  end.

(** [n < 0]. *)
Definition number_negative (n : number) : bool :=
  match n with
  | NaN => false
  | Infinite negative => negative
  | Finite q => (Qnum q <? 0)%Z
  end.

(** The integer a whole number stands for. *)
Definition number_of_Z (z : Z) : number := Finite (inject_Z z).

(** Parsed JSON. *)
#[warnings="-register-all"]
Inductive json :=
  | JNull
  | JBool (b : bool)
  | JNum (n : number)
  | JStr (s : string)
  | JArr (items : list json)
  | JObj (fields : list (string * json)).

(** A JavaScript value read from a request: [None] is [undefined]. *)
Definition value := option json.

Inductive jstype := TUndefined | TObject | TBoolean | TNumber | TString.

(** [typeof v] (note that [typeof null] is ['object']). *)
Definition typeof (v : value) : jstype :=
  match v with
  | None => TUndefined
  | Some JNull => TObject
  | Some (JBool _) => TBoolean
  | Some (JNum _) => TNumber
  | Some (JStr _) => TString
  | Some (JArr _) => TObject
  | Some (JObj _) => TObject
  end.

(** Truthiness: [undefined], [null], [false], [0], [NaN] and [''] are falsy. *)
Definition truthy (v : value) : bool :=
  match v with
  | None => false
  | Some JNull => false
  | Some (JBool b) => b
  | Some (JNum n) => negb (number_falsy n)
  | Some (JStr s) => negb (String.eqb s "")
  | Some (JArr _) => true
  | Some (JObj _) => true
  end.

(** ** Strings *)

(** White space and line terminators removed by [String.prototype.trim]
    (those below code unit 256). *)
Definition is_white_space (a : ascii) : bool :=
  match a with
  | "009" | "010" | "011" | "012" | "013" | " " | "160" => true
  | _ => false
  end%char.

Fixpoint trim_start (s : string) : string :=
  match s with
  | "" => ""
  | String a s' => if is_white_space a then trim_start s' else s
  end.

Fixpoint trim_end (s : string) : string :=
  match s with
  | "" => ""
  | String a s' =>
      match trim_end s' with
      | "" => if is_white_space a then "" else String a ""
      | t => String a t
      end
  end.

(** [s.trim()] *)
Definition trim (s : string) : string := trim_end (trim_start s).

Fixpoint string_drop (n : nat) (s : string) : string :=
  match n, s with
  | O, _ => s
  | S _, "" => ""
  | S n', String _ s' => string_drop n' s'
  end.

Fixpoint string_take (n : nat) (s : string) : string :=
  match n, s with
  | O, _ => ""
  | S _, "" => ""
  | S n', String a s' => String a (string_take n' s')
  end.

(** [s.substring(i, j)]: both indices are clamped to the length of [s]
    and swapped when [i > j]. *)
Definition substring (i j : nat) (s : string) : string :=
  let lo := Nat.min i j in
  let hi := Nat.max i j in
  string_take (hi - lo) (string_drop lo s).

(** The characters of a string, in order. *)
Definition chars (s : string) : list ascii := String.list_ascii_of_string s.

Fixpoint string_forall (p : ascii -> bool) (s : string) : bool :=
  match s with
  | "" => true
  | String a s' => p a && string_forall p s'
  end.

Fixpoint string_exists (p : ascii -> bool) (s : string) : bool :=
  match s with
  | "" => false
  | String a s' => p a || string_exists p s'
  end.

Fixpoint string_prefix (p s : string) : bool :=
  match p, s with
  | "", _ => true
  | String a p', String b s' => Ascii.eqb a b && string_prefix p' s'
  | String _ _, "" => false
  end.

(** [s.startsWith(p)] *)
Definition startsWith (s p : string) : bool := string_prefix p s.

(** [s.split(sep)] for a one-character separator. *)
Fixpoint split_go (sep : ascii) (cur : string) (s : string) : list string :=
  match s with
  | "" => [String.rev cur]
  | String a s' =>
      if Ascii.eqb a sep then String.rev cur :: split_go sep "" s'
      else split_go sep (String a cur) s'
  end.

Definition split (sep : ascii) (s : string) : list string := split_go sep "" s.

(** Character classes of the regular expressions in the sources. *)
Definition code (a : ascii) : nat := nat_of_ascii a.

Definition is_digit (a : ascii) : bool :=
  (48 <=? code a)%nat && (code a <=? 57)%nat.
Definition is_lower (a : ascii) : bool :=
  (97 <=? code a)%nat && (code a <=? 122)%nat.
Definition is_upper (a : ascii) : bool :=
  (65 <=? code a)%nat && (code a <=? 90)%nat.
Definition is_letter (a : ascii) : bool := is_lower a || is_upper a.

(** [/[a-zA-Z]/.test(s)]: some character of [s] is an ASCII letter. *)
Definition test_has_letter (s : string) : bool := string_exists is_letter s.

(** [/^\d+$/.test(s)] *)
Definition test_digits (s : string) : bool :=
  negb (String.eqb s "") && string_forall is_digit s.

(** [/^[a-zA-Z0-9-]+$/.test(s)] *)
Definition test_alnum_hyphen (s : string) : bool :=
  negb (String.eqb s "")
  && string_forall (fun a => is_letter a || is_digit a || Ascii.eqb a "-") s.

(** The lower case of an ASCII letter; every other character is kept. *)
Definition to_lower (a : ascii) : ascii :=
  if is_upper a then ascii_of_nat (code a + 32) else a.

Fixpoint lower_case (s : string) : string :=
  match s with
  | "" => ""
  | String a s' => String (to_lower a) (lower_case s')
  end.

(** [items.join(sep)] *)
Fixpoint join (sep : string) (items : list string) : string :=
  match items with
  | [] => ""
  | [x] => x
  | x :: rest => x +:+ sep +:+ join sep rest
  end.

(** Outcome of an expression that may throw: [Throw msg] carries the
    [message] of the thrown [Error]. *)
Inductive result (A : Type) :=
  | Ok (a : A)
  | Throw (msg : string).
Arguments Ok {A} a.
Arguments Throw {A} msg.

End JS.

Import JS.

(* ===================================================================== *)
(** * Requests, replies and the environment *)
(* ===================================================================== *)

(** [process.env] is a [gmap string string]: a variable is either absent
    or bound to a string. *)

(** [!process.env.NAME]: the variable is absent or empty. *)
Definition env_missing (env : gmap string string) (name : string) : bool :=
  match env !! name with
  | None => true
  | Some v => String.eqb v ""
  end.

(** [`${process.env.NAME}`] inside a template literal. *)
Definition env_template (env : gmap string string) (name : string) : string :=
  default "undefined" (env !! name).

(** [process.env.NAME || dflt] *)
Definition env_or (env : gmap string string) (name dflt : string) : string :=
  match env !! name with
  | Some v => if String.eqb v "" then dflt else v
  | None => dflt
  end.

(** [req.body] after [express.json()]: nothing, a JSON object (keys are
    distinct once parsed) or a JSON array. *)
Inductive reqbody :=
  | NoBody
  | ObjBody (fields : gmap string json)
  | ArrBody (items : list json).

(** [!req.body || Object.keys(req.body).length === 0] *)
Definition body_empty (b : reqbody) : bool :=
  match b with
  | NoBody => true
  | ObjBody m => bool_decide (size m = 0)
  | ArrBody l => bool_decide (length l = 0)
  end.

(** [req.body.name] for the named properties read by the handlers (an
    array has none of them). *)
Definition body_field (b : reqbody) (name : string) : value :=
  match b with
  | ObjBody m => m !! name
  | _ => None
  end.

(** A value of [req.query].  The query parser gives a string for a
    parameter that occurs once ([uid=5]), an array for one that is
    repeated or written with brackets ([uid=5&uid=6], [uid[]=5]) and an
    object for one written with a key ([uid[a]=5]).  The routes never
    read inside an object, so its fields are not kept; an object with a
    key named [toString], whose conversion to a string throws, is not
    represented. *)
#[warnings="-register-all"]
Inductive qvalue :=
  | QStr (s : string)
  | QArr (items : list qvalue)
  | QObj.

(** [String(v)], the conversion made by [RegExp.prototype.test] and by
    [parseInt] on their argument: the items of an array are converted
    and joined by commas. *)
Fixpoint q_toString (v : qvalue) : string :=
  match v with
  | QStr s => s
  | QArr items => join "," (List.map q_toString items)
  | QObj => "[object Object]"
  end.

(** Truthiness of a query parameter: [undefined] and [''] are falsy, an
    array or an object is truthy. *)
Definition q_truthy (o : option qvalue) : bool :=
  match o with
  | None => false
  | Some (QStr s) => negb (String.eqb s "")
  | Some _ => true
  end.

Record Request := {
  req_method : string;             (* req.method *)
  req_path : string;               (* req.path, seen from the root router *)
  req_is_json : bool;              (* is req.is('application/json') truthy *)
  req_query : gmap string qvalue;  (* req.query *)
  req_body : reqbody;              (* req.body *)
}.

Record Response := {
  status : Z;
  payload : json;
}.

(** [res.json(v)] replies with status 200; [res.status(c).json(v)] with [c]. *)
Definition res_json (v : json) : Response := {| status := 200; payload := v |}.
Definition res_status_json (c : Z) (v : json) : Response :=
  {| status := c; payload := v |}.

(** The usual error body [{ error: msg }]. *)
Definition error_body (msg : string) : json := JObj [("error", JStr msg)].

(** A middleware either replies or calls [next()]. *)
Inductive middleware_result :=
  | Next
  | Reply (r : Response).

(* ===================================================================== *)
(** * utils/validation.ts *)
(* ===================================================================== *)

Module Validation.

(** [validateEnvironment] reads [process.env] and [req.path] only. *)
Definition validateEnvironment (env : gmap string string) (req : Request) : middleware_result :=
  if env_missing env "AGORA_APP_ID" || env_missing env "AGORA_APP_CERTIFICATE" then
    Reply (res_status_json 500 (error_body "Agora credentials are not set"))
  else if startsWith (req_path req) "/agent" then
    if env_missing env "AGORA_CONVO_AI_BASE_URL"
       || env_missing env "AGORA_CUSTOMER_ID"
       || env_missing env "AGORA_CUSTOMER_SECRET" then
      Reply (res_status_json 500
               (error_body "Agora Conversation AI credentials are not set"))
    else if env_missing env "LLM_URL" || env_missing env "LLM_TOKEN" then
      Reply (res_status_json 500 (error_body "LLM configuration is not set"))
    else
      match env !! "TTS_VENDOR" with
      | None => Reply (res_status_json 500 (error_body "TTS_VENDOR is not set"))
      | Some ttsVendor =>
          if String.eqb ttsVendor "" then
            Reply (res_status_json 500 (error_body "TTS_VENDOR is not set"))
          else if String.eqb ttsVendor "microsoft" then
            if env_missing env "MICROSOFT_TTS_KEY"
               || env_missing env "MICROSOFT_TTS_REGION"
               || env_missing env "MICROSOFT_TTS_VOICE_NAME"
               || env_missing env "MICROSOFT_TTS_RATE"
               || env_missing env "MICROSOFT_TTS_VOLUME" then
              Reply (res_status_json 500
                       (error_body "Microsoft TTS configuration is not set"))
            else Next
          else if String.eqb ttsVendor "elevenlabs" then
            if env_missing env "ELEVENLABS_API_KEY"
               || env_missing env "ELEVENLABS_VOICE_ID"
               || env_missing env "ELEVENLABS_MODEL_ID" then
              Reply (res_status_json 500
                       (error_body "ElevenLabs TTS configuration is not set"))
            else Next
          else
            Reply (res_status_json 500
                     (error_body ("Unsupported TTS vendor: " +:+ ttsVendor)))
      end
  else Next.

Definition validateContentType (req : Request) : middleware_result :=
  if String.eqb (req_method req) "POST" && negb (req_is_json req) then
    Reply (res_status_json 415
      (error_body "Unsupported Media Type. Content-Type must be application/json"))
  else Next.

Definition bad_request (msg : string) : middleware_result :=
  Reply (res_status_json 400 (error_body msg)).

(** The checks made on the body of [/agent/invite], in source order. *)
Definition validateInviteBody (requester_id channel_name : value)
  : middleware_result :=
  if negb (truthy requester_id) then bad_request "requester_id is required"
  else if negb (truthy channel_name) then bad_request "channel_name is required"
  else
    let id_checked :=
      match requester_id with
      | Some (JStr s) =>
          if String.eqb (trim s) "" then
            bad_request "requester_id cannot be empty"
          else Next
      | Some (JNum n) =>
          if negb (Number_isInteger n) || number_negative n then
            bad_request
              "requester_id must be a positive integer when provided as a number"
          else Next
      | _ => bad_request "requester_id must be a string or number"
      end in
    match id_checked with
    | Reply r => Reply r
    | Next =>
        match channel_name with
        | Some (JStr c) =>
            if (String.length c <? 3)%nat || (64 <? String.length c)%nat then
              bad_request
                "channel_name length must be between 3 and 64 characters"
            else Next
        | _ => bad_request "channel_name must be a string"
        end
    end.

(** The checks made on the body of [/agent/remove]. *)
Definition validateRemoveBody (agent_id : value) : middleware_result :=
  if negb (truthy agent_id) then bad_request "agent_id is required"
  else
    match agent_id with
    | Some (JStr _) => Next
    | _ => bad_request "agent_id must be a string"
    end.

Definition validateRequestBody (req : Request) : middleware_result :=
  if negb (String.eqb (req_method req) "POST") then Next
  else if body_empty (req_body req) then bad_request "Request body is required"
  else if String.eqb (req_path req) "/agent/invite" then
    validateInviteBody (body_field (req_body req) "requester_id")
                       (body_field (req_body req) "channel_name")
  else if String.eqb (req_path req) "/agent/remove" then
    validateRemoveBody (body_field (req_body req) "agent_id")
  else Next.

End Validation.

(* ===================================================================== *)
(** * External collaborators *)
(* ===================================================================== *)

(** [RtcRole] of the agora-token package. *)
Inductive RtcRole := PUBLISHER | SUBSCRIBER.

(** The account argument of [buildTokenWithUid]: a number on the token
    route, a string on the agent route. *)
Inductive uid_arg :=
  | UidNumber (n : number)
  | UidString (s : string).

(** The built-ins and packages the handlers call but do not implement. *)
Class Platform := {
  (** [RtcTokenBuilder.buildTokenWithUid(appId, appCertificate, channel,
      uid, role, tokenExpire, privilegeExpire)] *)
  buildTokenWithUid :
    option string -> option string -> string -> uid_arg -> RtcRole ->
    Z -> Z -> result string;
  (** [parseFloat(s)] *)
  parseFloat : string -> number;
  (** [Buffer.from(s).toString('base64')] *)
  base64 : string -> string;
  (** [Number.prototype.toString] outside the safe integers, where the
      text is not the plain decimal numeral. *)
  Number_toString_other : Q -> string;
}.

(** A call to [fetch(url, init)]; the body is kept structured instead of
    being passed through [JSON.stringify]. *)
Record FetchCall (Body : Type) := {
  fetch_url : string;
  fetch_method : string;
  fetch_headers : list (string * string);
  fetch_body : option Body;
}.
Arguments fetch_url {Body} _.
Arguments fetch_method {Body} _.
Arguments fetch_headers {Body} _.
Arguments fetch_body {Body} _.

(** What [fetch] resolves to: the status, the text of the body, and the
    outcome of [response.json()]. *)
Record FetchResponse := {
  response_status : Z;
  response_text : string;
  response_json : result json;
}.

(** [response.ok]: the status is in the range 200-299. *)
Definition response_ok (r : FetchResponse) : bool :=
  (200 <=? response_status r)%Z && (response_status r <=? 299)%Z.

(** [n.toString()] and [`${n}`] for a number. *)
Definition Number_toString `{Platform} (n : number) : string :=
  match n with
  | NaN => "NaN"
  | Infinite false => "Infinity"
  | Infinite true => "-Infinity"
  | Finite q =>
      if Number_isInteger n
         && (Z.abs (Qnum q / Zpos (Qden q)) <=? 2 ^ 53)%Z
      then pretty (Qnum q / Zpos (Qden q))%Z
      else Number_toString_other q
  end.

(** [Math.floor(ms / 1000) + 3600]: one hour after [ms], in whole seconds. *)
Definition expiration_time (ms : Z) : Z := (ms / 1000 + 3600)%Z.

(* ===================================================================== *)
(** * types/agora-convo-ai-types.ts and types/client-request-types.ts *)
(* ===================================================================== *)

Module Types.

Inductive TTSVendor := Microsoft | ElevenLabs.

(** The string value of each member of the [TTSVendor] enum. *)
Definition TTSVendor_value (v : TTSVendor) : string :=
  match v with
  | Microsoft => "microsoft"
  | ElevenLabs => "elevenlabs"
  end.

Inductive TTSParams :=
  | MicrosoftTTSParams (key region voice_name : string) (rate volume : number)
  | ElevenLabsTTSParams (api_key voice_id model_id : string).

Record TTSConfig := {
  vendor : TTSVendor;
  params : TTSParams;
}.

Record AsrConfig := { language : string; task : string }.

Record SystemMessage := { role : string; content : string }.

Record LlmParams := {
  model : option string;
  max_tokens : Z;
  temperature : number;
  top_p : number;
}.

Record LlmConfig := {
  url : option string;
  api_key : option string;
  system_messages : list SystemMessage;
  greeting_message : string;
  failure_message : string;
  max_history : Z;
  llm_params : LlmParams;
  input_modalities : json;
  output_modalities : json;
}.

Record VadConfig := {
  silence_duration_ms : Z;
  speech_duration_ms : Z;
  threshold : number;
  interrupt_duration_ms : Z;
  prefix_padding_ms : Z;
}.

Record AdvancedFeatures := { enable_aivad : bool; enable_bhvs : bool }.

Record Properties := {
  channel : string;
  token : string;
  agent_rtc_uid : string;
  remote_rtc_uids : list string;
  enable_string_uid : bool;
  idle_timeout : Z;
  asr : AsrConfig;
  llm : LlmConfig;
  tts : TTSConfig;
  vad : VadConfig;
  advanced_features : AdvancedFeatures;
}.

Record AgoraStartRequest := {
  name : string;
  properties : Properties;
}.

(** [requester_id: string | number] *)
Inductive requester :=
  | RequesterString (s : string)
  | RequesterNumber (n : number).

Record InviteAgentRequest := {
  requester_id : requester;
  channel_name : string;
  req_input_modalities : value;
  req_output_modalities : value;
}.

Record RemoveAgentRequest := { agent_id : string }.

End Types.

(** Calls made to the external collaborators while a request is served. *)
Inductive Event :=
  | TokenBuilt (appId appCertificate : option string) (channel : string)
      (uid : uid_arg) (role : RtcRole) (tokenExpire privilegeExpire : Z)
  | Fetched (call : FetchCall Types.AgoraStartRequest).

Definition is_fetch (e : Event) : bool :=
  match e with
  | Fetched _ => true
  | TokenBuilt _ _ _ _ _ _ _ => false
  end.

Record Outcome := {
  calls : list Event;
  reply : Response;
}.

(** The provisioning service as seen through [fetch]: a failed transport
    throws, otherwise a response comes back. *)
Definition Fetch := FetchCall Types.AgoraStartRequest -> result FetchResponse.

(** ** Handler bodies: a log of external calls and a result that may throw *)

Module Eff.

Definition t (A : Type) : Type := list Event * result A.

Definition ret {A} (a : A) : t A := ([], Ok a).
Definition throw {A} (msg : string) : t A := ([], Throw msg).
Definition lift {A} (r : result A) : t A := ([], r).

Definition bind {A B} (m : t A) (k : A -> t B) : t B :=
  match m with
  | (log, Ok a) => let '(log', r) := k a in (log ++ log', r)
  | (log, Throw msg) => (log, Throw msg)
  end.

(** [try { body } catch (error) { res.status(500).json(handler error) }] *)
Definition try_catch (body : t Response) (handler : string -> Response)
  : Outcome :=
  match body with
  | (log, Ok r) => {| calls := log; reply := r |}
  | (log, Throw msg) => {| calls := log; reply := handler msg |}
  end.

Definition build_token `{Platform} (appId appCertificate : option string)
    (channel : string) (uid : uid_arg) (role : RtcRole)
    (tokenExpire privilegeExpire : Z) : t string :=
  ([TokenBuilt appId appCertificate channel uid role tokenExpire privilegeExpire],
   buildTokenWithUid appId appCertificate channel uid role
     tokenExpire privilegeExpire).

Definition do_fetch (fetch : Fetch) (call : FetchCall Types.AgoraStartRequest)
  : t FetchResponse :=
  ([Fetched call], fetch call).

End Eff.

Notation "x <-- m ;; k" := (Eff.bind m (fun x => k))
  (at level 100, m at next level, right associativity).

(* ===================================================================== *)
(** * routes/agent.ts *)
(* ===================================================================== *)

Module Agent.
Import Types.

Section WithPlatform.
Context `{Platform}.

(** [getTTSConfig(vendor)]; at run time [vendor] is whatever string
    [process.env.TTS_VENDOR] holds. *)
Definition getTTSConfig (env : gmap string string) (vendor : string)
  : result TTSConfig :=
  if String.eqb vendor (TTSVendor_value Microsoft) then
    if env_missing env "MICROSOFT_TTS_KEY"
       || env_missing env "MICROSOFT_TTS_REGION"
       || env_missing env "MICROSOFT_TTS_VOICE_NAME"
       || env_missing env "MICROSOFT_TTS_RATE"
       || env_missing env "MICROSOFT_TTS_VOLUME" then
      Throw "Missing Microsoft TTS environment variables"
    else
      Ok {| vendor := Microsoft;
            params := MicrosoftTTSParams
              (env_template env "MICROSOFT_TTS_KEY")
              (env_template env "MICROSOFT_TTS_REGION")
              (env_template env "MICROSOFT_TTS_VOICE_NAME")
              (parseFloat (env_template env "MICROSOFT_TTS_RATE"))
              (parseFloat (env_template env "MICROSOFT_TTS_VOLUME")) |}
  else if String.eqb vendor (TTSVendor_value ElevenLabs) then
    if env_missing env "ELEVENLABS_API_KEY"
       || env_missing env "ELEVENLABS_VOICE_ID"
       || env_missing env "ELEVENLABS_MODEL_ID" then
      Throw "Missing ElevenLabs environment variables"
    else
      Ok {| vendor := ElevenLabs;
            params := ElevenLabsTTSParams
              (env_template env "ELEVENLABS_API_KEY")
              (env_template env "ELEVENLABS_VOICE_ID")
              (env_template env "ELEVENLABS_MODEL_ID") |}
  else Throw ("Unsupported TTS vendor: " +:+ vendor).

(** [requester_id.toString()] *)
Definition requester_toString (r : requester) : string :=
  match r with
  | RequesterString s => s
  | RequesterNumber n => Number_toString n
  end.

(** [given || process.env.NAME?.split(',') || dflt] *)
Definition modalities (env : gmap string string) (given : value)
    (name : string) (dflt : list string) : json :=
  match given with
  | Some v =>
      if truthy given then v
      else match env !! name with
           | Some s => JArr (JStr <$> split "," s)
           | None => JArr (JStr <$> dflt)
           end
  | None =>
      match env !! name with
      | Some s => JArr (JStr <$> split "," s)
      | None => JArr (JStr <$> dflt)
      end
  end.

Definition systemMessage : string :=
  "You are a helpful assistant. Pretend that the text input is audio, and you are responding to it. Speak fast, clearly, and concisely.".

(** [`Basic ${Buffer.from(`${id}:${secret}`).toString('base64')}`] *)
Definition basic_authorization (env : gmap string string) : string :=
  "Basic " +:+ base64 (env_template env "AGORA_CUSTOMER_ID" +:+ ":"
                       +:+ env_template env "AGORA_CUSTOMER_SECRET").

(** The [requestBody] literal of the invite handler. *)
Definition requestBody (env : gmap string string) (uniqueName : string)
    (req : InviteAgentRequest) (token agentUid requesterUid : string)
    (ttsConfig : TTSConfig) : AgoraStartRequest :=
  {| name := uniqueName;
     properties :=
       {| channel := channel_name req;
          token := token;
          agent_rtc_uid := agentUid;
          remote_rtc_uids := [requesterUid];
          enable_string_uid := test_has_letter requesterUid;
          idle_timeout := 30;
          asr := {| language := "en-US"; task := "conversation" |};
          llm :=
            {| url := env !! "LLM_URL";
               api_key := env !! "LLM_TOKEN";
               system_messages :=
                 [ {| role := "system"; content := systemMessage |} ];
               greeting_message := "Hello! How can I assist you today?";
               failure_message := "Please wait a moment.";
               max_history := 10;
               llm_params :=
                 {| model := env !! "LLM_MODEL";
                    max_tokens := 1024;
                    temperature := Finite (7 # 10);
                    top_p := Finite (95 # 100) |};
               input_modalities :=
                 modalities env (req_input_modalities req)
                   "INPUT_MODALITIES" ["text"];
               output_modalities :=
                 modalities env (req_output_modalities req)
                   "OUTPUT_MODALITIES" ["text"; "audio"] |};
          tts := ttsConfig;
          vad :=
            {| silence_duration_ms := 480;
               speech_duration_ms := 15000;
               threshold := Finite (5 # 10);
               interrupt_duration_ms := 160;
               prefix_padding_ms := 300 |};
          advanced_features :=
            {| enable_aivad := false; enable_bhvs := false |} |} |}.

(** The arguments of the [fetch] call of the invite handler. *)
Definition join_call (env : gmap string string) (body : AgoraStartRequest)
  : FetchCall AgoraStartRequest :=
  {| fetch_url := env_template env "AGORA_CONVO_AI_BASE_URL" +:+ "/"
                  +:+ env_template env "AGORA_APP_ID" +:+ "/join";
     fetch_method := "POST";
     fetch_headers :=
       [("Content-Type", "application/json");
        ("Authorization", basic_authorization env)];
     fetch_body := Some body |}.

(** The [try] block of [router.post('/invite')].  [now] is the value of
    [Date.now()] and [random36] that of [Math.random().toString(36)]. *)
Definition invite_body (env : gmap string string) (now : Z)
    (random36 : string) (fetch : Fetch) (req : InviteAgentRequest)
  : Eff.t Response :=
  let agentUid := env_or env "AGENT_UID" "Agent" in
  let channelNameBase := "conversation" in
  let timestamp := now in
  let random := substring 2 8 random36 in
  let uniqueName :=
    channelNameBase +:+ "-" +:+ pretty timestamp +:+ "-" +:+ random in
  let expirationTime := expiration_time timestamp in
  token <-- Eff.build_token (env !! "AGORA_APP_ID")
              (env !! "AGORA_APP_CERTIFICATE") (channel_name req)
              (UidString agentUid) PUBLISHER expirationTime expirationTime ;;
  if env_missing env "TTS_VENDOR" then Eff.throw "TTS_VENDOR is not set"
  else
    ttsConfig <-- Eff.lift (getTTSConfig env (env_template env "TTS_VENDOR")) ;;
    let requesterUid := requester_toString (requester_id req) in
    response <-- Eff.do_fetch fetch
      (join_call env
         (requestBody env uniqueName req token agentUid requesterUid
            ttsConfig)) ;;
    if negb (response_ok response) then
      Eff.throw ("Failed to start conversation: "
                 +:+ pretty (response_status response))
    else
      data <-- Eff.lift (response_json response) ;;
      Eff.ret (res_json data).

(** [router.post('/invite', ...)]; whatever is thrown in the [try] block
    is an [Error], so the reply carries its [message]. *)
Definition invite (env : gmap string string) (now : Z) (random36 : string)
    (fetch : Fetch) (req : InviteAgentRequest) : Outcome :=
  Eff.try_catch (invite_body env now random36 fetch req)
    (fun message => res_status_json 500 (error_body message)).

(** [`${v}`] for a value read from the parsed JSON body.  An array prints
    its items joined by commas, a [null] item as nothing; an object
    prints as [[object Object]], unless it has a key named [toString],
    which hides [Object.prototype.toString]: the conversion then throws a
    [TypeError] (the message is the one of V8). *)
Fixpoint template (v : json) : result string :=
  match v with
  | JNull => Ok "null"
  | JBool b => Ok (if b then "true" else "false")
  | JNum n => Ok (Number_toString n)
  | JStr s => Ok s
  | JArr items =>
      let item (x : json) : result string :=
        match x with
        | JNull => Ok ""
        | _ => template x
        end in
      (fix go (l : list json) (acc : list string) : result string :=
         match l with
         | [] => Ok (join "," (rev acc))
         | x :: l' =>
             match item x with
             | Ok t => go l' (t :: acc)
             | Throw msg => Throw msg
             end
         end) items []
  | JObj fields =>
      if existsb (fun field => String.eqb (fst field) "toString") fields then
        Throw "Cannot convert object to primitive value"
      else Ok "[object Object]"
  end.

(** [`${v}`] for a property that may be missing. *)
Definition template_value (v : value) : result string :=
  match v with
  | None => Ok "undefined"
  | Some j => template j
  end.

(** The [try] block of [router.post('/remove')].  [agent_id] is the
    property of that name of [req.body]: the annotation
    [RemoveAgentRequest] is not checked at run time, so that it is
    whatever JSON value the client sent. *)
Definition remove_body (env : gmap string string) (fetch : Fetch)
    (agent_id : value) : Eff.t Response :=
  if negb (truthy agent_id) then Eff.throw "agent_id is required"
  else
    let plainCredential :=
      env_template env "AGORA_CUSTOMER_ID" +:+ ":"
      +:+ env_template env "AGORA_CUSTOMER_SECRET" in
    let encodedCredential := base64 plainCredential in
    id <-- Eff.lift (template_value agent_id) ;;
    response <-- Eff.do_fetch fetch
      {| fetch_url := env_template env "AGORA_CONVO_AI_BASE_URL" +:+ "/"
                      +:+ env_template env "AGORA_APP_ID" +:+ "/agents/"
                      +:+ id +:+ "/leave";
         fetch_method := "POST";
         fetch_headers :=
           [("Content-Type", "application/json");
            ("Authorization", "Basic " +:+ encodedCredential)];
         fetch_body := None |} ;;
    if negb (response_ok response) then
      Eff.throw ("Failed to remove agent: "
                 +:+ pretty (response_status response))
    else Eff.ret (res_json (JObj [("success", JBool true)])).

(** [router.post('/remove', ...)], with the same [catch] block. *)
Definition remove (env : gmap string string) (fetch : Fetch)
    (agent_id : value) : Outcome :=
  Eff.try_catch (remove_body env fetch agent_id)
    (fun message => res_status_json 500 (error_body message)).

End WithPlatform.
End Agent.

(* ===================================================================== *)
(** * routes/token.ts *)
(* ===================================================================== *)

Module Token.

(** ** [parseInt(s)] without a radix *)

Definition digit_value (radix : Z) (a : ascii) : option Z :=
  let d :=
    if is_digit a then Some (Z.of_nat (code a) - 48)%Z
    else if is_lower a then Some (Z.of_nat (code a) - 87)%Z
    else if is_upper a then Some (Z.of_nat (code a) - 55)%Z
    else None in
  match d with
  | Some v => if (v <? radix)%Z then Some v else None
  | None => None
  end.

(** The longest prefix of digits, read in the given radix; [None] when
    there is no digit at all. *)
Fixpoint parse_digits (radix : Z) (acc : option Z) (s : string) : option Z :=
  match s with
  | "" => acc
  | String a s' =>
      match digit_value radix a with
      | Some d => parse_digits radix (Some (radix * default 0%Z acc + d)%Z) s'
      | None => acc
      end
  end.

Definition strip_sign (s : string) : bool * string :=
  match s with
  | String "-" s' => (true, s')
  | String "+" s' => (false, s')
  | _ => (false, s)
  end.

Definition strip_hex_prefix (s : string) : Z * string :=
  match s with
  | String "0" (String "x" s') => (16%Z, s')
  | String "0" (String "X" s') => (16%Z, s')
  | _ => (10%Z, s)
  end.

(** The integer is kept exact; the double of the run time agrees with it
    up to 2^53. *)
Definition parseInt (s : string) : number :=
  let '(negative, s1) := strip_sign (trim_start s) in
  let '(radix, s2) := strip_hex_prefix s1 in
  match parse_digits radix None s2 with
  | Some n => number_of_Z (if negative then - n else n)
  | None => NaN
  end.

(** The text of [o || dflt] for a query parameter [o], as [parseInt]
    reads it. *)
Definition query_or (o : option qvalue) (dflt : string) : string :=
  match o with
  | Some v => if q_truthy o then q_toString v else dflt
  | None => dflt
  end.

(** [generateChannelName()]: [now] is [Date.now()], [random36] is
    [Math.random().toString(36)]. *)
Definition generateChannelName (now : Z) (random36 : string) : string :=
  let timestamp := now in
  let random := substring 2 8 random36 in
  "ai-conversation-" +:+ pretty timestamp +:+ "-" +:+ random.

(** The router's own [validateEnvironment]. *)
Definition validateEnvironment (env : gmap string string) : middleware_result :=
  if env_missing env "AGORA_APP_ID" || env_missing env "AGORA_APP_CERTIFICATE" then
    Reply (res_status_json 500 (error_body "Agora credentials are not set"))
  else Next.

(** [validateRequest].  The [validatedParams] it stores are not read by
    the handler. *)
Definition validateRequest (query : gmap string qvalue) : middleware_result :=
  let uidStr := query !! "uid" in
  let channel := query !! "channel" in
  if q_truthy uidStr
     && negb (test_digits (default "" (q_toString <$> uidStr))) then
    Reply (res_status_json 400
             (error_body "Invalid uid parameter. Must be a number"))
  else if q_truthy channel then
    match channel with
    | Some (QStr c) =>
        if (String.length c <? 1)%nat || (64 <? String.length c)%nat then
          Reply (res_status_json 400 (error_body
            "Invalid channel parameter. Length must be between 1 and 64 characters"))
        else if negb (test_alnum_hyphen c) then
          Reply (res_status_json 400 (error_body
            "Invalid channel parameter. Only alphanumeric characters and hyphens are allowed"))
        else Next
    | _ =>
        Reply (res_status_json 400
                 (error_body "Invalid channel parameter. Must be a string"))
    end
  else Next.

(** The readings of the clock and of the random source made by the
    handler of one request: [name_now] and [random36] inside
    [generateChannelName()], [issue_now] for [expirationTime]. *)
Record Draws := {
  name_now : Z;
  random36 : string;
  issue_now : Z;
}.

Section WithPlatform.
Context `{Platform}.

(** The final handler of [router.get('/', ...)].  Behind
    [validateRequest] the channel is a string or missing, and
    [channelName] is that string or the generated name; a channel of
    another type, which [validateRequest] refuses, would be passed on as
    it is and stands here as its text. *)
Definition handler (env : gmap string string) (d : Draws)
    (query : gmap string qvalue) : Outcome :=
  let uidStr := query !! "uid" in
  let channel := query !! "channel" in
  let uid := parseInt (query_or uidStr "0") in
  let channelName :=
    query_or channel (generateChannelName (name_now d) (random36 d)) in
  let expirationTime := expiration_time (issue_now d) in
  let body : Eff.t Response :=
    token <-- Eff.build_token (env !! "AGORA_APP_ID")
                (env !! "AGORA_APP_CERTIFICATE") channelName
                (UidNumber uid) PUBLISHER expirationTime expirationTime ;;
    Eff.ret (res_json (JObj [("token", JStr token);
                             ("uid", JStr (Number_toString uid));
                             ("channel", JStr channelName)])) in
  Eff.try_catch body
    (fun message =>
       res_status_json 500
         (JObj [("error", JStr "Failed to generate Agora token");
                ("details", JStr message)])).

(** [router.get('/', validateEnvironment, validateRequest, handler)] *)
Definition get (env : gmap string string) (d : Draws)
    (query : gmap string qvalue) : Outcome :=
  match validateEnvironment env with
  | Reply r => {| calls := []; reply := r |}
  | Next =>
      match validateRequest query with
      | Reply r => {| calls := []; reply := r |}
      | Next => handler env d query
      end
  end.

End WithPlatform.
End Token.

(* ===================================================================== *)
(** * index.ts: the root router *)
(* ===================================================================== *)

Module Server.
Import Types.

(** What the handlers read from outside while one request is served:
    the clock and the random source (the invite handler reads the clock
    once, as [name_now]) and the provisioning service. *)
Record World := {
  draws : Token.Draws;
  fetch : Fetch;
}.

(** The body of a validated request at its TypeScript type. *)
Definition invite_request (b : reqbody) : option InviteAgentRequest :=
  let requester :=
    match body_field b "requester_id" with
    | Some (JStr s) => Some (RequesterString s)
    | Some (JNum n) => Some (RequesterNumber n)
    | _ => None
    end in
  match requester, body_field b "channel_name" with
  | Some r, Some (JStr c) =>
      Some {| requester_id := r;
              channel_name := c;
              req_input_modalities := body_field b "input_modalities";
              req_output_modalities := body_field b "output_modalities" |}
  | _, _ => None
  end.

Inductive Served :=
  | Handled (out : Outcome)  (* a middleware or a handler replied *)
  | Unrouted                 (* no route matches: the framework's 404 *)
  | IllTyped.                (* the invite handler entered with a body
                                outside its type, where it is not followed *)

(** A path without one trailing slash. *)
Fixpoint strip_slash (path : string) : string :=
  match path with
  | "" => ""
  | String a "" => if Ascii.eqb a "/" then "" else path
  | String a rest => String a (strip_slash rest)
  end.

(** The path matches a route.  The routers are created with the defaults
    of Express: routing is not case sensitive and not strict, so that
    [/Agent/Remove] and [/agent/remove/] match [/agent/remove]. *)
Definition path_is (route path : string) : bool :=
  String.eqb (lower_case (strip_slash path)) route.

(** The method is served by [router.get]: GET, and HEAD when the route
    has no handler of its own for it (the reply is then sent without its
    body). *)
Definition serves_get (method : string) : bool :=
  String.eqb method "GET" || String.eqb method "HEAD".

Definition replied (r : Response) : Served :=
  Handled {| calls := []; reply := r |}.

Section WithPlatform.
Context `{Platform}.

(** [router.use('/token', tokenRouter); router.use('/agent', agentRouter);
    router.get('/ping', ...)].  The handlers read [req.body] as it is:
    the remove handler is followed on whatever [agent_id] holds, the
    invite handler on the bodies of its declared type. *)
Definition route (env : gmap string string) (w : World) (req : Request)
  : Served :=
  if serves_get (req_method req) && path_is "/token" (req_path req) then
    Handled (Token.get env (draws w) (req_query req))
  else if String.eqb (req_method req) "POST"
          && path_is "/agent/invite" (req_path req) then
    match invite_request (req_body req) with
    | Some r =>
        Handled (Agent.invite env (Token.name_now (draws w))
                   (Token.random36 (draws w)) (fetch w) r)
    | None => IllTyped
    end
  else if String.eqb (req_method req) "POST"
          && path_is "/agent/remove" (req_path req) then
    Handled (Agent.remove env (fetch w) (body_field (req_body req) "agent_id"))
  else if serves_get (req_method req) && path_is "/ping" (req_path req) then
    replied (res_json (JObj [("message", JStr "pong")]))
  else Unrouted.

(** The root router: [router.use(validateEnvironment);
    router.use(validateContentType); router.use(validateRequestBody);]
    followed by the routes.  A request reaches it through [cors()] and
    [express.json()], see [App.handle]. *)
Definition handle (env : gmap string string) (w : World) (req : Request)
  : Served :=
  match Validation.validateEnvironment env req with
  | Reply r => replied r
  | Next =>
      match Validation.validateContentType req with
      | Reply r => replied r
      | Next =>
          match Validation.validateRequestBody req with
          | Reply r => replied r
          | Next => route env w req
          end
      end
  end.

End WithPlatform.
End Server.

(* ===================================================================== *)
(** * index.ts: the application *)
(* ===================================================================== *)

Module App.

(** What [express.json()] finds in a request.  It parses the body exactly
    when [req.is('application/json')] is truthy, that is, when the request
    has a body and its Content-Type is JSON; a body of zero length gives
    [{}].  It accepts an object or an array only, and fails on anything
    else (text that is not JSON, a primitive at the top, a body that is
    too large, ...) with an error that carries an HTTP status. *)
Inductive Content :=
  | NotJson                                (* nothing is parsed *)
  | JsonObject (fields : gmap string json)
  | JsonArray (items : list json)
  | JsonRefused (status : Z).

(** A request as it arrives at the application. *)
Record Incoming := {
  in_method : string;
  in_path : string;
  in_query : gmap string qvalue;
  in_content : Content;
}.

(** The request as the root router sees it, once the body is parsed.
    Without a JSON body [express.json()] leaves [req.body] empty. *)
Definition request (i : Incoming) : Request :=
  {| req_method := in_method i;
     req_path := in_path i;
     req_is_json := match in_content i with NotJson => false | _ => true end;
     req_query := in_query i;
     req_body := match in_content i with
                 | JsonObject fields => ObjBody fields
                 | JsonArray items => ArrBody items
                 | _ => NoBody
                 end |}.

Inductive Answer :=
  | Preflight                    (* [cors()] ends the request: 204, no body *)
  | ParseError (status : Z)      (* the error of [express.json()], answered
                                    by the error handler of Express *)
  | Routed (s : Server.Served).  (* the root router was entered *)

(** [app.use(cors()); app.use(express.json()); app.use('/', router);] *)
Definition handle `{Platform} (env : gmap string string) (w : Server.World)
    (i : Incoming) : Answer :=
  if String.eqb (in_method i) "OPTIONS" then Preflight
  else
    match in_content i with
    | JsonRefused status => ParseError status
    | _ => Routed (Server.handle env w (request i))
    end.

(** The status line of the answer, where the embedding follows it. *)
Definition status_of (a : Answer) : option Z :=
  match a with
  | Preflight => Some 204%Z
  | ParseError status => Some status
  | Routed (Server.Handled out) => Some (status (reply out))
  | Routed Server.Unrouted => Some 404%Z
  | Routed Server.IllTyped => None
  end.

End App.

(* ===================================================================== *)
(** * Vocabulary of the properties *)
(* ===================================================================== *)

Module Spec.
Import Types.

(** [n] is a whole number greater than zero. *)
Definition positive_integer (n : number) : Prop :=
  match n with
  | Finite q => exists z : Z, (0 < z)%Z /\ Qeq q (inject_Z z)
  | _ => False
  end.

(** [n] is a whole number greater than or equal to zero. *)
Definition non_negative_integer (n : number) : Prop :=
  match n with
  | Finite q => exists z : Z, (0 <= z)%Z /\ Qeq q (inject_Z z)
  | _ => False
  end.

(** The value is a string of 3 to 64 characters. *)
Definition channel_name_ok (v : value) : Prop :=
  exists c, v = Some (JStr c) /\ 3 <= String.length c <= 64.

(** The value passes the checks made on [requester_id]. *)
Definition requester_id_ok (v : value) : Prop :=
  match v with
  | Some (JStr s) => exists a, In a (chars s) /\ is_white_space a = false
  | Some (JNum n) => positive_integer n
  | _ => False
  end.

(** A POST to [/agent/invite] carrying the given body. *)
Definition invite_post (b : reqbody) : Request :=
  {| req_method := "POST"; req_path := "/agent/invite"; req_is_json := true;
     req_query := ∅; req_body := b |}.

(** A POST to [/agent/remove] carrying the given body. *)
Definition remove_post (b : reqbody) : Request :=
  {| req_method := "POST"; req_path := "/agent/remove"; req_is_json := true;
     req_query := ∅; req_body := b |}.

(** The value is a non-empty string. *)
Definition agent_id_ok (v : value) : Prop :=
  exists s, v = Some (JStr s) /\ s <> "".

(** [a] is one of the 52 ASCII letters. *)
Definition ascii_letter (a : ascii) : Prop :=
  97 <= code a <= 122 \/ 65 <= code a <= 90.

(** The variable is bound to a non-empty string. *)
Definition present (env : gmap string string) (name : string) : Prop :=
  exists v, env !! name = Some v /\ v <> "".

Definition all_present (env : gmap string string) (names : list string) : Prop :=
  Forall (present env) names.

Definition agora_vars : list string :=
  ["AGORA_APP_ID"; "AGORA_APP_CERTIFICATE"].
Definition convo_ai_vars : list string :=
  ["AGORA_CONVO_AI_BASE_URL"; "AGORA_CUSTOMER_ID"; "AGORA_CUSTOMER_SECRET"].
Definition llm_vars : list string := ["LLM_URL"; "LLM_TOKEN"].
Definition microsoft_vars : list string :=
  ["MICROSOFT_TTS_KEY"; "MICROSOFT_TTS_REGION"; "MICROSOFT_TTS_VOICE_NAME";
   "MICROSOFT_TTS_RATE"; "MICROSOFT_TTS_VOLUME"].
Definition microsoft_key_region_voice : list string :=
  ["MICROSOFT_TTS_KEY"; "MICROSOFT_TTS_REGION"; "MICROSOFT_TTS_VOICE_NAME"].
Definition elevenlabs_vars : list string :=
  ["ELEVENLABS_API_KEY"; "ELEVENLABS_VOICE_ID"; "ELEVENLABS_MODEL_ID"].

(** The result is a configuration tagged and shaped for Microsoft. *)
Definition microsoft_shaped (r : result TTSConfig) : Prop :=
  exists key region voice_name rate volume,
    r = Ok {| vendor := Microsoft;
              params := MicrosoftTTSParams key region voice_name rate volume |}.

(** The result is a configuration tagged and shaped for ElevenLabs. *)
Definition elevenlabs_shaped (r : result TTSConfig) : Prop :=
  exists api_key voice_id model_id,
    r = Ok {| vendor := ElevenLabs;
              params := ElevenLabsTTSParams api_key voice_id model_id |}.

(** The fields of the selected TTS vendor are configured. *)
Definition tts_configured (env : gmap string string) : Prop :=
  (env !! "TTS_VENDOR" = Some "microsoft" /\ all_present env microsoft_vars)
  \/ (env !! "TTS_VENDOR" = Some "elevenlabs" /\ all_present env elevenlabs_vars).

(** Everything the agent routes need is configured. *)
Definition agent_configured (env : gmap string string) : Prop :=
  all_present env convo_ai_vars /\ all_present env llm_vars /\ tts_configured env.

(** The configuration the middleware requires for a path: the identity
    provider's credentials everywhere, the rest under [/agent] only. *)
Definition configured_for (env : gmap string string) (path : string) : Prop :=
  all_present env agora_vars
  /\ (startsWith path "/agent" = true -> agent_configured env).


(** Digits of radix 36 as [Number.prototype.toString(36)] prints them. *)
Definition radix36_digit (a : ascii) : bool := is_digit a || is_lower a.

(** The text of [x.toString(36)] for a number [0 <= x < 1]: ["0"] for
    zero, otherwise ["0."] followed by at least one digit. *)
Definition radix36_fraction (r : string) : Prop :=
  r = "0" \/
  exists ds, r = "0." +:+ ds /\ ds <> "" /\ string_forall radix36_digit ds = true.

Fixpoint strip_prefix (p s : string) : option string :=
  match p, s with
  | "", _ => Some s
  | String a p', String b s' =>
      if Ascii.eqb a b then strip_prefix p' s' else None
  | String _ _, "" => None
  end.

Fixpoint drop_while (p : ascii -> bool) (s : string) : string :=
  match s with
  | "" => ""
  | String a s' => if p a then drop_while p s' else s
  end.

(** The regular expression [^ai-conversation-\d+-[a-z0-9]{lo,hi}$]; no
    digit is a hyphen, so the digits are matched greedily. *)
Definition test_channel_pattern (lo hi : nat) (s : string) : bool :=
  match strip_prefix "ai-conversation-" s with
  | Some (String d _ as rest) =>
      is_digit d &&
      match drop_while is_digit rest with
      | String "-" suffix =>
          (lo <=? String.length suffix)%nat && (String.length suffix <=? hi)%nat
          && string_forall radix36_digit suffix
      | _ => false
      end
  | _ => false
  end.

(** The bodies of the requests sent to the provisioning service. *)
Definition provisioning_requests (events : list Event) : list AgoraStartRequest :=
  flat_map (fun e => match e with
                     | Fetched call => option_list (fetch_body call)
                     | TokenBuilt _ _ _ _ _ _ _ => []
                     end) events.

(** [secs] is the time [ms], given in milliseconds, in whole seconds. *)
Definition whole_seconds (ms secs : Z) : Prop :=
  (1000 * secs <= ms < 1000 * secs + 1000)%Z.

(** A GET of [/token] with the given query. *)
Definition token_get (query : gmap string qvalue) : Request :=
  {| req_method := "GET"; req_path := "/token"; req_is_json := false;
     req_query := query; req_body := NoBody |}.

End Spec.

(* ===================================================================== *)
(** * Sample data *)
(* ===================================================================== *)

Module Sample.
Import Types.

(** Stand-ins for the external packages, to run the handlers on examples. *)
Definition platform : Platform :=
  {| buildTokenWithUid := fun _ _ _ _ _ _ _ => Ok "007eJxzYBB";
     parseFloat := fun _ => Finite 1;
     base64 := fun s => s;
     Number_toString_other := fun _ => "1e+21" |}.

Definition agora_env : gmap string string :=
  list_to_map
    [("AGORA_APP_ID", "app-id"); ("AGORA_APP_CERTIFICATE", "app-cert")].

(** Key, region and voice name of Microsoft, without rate and volume. *)
Definition microsoft_partial_env : gmap string string :=
  list_to_map
    [("MICROSOFT_TTS_KEY", "key"); ("MICROSOFT_TTS_REGION", "eastus");
     ("MICROSOFT_TTS_VOICE_NAME", "en-US-AndrewNeural")].

Definition microsoft_env : gmap string string :=
  list_to_map
    [("AGORA_APP_ID", "app-id"); ("AGORA_APP_CERTIFICATE", "app-cert");
     ("AGORA_CONVO_AI_BASE_URL", "https://api.agora.io/api/conversational-ai-agent/v2/projects");
     ("AGORA_CUSTOMER_ID", "customer"); ("AGORA_CUSTOMER_SECRET", "secret");
     ("LLM_URL", "https://api.openai.com/v1/chat/completions");
     ("LLM_TOKEN", "sk-token"); ("LLM_MODEL", "gpt-4o-mini");
     ("TTS_VENDOR", "microsoft");
     ("MICROSOFT_TTS_KEY", "key"); ("MICROSOFT_TTS_REGION", "eastus");
     ("MICROSOFT_TTS_VOICE_NAME", "en-US-AndrewNeural");
     ("MICROSOFT_TTS_RATE", "1.1"); ("MICROSOFT_TTS_VOLUME", "70")].

Definition elevenlabs_env : gmap string string :=
  list_to_map
    [("AGORA_APP_ID", "app-id"); ("AGORA_APP_CERTIFICATE", "app-cert");
     ("TTS_VENDOR", "elevenlabs");
     ("ELEVENLABS_API_KEY", "key"); ("ELEVENLABS_VOICE_ID", "voice");
     ("ELEVENLABS_MODEL_ID", "eleven_flash_v2_5")].

(** [{requester_id: id, channel_name: "demo-chan"}] *)
Definition invite_fields (id : json) : reqbody :=
  ObjBody (list_to_map [("requester_id", id); ("channel_name", JStr "demo-chan")]).

Definition invite_1234 : InviteAgentRequest :=
  {| requester_id := RequesterString "1234";
     channel_name := "demo-chan";
     req_input_modalities := None;
     req_output_modalities := None |}.

Definition invite_user_1234 : InviteAgentRequest :=
  {| requester_id := RequesterString "user-1234";
     channel_name := "demo-chan";
     req_input_modalities := None;
     req_output_modalities := None |}.

(** The provisioning service answers every call with the given status. *)
Definition upstream (code : Z) (text : string) (parsed : result json) : Fetch :=
  fun _ => Ok {| response_status := code; response_text := text;
                 response_json := parsed |}.

Definition agent_started : json :=
  JObj [("agent_id", JStr "agent-123"); ("create_ts", JNum (number_of_Z 1234567890));
        ("state", JStr "RUNNING")].

(** The provisioning service answers 503. *)
Definition unavailable : Fetch :=
  upstream 503 "upstream down" (Throw "Unexpected token u in JSON at position 0").

(** The provisioning service answers 200 with the agent. *)
Definition available : Fetch := upstream 200 "" (Ok agent_started).

(** The call the invite handler makes for [invite_1234] under
    [microsoft_env], at time 1700000000000 with random text "0.k3j5x8q2m". *)
Definition join_1234 : FetchCall AgoraStartRequest :=
  Agent.join_call (H := platform) microsoft_env
    (Agent.requestBody microsoft_env
       "conversation-1700000000000-k3j5x8" invite_1234 "007eJxzYBB" "Agent"
       "1234"
       {| vendor := Microsoft;
          params := MicrosoftTTSParams "key" "eastus" "en-US-AndrewNeural"
                      (Finite 1) (Finite 1) |}).

Definition ping : Request :=
  {| req_method := "GET"; req_path := "/ping"; req_is_json := false;
     req_query := ∅; req_body := NoBody |}.

(** [{agent_id: 123}] *)
Definition remove_numeric_id_fields : gmap string json :=
  list_to_map [("agent_id", JNum (number_of_Z 123))].

Definition remove_numeric_id : reqbody := ObjBody remove_numeric_id_fields.

Definition draws (random36 : string) : Token.Draws :=
  {| Token.name_now := 1700000000000; Token.random36 := random36;
     Token.issue_now := 1700000000123 |}.

Definition world (random36 : string) (f : Fetch) : Server.World :=
  {| Server.draws := draws random36; Server.fetch := f |}.

End Sample.

(* ===================================================================== *)
(** * The Fastify sibling: utils/validation.ts of the Fastify server *)
(* ===================================================================== *)

Module Fastify.

(** [request.body]: Fastify's JSON parser hands over any JSON value. *)
Inductive body :=
  | Absent
  | Null
  | Boolean (b : bool)
  | Number (n : number)
  | Text (s : string)
  | Array (items : list json)
  | Object (fields : gmap string json).

(** [!body || Object.keys(body).length === 0]; a boolean or a number has
    no keys, a string has one key per character. *)
Definition body_empty (b : body) : bool :=
  match b with
  | Absent | Null | Boolean _ | Number _ => true
  | Text s => String.eqb s ""
  | Array l => bool_decide (length l = 0)
  | Object m => bool_decide (size m = 0)
  end.

(** [body.name] for the named properties the hook reads. *)
Definition body_field (b : body) (name : string) : value :=
  match b with
  | Object m => m !! name
  | _ => None
  end.

Record Request := {
  method : string;  (* request.method *)
  url : string;     (* request.url, query string included *)
  body_of : body;   (* request.body *)
}.

Definition bad_request (msg : string) : middleware_result :=
  Reply (res_status_json 400 (error_body msg)).

(** The checks made on the body of [/agent/invite], in source order. *)
Definition validateInviteBody (requester_id channel_name : value)
  : middleware_result :=
  if negb (truthy requester_id) then bad_request "requester_id is required"
  else if negb (truthy channel_name) then bad_request "channel_name is required"
  else
    let id_checked :=
      match requester_id with
      | Some (JStr s) =>
          if negb (test_alnum_hyphen s) then
            bad_request
              "requester_id must contain only alphanumeric characters and hyphens"
          else Next
      | Some (JNum n) =>
          if negb (Number_isInteger n) || number_negative n then
            bad_request
              "requester_id must be a positive integer when provided as a number"
          else Next
      | _ => bad_request "requester_id must be a string or number"
      end in
    match id_checked with
    | Reply r => Reply r
    | Next =>
        match channel_name with
        | Some (JStr c) =>
            if (String.length c <? 3)%nat || (64 <? String.length c)%nat then
              bad_request
                "channel_name length must be between 3 and 64 characters"
            else Next
        | _ => bad_request "channel_name must be a string"
        end
    end.

(** The checks made on the body of [/agent/remove]. *)
Definition validateRemoveBody (agent_id : value) : middleware_result :=
  if negb (truthy agent_id) then bad_request "agent_id is required"
  else
    match agent_id with
    | Some (JStr _) => Next
    | _ => bad_request "agent_id must be a string"
    end.

(** The [validateRequestBody] hook. *)
Definition validateRequestBody (request : Request) : middleware_result :=
  if negb (String.eqb (method request) "POST") then Next
  else if body_empty (body_of request) then bad_request "Request body is required"
  else if String.eqb (url request) "/agent/invite" then
    validateInviteBody (body_field (body_of request) "requester_id")
                       (body_field (body_of request) "channel_name")
  else if String.eqb (url request) "/agent/remove" then
    validateRemoveBody (body_field (body_of request) "agent_id")
  else Next.

(** The body of an Express request as Fastify would hold it. *)
Definition of_reqbody (b : reqbody) : body :=
  match b with
  | NoBody => Absent
  | ObjBody m => Object m
  | ArrBody l => Array l
  end.

End Fastify.

(* ===================================================================== *)
(** * Vocabulary of the route properties *)
(* ===================================================================== *)

Module RouteSpec.
Import Types Spec.

(** The value of a decimal numeral read after the digits [acc]. *)
Fixpoint digits_value_from (acc : Z) (s : string) : Z :=
  match s with
  | "" => acc
  | String a s' => digits_value_from (10 * acc + (Z.of_nat (code a) - 48))%Z s'
  end.

(** The value of a decimal numeral, most significant digit first. *)
Definition digits_value (s : string) : Z := digits_value_from 0 s.

(** [a] is an ASCII letter, a decimal digit or a hyphen. *)
Definition alnum_or_hyphen (a : ascii) : Prop :=
  ascii_letter a \/ 48 <= code a <= 57 \/ a = "-"%char.

(** The [uid] query parameter is absent, empty or made of digits. *)
Definition uid_query_ok (o : option string) : Prop :=
  forall s, o = Some s -> Forall (fun a => 48 <= code a <= 57) (chars s).

(** The [channel] query parameter is absent, empty or made of at most 64
    letters, digits and hyphens. *)
Definition channel_query_ok (o : option string) : Prop :=
  forall c, o = Some c ->
    String.length c <= 64 /\ Forall alnum_or_hyphen (chars c).

(** The [uid] of a query is missing, the empty string, or a value whose
    text is a run of one or more digits: a string of digits, or an array
    such as [['5']]. *)
Definition uid_value_ok (o : option qvalue) : Prop :=
  forall v, o = Some v ->
    v = QStr ""
    \/ (q_toString v <> ""
        /\ Forall (fun a => 48 <= code a <= 57) (chars (q_toString v))).

(** The [channel] of a query is missing, or a string that is empty or
    made of at most 64 letters, digits and hyphens. *)
Definition channel_value_ok (o : option qvalue) : Prop :=
  forall v, o = Some v ->
    exists c, v = QStr c /\ channel_query_ok (Some c).

(** The statuses with which the middlewares and handlers of the server
    reply. *)
Definition answered_statuses : list Z := [200; 400; 415; 500]%Z.

(** The subjects an error of the body validation begins with. *)
Definition validation_subjects : list string :=
  ["Request body"; "requester_id"; "channel_name"; "agent_id"].

Definition is_token_built (e : Event) : bool := negb (is_fetch e).

(** The headers of every call to the provisioning service. *)
Definition upstream_headers `{Platform} (env : gmap string string)
  : list (string * string) :=
  [("Content-Type", "application/json");
   ("Authorization",
    "Basic " +:+ base64 (env_template env "AGORA_CUSTOMER_ID" +:+ ":"
                         +:+ env_template env "AGORA_CUSTOMER_SECRET"))].

(** The address of a call to the provisioning service: the configured
    base, the application id and the path of the operation. *)
Definition upstream_url (env : gmap string string) (operation : string) : string :=
  env_template env "AGORA_CONVO_AI_BASE_URL" +:+ "/"
  +:+ env_template env "AGORA_APP_ID" +:+ operation.

(** The Express request as the Fastify hook sees it when the URL has no
    query string. *)
Definition as_fastify (req : Request) : Fastify.Request :=
  {| Fastify.method := req_method req;
     Fastify.url := req_path req;
     Fastify.body_of := Fastify.of_reqbody (req_body req) |}.

End RouteSpec.

(* ===================================================================== *)
(** * More sample data *)
(* ===================================================================== *)

Module Cases.
Import Types.

(** [{agent_id: "agent-123"}] *)
Definition remove_agent_123 : Request :=
  Spec.remove_post (ObjBody (list_to_map [("agent_id", JStr "agent-123")])).

Definition invite_1234_post : Request :=
  Spec.invite_post (Sample.invite_fields (JStr "1234")).

(** The provisioning service cannot be reached. *)
Definition unreachable : Fetch := fun _ => Throw "fetch failed".

Definition world_ok : Server.World :=
  Sample.world "0.k3j5x8q2m" Sample.available.

Definition world_503 : Server.World :=
  Sample.world "0.k3j5x8q2m" Sample.unavailable.

Definition world_down : Server.World :=
  Sample.world "0.k3j5x8q2m" unreachable.

(** The call the remove handler makes for "agent-123". *)
Definition leave_123 : FetchCall AgoraStartRequest :=
  {| fetch_url := "https://api.agora.io/api/conversational-ai-agent/v2/projects/app-id/agents/agent-123/leave";
     fetch_method := "POST";
     fetch_headers := [("Content-Type", "application/json");
                       ("Authorization", "Basic customer:secret")];
     fetch_body := None |}.

(** GET /token?uid=007&channel=test-channel *)
Definition token_007 : gmap string qvalue :=
  list_to_map [("uid", QStr "007"); ("channel", QStr "test-channel")].

(** GET /token?uid[]=5&channel[]=abc *)
Definition token_arrays : gmap string qvalue :=
  list_to_map [("uid", QArr [QStr "5"]); ("channel", QArr [QStr "abc"])].

(** POST /agent/remove/ with the JSON body [{agent_id: 123}]. *)
Definition remove_slash_123 : App.Incoming :=
  {| App.in_method := "POST"; App.in_path := "/agent/remove/";
     App.in_query := ∅;
     App.in_content := App.JsonObject Sample.remove_numeric_id_fields |}.

(** The call the remove handler makes for the number 123. *)
Definition leave_number_123 : FetchCall AgoraStartRequest :=
  {| fetch_url := "https://api.agora.io/api/conversational-ai-agent/v2/projects/app-id/agents/123/leave";
     fetch_method := "POST";
     fetch_headers := [("Content-Type", "application/json");
                       ("Authorization", "Basic customer:secret")];
     fetch_body := None |}.

(** OPTIONS /agent/invite, as a browser sends it before a POST from
    another origin. *)
Definition preflight : App.Incoming :=
  {| App.in_method := "OPTIONS"; App.in_path := "/agent/invite";
     App.in_query := ∅; App.in_content := App.NotJson |}.

(** A POST to [/token] that does not declare JSON. *)
Definition token_post_plain : App.Incoming :=
  {| App.in_method := "POST"; App.in_path := "/token";
     App.in_query := ∅; App.in_content := App.NotJson |}.

(** GET /ping *)
Definition ping : App.Incoming :=
  {| App.in_method := "GET"; App.in_path := "/ping";
     App.in_query := ∅; App.in_content := App.NotJson |}.

(** A POST to an unknown path with the JSON body [{}]. *)
Definition empty_object_post : App.Incoming :=
  {| App.in_method := "POST"; App.in_path := "/anything";
     App.in_query := ∅; App.in_content := App.JsonObject ∅ |}.

End Cases.

(* ===================================================================== *)
(** * Facts about the string helpers *)
(* ===================================================================== *)

Section StringFacts.

Lemma string_eqb_true (s t : string) : String.eqb s t = true <-> s = t.
Proof. apply String.eqb_eq. Qed.

Lemma string_eqb_false (s t : string) : String.eqb s t = false <-> s <> t.
Proof. apply String.eqb_neq. Qed.

Lemma trim_start_empty (s : string) :
  trim_start s = "" <-> string_forall is_white_space s = true.
Proof.
  induction s as [|a s IH]; simpl; [tauto|].
  destruct (is_white_space a); simpl; [exact IH|].
  split; discriminate.
Qed.

(** What [trim_start] leaves does not begin with white space. *)
Lemma trim_start_head (s : string) a t :
  trim_start s = String a t -> is_white_space a = false.
Proof.
  induction s as [|b s IH]; simpl; [discriminate|].
  destruct (is_white_space b) eqn:Hb; [exact IH|].
  intros [= -> _]. exact Hb.
Qed.

Lemma trim_end_empty (s : string) :
  trim_end s = "" <-> string_forall is_white_space s = true.
Proof.
  induction s as [|a s IH]; simpl; [tauto|].
  destruct (trim_end s) as [|b t] eqn:Ht.
  - destruct (is_white_space a); simpl.
    + tauto.
    + split; discriminate.
  - split; [discriminate|].
    intros [_ Hs]%andb_prop. apply IH in Hs. discriminate.
Qed.

(** [s.trim() === ''] exactly when [s] consists of white space only. *)
Lemma trim_empty (s : string) :
  trim s = "" <-> string_forall is_white_space s = true.
Proof.
  unfold trim. rewrite trim_end_empty.
  destruct (trim_start s) as [|a t] eqn:Hs.
  - apply trim_start_empty in Hs. simpl. tauto.
  - apply trim_start_head in Hs as Ha. simpl. rewrite Ha. simpl.
    split; [discriminate|].
    intros Hall. apply trim_start_empty in Hall. congruence.
Qed.

Lemma string_forall_false (p : ascii -> bool) (s : string) :
  string_forall p s = false <-> exists a, In a (chars s) /\ p a = false.
Proof.
  unfold chars. induction s as [|b s IH]; simpl.
  - split; [discriminate|]. intros (a & [] & _).
  - destruct (p b) eqn:Hb; simpl.
    + rewrite IH. split.
      * intros (a & Hin & Ha). eauto.
      * intros (a & [<-|Hin] & Ha); [congruence|eauto].
    + split; [|reflexivity]. intros _. eauto.
Qed.

Lemma string_exists_true (p : ascii -> bool) (s : string) :
  string_exists p s = true <-> exists a, In a (chars s) /\ p a = true.
Proof.
  unfold chars. induction s as [|b s IH]; simpl.
  - split; [discriminate|]. intros (a & [] & _).
  - destruct (p b) eqn:Hb; simpl.
    + split; [|reflexivity]. intros _. eauto.
    + rewrite IH. split.
      * intros (a & Hin & Ha). eauto.
      * intros (a & [<-|Hin] & Ha); [congruence|eauto].
Qed.

End StringFacts.

(* ===================================================================== *)
(** * Field validation of [/agent/invite] and [/agent/remove] *)
(* ===================================================================== *)

Module ValidationFacts.
Import Validation Spec.

Lemma isInteger_spec (q : Q) :
  Number_isInteger (Finite q) = true <-> exists z : Z, Qeq q (inject_Z z).
Proof.
  unfold Number_isInteger, Qeq, inject_Z. simpl.
  rewrite Z.eqb_eq. split.
  - intros Hmod. exists (Qnum q / Z.pos (Qden q))%Z.
    apply Z_div_exact_full_2 in Hmod; lia.
  - intros [z Hz]. rewrite Z.mul_1_r in Hz. rewrite Hz.
    apply Z_mod_mult.
Qed.

Lemma positive_integer_spec (n : number) :
  positive_integer n <->
  number_falsy n = false /\ Number_isInteger n = true /\ number_negative n = false.
Proof.
  destruct n as [| neg | q]; simpl; try (split; [tauto | intros (_ & H & _); discriminate]).
  change ((Qnum q mod Z.pos (Qden q) =? 0)%Z) with (Number_isInteger (Finite q)).
  rewrite isInteger_spec, Z.eqb_neq, Z.ltb_ge. unfold Qeq, inject_Z. simpl.
  split.
  - intros (z & Hz & Heq). rewrite Z.mul_1_r in Heq.
    split; [nia|]. split; [exists z; lia | nia].
  - intros (Hne & [z Heq] & Hpos). exists z. rewrite Z.mul_1_r in Heq |- *.
    split; [nia | exact Heq].
Qed.

Lemma requester_string_spec (s : string) :
  (exists a, In a (chars s) /\ is_white_space a = false) <->
  truthy (Some (JStr s)) = true /\ String.eqb (trim s) "" = false.
Proof.
  rewrite <- string_forall_false, string_eqb_false. simpl.
  rewrite negb_true_iff, string_eqb_false.
  split.
  - intros Hall. split.
    + intros ->. discriminate.
    + rewrite trim_empty. congruence.
  - intros [_ Htrim]. rewrite trim_empty in Htrim.
    destruct (string_forall is_white_space s); congruence.
Qed.

Lemma body_field_not_empty (b : reqbody) (k : string) (v : json) :
  body_field b k = Some v -> body_empty b = false.
Proof.
  destruct b as [| m | l]; simpl; try discriminate.
  intros Hk. apply bool_decide_eq_false.
  apply (map_size_ne_0_lookup_2 m k). eauto.
Qed.

(** On a POST to [/agent/invite] with some field present, the middleware
    is the chain of invite checks. *)
Lemma validateRequestBody_invite (req : Request) (k : string) (v : json) :
  req_method req = "POST" -> req_path req = "/agent/invite" ->
  body_field (req_body req) k = Some v ->
  validateRequestBody req =
    validateInviteBody (body_field (req_body req) "requester_id")
                       (body_field (req_body req) "channel_name").
Proof.
  intros Hm Hp Hk. unfold validateRequestBody.
  rewrite Hm, Hp, (body_field_not_empty _ _ _ Hk). reflexivity.
Qed.

Lemma channel_length_check (c : string) :
  (String.length c <? 3)%nat || (64 <? String.length c)%nat = false <->
  3 <= String.length c <= 64.
Proof.
  rewrite orb_false_iff, !Nat.ltb_ge. lia.
Qed.

(** The chain of invite checks accepts exactly the pairs whose two
    fields are both acceptable. *)
Lemma validateInviteBody_Next (rid ch : value) :
  validateInviteBody rid ch = Next <-> requester_id_ok rid /\ channel_name_ok ch.
Proof.
  unfold validateInviteBody, bad_request, channel_name_ok.
  destruct (truthy rid) eqn:Hrid; simpl.
  2:{ split; [discriminate|]. intros [Hok _].
      destruct rid as [[| | n | s | |]|]; simpl in Hok; try tauto.
      - apply positive_integer_spec in Hok as (Hf & _). simpl in Hrid.
        rewrite Hf in Hrid. discriminate.
      - apply requester_string_spec in Hok as [Ht _]. congruence. }
  destruct (truthy ch) eqn:Hch; simpl.
  2:{ split; [discriminate|]. intros [_ (c & -> & Hlen)].
      simpl in Hch. destruct c; simpl in *; [lia | discriminate]. }
  destruct rid as [[| b | n | s | l | l]|]; simpl;
    try (split; [discriminate | tauto]).
  - (* number *)
    destruct (negb (Number_isInteger n) || number_negative n) eqn:Hn.
    + split; [discriminate|]. intros [Hok _].
      apply positive_integer_spec in Hok as (_ & Hi & Hneg).
      rewrite Hi, Hneg in Hn. discriminate.
    + apply orb_false_iff in Hn as [Hi%negb_false_iff Hneg].
      assert (positive_integer n) as Hpos.
      { apply positive_integer_spec. simpl in Hrid.
        apply negb_true_iff in Hrid. auto. }
      destruct ch as [[| | | c | |]|]; try (split; [discriminate|];
        intros [_ (c' & [=] & _)]).
      destruct ((String.length c <? 3)%nat || (64 <? String.length c)%nat) eqn:Hlen.
      * split; [discriminate|]. intros [_ (c' & [= <-] & Hc)].
        apply channel_length_check in Hc. congruence.
      * apply channel_length_check in Hlen. split; [|reflexivity].
        intros _. split; [exact Hpos | eauto].
  - (* string *)
    destruct (String.eqb (trim s) "") eqn:Hs.
    + split; [discriminate|]. intros [Hok _].
      apply requester_string_spec in Hok as [_ Ht]. congruence.
    + assert (requester_id_ok (Some (JStr s))) as Hok.
      { apply requester_string_spec. auto. }
      destruct ch as [[| | | c | |]|]; try (split; [discriminate|];
        intros [_ (c' & [=] & _)]).
      destruct ((String.length c <? 3)%nat || (64 <? String.length c)%nat) eqn:Hlen.
      * split; [discriminate|]. intros [_ (c' & [= <-] & Hc)].
        apply channel_length_check in Hc. congruence.
      * apply channel_length_check in Hlen. split; [|reflexivity].
        intros _. split; [exact Hok | eauto].
Qed.

End ValidationFacts.

Module InviteFields.
Import Validation Spec ValidationFacts.

(** Once [requester_id] is acceptable, only the checks on
    [channel_name] remain. *)
Lemma validateInviteBody_channel (rid ch : value) :
  requester_id_ok rid ->
  validateInviteBody rid ch =
    if negb (truthy ch) then bad_request "channel_name is required"
    else match ch with
         | Some (JStr c) =>
             if (String.length c <? 3)%nat || (64 <? String.length c)%nat then
               bad_request
                 "channel_name length must be between 3 and 64 characters"
             else Next
         | _ => bad_request "channel_name must be a string"
         end.
Proof.
  intros Hok. unfold validateInviteBody.
  destruct rid as [[| b | n | s | l | l]|]; simpl in Hok; try tauto.
  - apply positive_integer_spec in Hok as (Hf & Hi & Hneg).
    simpl. rewrite Hf, Hi, Hneg. reflexivity.
  - apply requester_string_spec in Hok as [Ht Htrim].
    rewrite Ht, Htrim. reflexivity.
Qed.

Lemma requester_id_ok_field (b : reqbody) :
  requester_id_ok (body_field b "requester_id") ->
  exists v, body_field b "requester_id" = Some v.
Proof. destruct (body_field b "requester_id"); [eauto | intros []]. Qed.

(** C2 (amended).  On a POST to /agent/invite whose channel_name is
    acceptable, a requester_id given as a number is accepted exactly when
    it is an integer greater than zero (0 is refused), and one given as a
    string exactly when it has a character that is not white space. *)
Theorem requester_id_accepted_iff (req : Request) :
  req_method req = "POST" -> req_path req = "/agent/invite" ->
  channel_name_ok (body_field (req_body req) "channel_name") ->
  (forall n, body_field (req_body req) "requester_id" = Some (JNum n) ->
     (validateRequestBody req = Next <-> positive_integer n))
  /\ (forall s, body_field (req_body req) "requester_id" = Some (JStr s) ->
        (validateRequestBody req = Next <->
         exists a, In a (chars s) /\ is_white_space a = false)).
Proof.
  intros Hm Hp Hch.
  assert (validateRequestBody req =
            validateInviteBody (body_field (req_body req) "requester_id")
                               (body_field (req_body req) "channel_name")) as ->.
  { destruct Hch as (c & Hc & _).
    exact (validateRequestBody_invite req _ _ Hm Hp Hc). }
  split; intros x Hx; rewrite validateInviteBody_Next, Hx; simpl; tauto.
Qed.

Lemma requester_id_accepted_iff_witness :
  validateRequestBody
    (invite_post (Sample.invite_fields (JNum (number_of_Z 7)))) = Next.
Proof.
  assert (channel_name_ok
            (body_field (Sample.invite_fields (JNum (number_of_Z 7)))
               "channel_name")) as Hch.
  { exists "demo-chan". split; [vm_compute; reflexivity | simpl; lia]. }
  destruct (requester_id_accepted_iff
              (invite_post (Sample.invite_fields (JNum (number_of_Z 7))))
              eq_refl eq_refl Hch) as [Hnum _].
  apply (Hnum (number_of_Z 7)); [vm_compute; reflexivity|].
  exists 7%Z. split; [lia | reflexivity].
Defined.

(** C2, the claim as stated, fails at requester_id = 0: zero is a
    non-negative integer and the request is refused. *)
Lemma requester_id_zero_refused :
  non_negative_integer (number_of_Z 0)
  /\ validateRequestBody
       (invite_post (Sample.invite_fields (JNum (number_of_Z 0))))
     = bad_request "requester_id is required".
Proof.
  split; [|vm_compute; reflexivity].
  exists 0%Z. split; [lia | reflexivity].
Qed.

(** A string of blanks is not empty, and it is refused as well. *)
Example requester_id_blank_refused :
  validateRequestBody (invite_post (Sample.invite_fields (JStr "   ")))
  = bad_request "requester_id cannot be empty".
Proof. vm_compute. reflexivity. Qed.

Example requester_id_1234_accepted :
  validateRequestBody (invite_post (Sample.invite_fields (JStr "1234"))) = Next.
Proof. vm_compute. reflexivity. Qed.

(** C5 (amended).  On a POST to /agent/invite, validation accepts only
    when channel_name is a string of 3 to 64 characters; once requester_id
    has passed its own checks it accepts exactly then, and every other
    channel_name is refused with status 400 and a message that begins
    with the field name channel_name. *)
Theorem channel_name_accepted_iff (req : Request) :
  req_method req = "POST" -> req_path req = "/agent/invite" ->
  (validateRequestBody req = Next ->
   channel_name_ok (body_field (req_body req) "channel_name"))
  /\ (requester_id_ok (body_field (req_body req) "requester_id") ->
      (validateRequestBody req = Next <->
       channel_name_ok (body_field (req_body req) "channel_name"))
      /\ (~ channel_name_ok (body_field (req_body req) "channel_name") ->
          exists msg,
            validateRequestBody req
            = Reply (res_status_json 400 (error_body msg))
            /\ startsWith msg "channel_name" = true)).
Proof.
  intros Hm Hp. split.
  - unfold validateRequestBody. rewrite Hm, Hp. simpl.
    destruct (body_empty (req_body req)); [discriminate|].
    intros Hnext. apply validateInviteBody_Next in Hnext. tauto.
  - intros Hid. destruct (requester_id_ok_field _ Hid) as [v Hv].
    rewrite (validateRequestBody_invite req _ _ Hm Hp Hv).
    split; [rewrite validateInviteBody_Next; tauto|].
    rewrite (validateInviteBody_channel _ _ Hid). unfold bad_request.
    intros Hbad.
    destruct (truthy (body_field (req_body req) "channel_name")); simpl;
      [|eexists; split; [reflexivity | reflexivity]].
    destruct (body_field (req_body req) "channel_name")
      as [[| b | n | c | l | l]|];
      try (eexists; split; [reflexivity | reflexivity]).
    destruct ((String.length c <? 3)%nat || (64 <? String.length c)%nat) eqn:Hlen;
      [eexists; split; [reflexivity | reflexivity]|].
    apply channel_length_check in Hlen. destruct Hbad. exists c. auto.
Qed.

Lemma channel_name_accepted_iff_witness :
  exists msg,
    validateRequestBody
      (invite_post (ObjBody (list_to_map
         [("requester_id", JStr "1234"); ("channel_name", JStr "ab")])))
    = Reply (res_status_json 400 (error_body msg))
    /\ startsWith msg "channel_name" = true.
Proof.
  apply (channel_name_accepted_iff
           (invite_post (ObjBody (list_to_map
              [("requester_id", JStr "1234"); ("channel_name", JStr "ab")])))
           eq_refl eq_refl).
  - exists "1"%char. split; [left; reflexivity | reflexivity].
  - intros (c & Hc & Hlen). vm_compute in Hc. injection Hc as <-.
    simpl in Hlen. lia.
Defined.

(** C5, the claim as stated, fails at {requester_id: 0, channel_name:
    "ab"}: the channel_name is too short, and the request is refused with
    an error that names requester_id, which is checked first. *)
Lemma short_channel_name_behind_requester_id :
  ~ channel_name_ok
      (body_field
         (ObjBody (list_to_map
            [("requester_id", JNum (number_of_Z 0)); ("channel_name", JStr "ab")]))
         "channel_name")
  /\ validateRequestBody
       (invite_post (ObjBody (list_to_map
          [("requester_id", JNum (number_of_Z 0)); ("channel_name", JStr "ab")])))
     = Reply (res_status_json 400 (error_body "requester_id is required"))
  /\ startsWith "requester_id is required" "channel_name" = false.
Proof.
  split; [|split; vm_compute; reflexivity].
  intros (c & Hc & Hlen). vm_compute in Hc. injection Hc as <-.
  simpl in Hlen. lia.
Qed.

End InviteFields.

(* ===================================================================== *)
(** * Text-to-speech configuration *)
(* ===================================================================== *)

Module TTSFacts.
Import Types Spec.

Lemma env_missing_false (env : gmap string string) (k : string) :
  env_missing env k = false <-> present env k.
Proof.
  unfold env_missing, present. destruct (env !! k) as [v|].
  - rewrite string_eqb_false. split; [eauto|]. intros (v' & [= <-] & Hv). exact Hv.
  - split; [discriminate|]. intros (v & [=] & _).
Qed.

Lemma env_missing_true (env : gmap string string) (k : string) :
  env_missing env k = true <-> ~ present env k.
Proof.
  rewrite <- env_missing_false. destruct (env_missing env k); split; congruence.
Qed.

(** Rewrites a chain of [env_missing] tests into [all_present]. *)
Ltac present_chain :=
  unfold all_present;
  repeat rewrite Forall_cons; rewrite ?Forall_nil;
  repeat rewrite orb_false_iff; repeat rewrite env_missing_false.

Lemma microsoft_vars_checked (env : gmap string string) :
  env_missing env "MICROSOFT_TTS_KEY"
  || env_missing env "MICROSOFT_TTS_REGION"
  || env_missing env "MICROSOFT_TTS_VOICE_NAME"
  || env_missing env "MICROSOFT_TTS_RATE"
  || env_missing env "MICROSOFT_TTS_VOLUME" = false
  <-> all_present env microsoft_vars.
Proof. unfold microsoft_vars. present_chain. tauto. Qed.

Lemma elevenlabs_vars_checked (env : gmap string string) :
  env_missing env "ELEVENLABS_API_KEY"
  || env_missing env "ELEVENLABS_VOICE_ID"
  || env_missing env "ELEVENLABS_MODEL_ID" = false
  <-> all_present env elevenlabs_vars.
Proof. unfold elevenlabs_vars. present_chain. tauto. Qed.

(** Closes the cases of a case analysis on a thrown or returned result. *)
Ltac settle :=
  repeat split; intros;
  repeat match goal with
         | H : _ /\ _ |- _ => destruct H
         | H : ex _ |- _ => destruct H
         | H : Throw _ = Throw _ |- _ => vm_compute in H; discriminate H
         end;
  try discriminate; try congruence; try tauto;
  try (repeat eexists; fail).

Section WithPlatform.
Context `{Platform}.

(** C3 (amended).  getTTSConfig returns a Microsoft-shaped configuration
    exactly when the vendor is "microsoft" and key, region, voice name,
    rate and volume are all present; with that vendor and one of the five
    missing it throws the Microsoft configuration error.  It returns an
    ElevenLabs-shaped configuration exactly when the vendor is
    "elevenlabs" and key, voice id and model id are present, and throws
    the ElevenLabs configuration error otherwise for that vendor.  Any
    other vendor throws "Unsupported TTS vendor". *)
Theorem getTTSConfig_cases (env : gmap string string) (v : string) :
  (microsoft_shaped (Agent.getTTSConfig env v)
   <-> v = "microsoft" /\ all_present env microsoft_vars)
  /\ (Agent.getTTSConfig env v
      = Throw "Missing Microsoft TTS environment variables"
      <-> v = "microsoft" /\ ~ all_present env microsoft_vars)
  /\ (elevenlabs_shaped (Agent.getTTSConfig env v)
      <-> v = "elevenlabs" /\ all_present env elevenlabs_vars)
  /\ (Agent.getTTSConfig env v = Throw "Missing ElevenLabs environment variables"
      <-> v = "elevenlabs" /\ ~ all_present env elevenlabs_vars)
  /\ (Agent.getTTSConfig env v = Throw ("Unsupported TTS vendor: " +:+ v)
      <-> v <> "microsoft" /\ v <> "elevenlabs").
Proof.
  unfold Agent.getTTSConfig, microsoft_shaped, elevenlabs_shaped. simpl.
  destruct (String.eqb v "microsoft") eqn:Hm.
  { apply string_eqb_true in Hm as ->.
    pose proof (microsoft_vars_checked env) as Hchk.
    destruct (env_missing env "MICROSOFT_TTS_KEY"
              || env_missing env "MICROSOFT_TTS_REGION"
              || env_missing env "MICROSOFT_TTS_VOICE_NAME"
              || env_missing env "MICROSOFT_TTS_RATE"
              || env_missing env "MICROSOFT_TTS_VOLUME").
    - assert (~ all_present env microsoft_vars) as Hno
        by (intros Hall; apply Hchk in Hall; discriminate).
      settle.
    - assert (all_present env microsoft_vars) as Hall by (apply Hchk; reflexivity).
      settle. }
  apply string_eqb_false in Hm.
  destruct (String.eqb v "elevenlabs") eqn:He.
  { apply string_eqb_true in He as ->.
    pose proof (elevenlabs_vars_checked env) as Hchk.
    destruct (env_missing env "ELEVENLABS_API_KEY"
              || env_missing env "ELEVENLABS_VOICE_ID"
              || env_missing env "ELEVENLABS_MODEL_ID").
    - assert (~ all_present env elevenlabs_vars) as Hno
        by (intros Hall; apply Hchk in Hall; discriminate).
      settle.
    - assert (all_present env elevenlabs_vars) as Hall by (apply Hchk; reflexivity).
      settle. }
  apply string_eqb_false in He.
  settle.
Qed.

End WithPlatform.

(** C3, the claim as stated, fails when key, region and voice name are
    present and the rate and the volume are not: the vendor is
    "microsoft", the three values are there, and no configuration comes
    back. *)
Lemma microsoft_key_region_voice_not_enough :
  all_present Sample.microsoft_partial_env microsoft_key_region_voice
  /\ Agent.getTTSConfig (H := Sample.platform) Sample.microsoft_partial_env
       "microsoft"
     = Throw "Missing Microsoft TTS environment variables"
  /\ ~ microsoft_shaped
         (Agent.getTTSConfig (H := Sample.platform)
            Sample.microsoft_partial_env "microsoft").
Proof.
  split; [|split].
  - repeat constructor; eexists; (split; [vm_compute; reflexivity | discriminate]).
  - vm_compute. reflexivity.
  - intros (? & ? & ? & ? & ? & Heq). vm_compute in Heq. discriminate.
Qed.

Example microsoft_resolved :
  Agent.getTTSConfig (H := Sample.platform) Sample.microsoft_env "microsoft"
  = Ok {| vendor := Microsoft;
          params := MicrosoftTTSParams "key" "eastus" "en-US-AndrewNeural"
                      (Finite 1) (Finite 1) |}.
Proof. vm_compute. reflexivity. Qed.

Example elevenlabs_resolved :
  Agent.getTTSConfig (H := Sample.platform) Sample.elevenlabs_env "elevenlabs"
  = Ok {| vendor := ElevenLabs;
          params := ElevenLabsTTSParams "key" "voice" "eleven_flash_v2_5" |}.
Proof. vm_compute. reflexivity. Qed.

Example unknown_vendor_refused :
  Agent.getTTSConfig (H := Sample.platform) Sample.microsoft_env "polly"
  = Throw "Unsupported TTS vendor: polly".
Proof. vm_compute. reflexivity. Qed.

End TTSFacts.

(* ===================================================================== *)
(** * Decimal numerals and generated names *)
(* ===================================================================== *)

Module TokenFacts.
Import Types Spec.

Lemma pretty_N_char_digit (n : N) : is_digit (pretty_N_char n) = true.
Proof.
  destruct n as [|p]; [reflexivity|].
  do 4 (destruct p as [p|p|]; try reflexivity).
Qed.

Lemma pretty_N_go_digits (x : N) (s : string) :
  string_forall is_digit s = true ->
  string_forall is_digit (pretty_N_go x s) = true.
Proof.
  revert s. induction (N.lt_wf_0 x) as [x _ IH]. intros s Hs.
  destruct (decide (0 < x)%N) as [Hx|Hx].
  - rewrite pretty_N_go_step by exact Hx.
    apply IH; [apply N.div_lt; lia|].
    simpl. rewrite pretty_N_char_digit. exact Hs.
  - assert (x = 0%N) as -> by lia. rewrite pretty_N_go_0. exact Hs.
Qed.

Lemma pretty_N_go_nonempty (x : N) (s : string) :
  s <> "" -> pretty_N_go x s <> "".
Proof.
  revert s. induction (N.lt_wf_0 x) as [x _ IH]. intros s Hs.
  destruct (decide (0 < x)%N) as [Hx|Hx].
  - rewrite pretty_N_go_step by exact Hx.
    apply IH; [apply N.div_lt; lia | discriminate].
  - assert (x = 0%N) as -> by lia. rewrite pretty_N_go_0. exact Hs.
Qed.

(** The decimal numeral of a non-negative integer: one digit or more,
    and digits only. *)
Lemma pretty_Z_digits (z : Z) :
  (0 <= z)%Z -> pretty z <> "" /\ string_forall is_digit (pretty z) = true.
Proof.
  intros Hz. destruct z as [|p|p]; [split; [discriminate | reflexivity] | | lia].
  unfold pretty, pretty_Z, pretty, pretty_positive, pretty, pretty_N.
  destruct (decide (N.pos p = 0%N)) as [[=]|_].
  rewrite pretty_N_go_step by lia. split.
  - apply pretty_N_go_nonempty. discriminate.
  - apply pretty_N_go_digits. simpl. rewrite pretty_N_char_digit. reflexivity.
Qed.

Lemma string_take_length (n : nat) (s : string) :
  String.length (string_take n s) = Nat.min n (String.length s).
Proof.
  revert s. induction n as [|n IH]; intros [|a s]; simpl; auto.
Qed.

Lemma string_take_forall (p : ascii -> bool) (n : nat) (s : string) :
  string_forall p s = true -> string_forall p (string_take n s) = true.
Proof.
  revert s. induction n as [|n IH]; intros [|a s]; simpl; auto.
  intros [Ha Hs]%andb_prop. rewrite Ha. simpl. auto.
Qed.

(** The random part of a generated name: at most six digits of radix 36,
    six of them only if the text of the random number has that many. *)
Lemma random_suffix (random36 : string) :
  radix36_fraction random36 ->
  string_forall radix36_digit (substring 2 8 random36) = true
  /\ String.length (substring 2 8 random36)
     = Nat.min 6 (String.length random36 - 2).
Proof.
  intros [-> | (ds & -> & _ & Hds)]; [split; reflexivity|].
  change (substring 2 8 ("0." +:+ ds)) with (string_take 6 ds).
  change (String.length ("0." +:+ ds)) with (S (S (String.length ds))).
  split; [apply string_take_forall, Hds|].
  rewrite string_take_length. f_equal. lia.
Qed.

Lemma drop_while_app (p : ascii -> bool) (s t : string) (c : ascii) :
  string_forall p s = true -> p c = false ->
  drop_while p (s +:+ String c t) = String c t.
Proof.
  intros Hs Hc. induction s as [|a s IH].
  - change ("" +:+ String c t) with (String c t). simpl. rewrite Hc. reflexivity.
  - simpl in Hs. apply andb_prop in Hs as [Ha Hs].
    change (String a s +:+ String c t) with (String a (s +:+ String c t)).
    simpl. rewrite Ha. auto.
Qed.

(** How the pattern reads a name made of digits, a hyphen and a suffix. *)
Lemma test_channel_pattern_name (lo hi : nat) (ts suffix : string) :
  ts <> "" -> string_forall is_digit ts = true ->
  string_forall radix36_digit suffix = true ->
  test_channel_pattern lo hi ("ai-conversation-" +:+ ts +:+ "-" +:+ suffix)
  = (lo <=? String.length suffix)%nat && (String.length suffix <=? hi)%nat.
Proof.
  intros Hne Hts Hsuf. unfold test_channel_pattern.
  change (strip_prefix "ai-conversation-"
            ("ai-conversation-" +:+ ts +:+ "-" +:+ suffix))
    with (Some (ts +:+ "-" +:+ suffix)).
  destruct ts as [|d ts]; [congruence|].
  change (String d ts +:+ "-" +:+ suffix)
    with (String d (ts +:+ String "-" suffix)).
  change (String d (ts +:+ String "-" suffix))
    with (String d ts +:+ String "-" suffix) at 2.
  rewrite (drop_while_app is_digit (String d ts) suffix "-" Hts eq_refl).
  simpl in Hts. apply andb_prop in Hts as [-> _].
  rewrite Hsuf. simpl. rewrite andb_true_r. reflexivity.
Qed.

End TokenFacts.

(* ===================================================================== *)
(** * The invite and remove handlers *)
(* ===================================================================== *)

Module AgentFacts.
Import Types Spec.

Lemma is_letter_spec (a : ascii) : is_letter a = true <-> ascii_letter a.
Proof.
  unfold is_letter, is_lower, is_upper, ascii_letter.
  rewrite orb_true_iff, !andb_true_iff, !Nat.leb_le. tauto.
Qed.

(** [/[a-zA-Z]/.test(s)] holds exactly when [s] has an ASCII letter. *)
Lemma test_has_letter_spec (s : string) :
  test_has_letter s = true <-> exists a, In a (chars s) /\ ascii_letter a.
Proof.
  unfold test_has_letter. rewrite string_exists_true.
  split; intros (a & Hin & Ha); exists a; split; auto; apply is_letter_spec, Ha.
Qed.

(** A digit is not a letter, and neither is the minus sign: a decimal
    numeral has no ASCII letter. *)
Lemma digits_no_letter (s : string) :
  string_forall is_digit s = true -> test_has_letter s = false.
Proof.
  unfold test_has_letter. induction s as [|a s IH]; simpl; [reflexivity|].
  intros [Ha Hs]%andb_prop. rewrite (IH Hs), orb_false_r.
  destruct a as [[] [] [] [] [] [] [] []]; vm_compute in Ha |- *; congruence.
Qed.

Lemma pretty_Z_no_letter (z : Z) : test_has_letter (pretty z) = false.
Proof.
  destruct z as [|p|p].
  - reflexivity.
  - apply digits_no_letter, (TokenFacts.pretty_Z_digits (Z.pos p)). lia.
  - change (pretty (Z.neg p)) with ("-" +:+ pretty (Z.pos p)).
    change (test_has_letter ("-" +:+ pretty (Z.pos p)))
      with (test_has_letter (pretty (Z.pos p))).
    apply digits_no_letter, (TokenFacts.pretty_Z_digits (Z.pos p)). lia.
Qed.

Section WithPlatform.
Context `{Platform}.

(** A whole number up to 2^53 in absolute value prints as its decimal
    numeral. *)
Lemma Number_toString_whole (q : Q) (z : Z) :
  Qeq q (inject_Z z) -> (Z.abs z <= 2 ^ 53)%Z ->
  Number_toString (Finite q) = pretty z.
Proof.
  intros Hq Hz. unfold Number_toString.
  assert (Number_isInteger (Finite q) = true) as ->
    by (apply ValidationFacts.isInteger_spec; eauto).
  assert (Qnum q / Z.pos (Qden q) = z)%Z as ->.
  { unfold Qeq, inject_Z in Hq. simpl in Hq. rewrite Z.mul_1_r in Hq.
    rewrite Hq. apply Z.div_mul. discriminate. }
  assert ((Z.abs z <=? 2 ^ 53)%Z = true) as -> by (apply Z.leb_le; exact Hz).
  reflexivity.
Qed.

(** Every run of the invite handler, by the step at which it ends. *)
Lemma invite_cases (env : gmap string string) (now : Z) (random36 : string)
    (fetch : Fetch) (req : InviteAgentRequest) :
  let agentUid := env_or env "AGENT_UID" "Agent" in
  let built :=
    TokenBuilt (env !! "AGORA_APP_ID") (env !! "AGORA_APP_CERTIFICATE")
      (channel_name req) (UidString agentUid) PUBLISHER
      (now / 1000 + 3600)%Z (now / 1000 + 3600)%Z in
  let out := Agent.invite env now random36 fetch req in
  let failed msg := res_status_json 500 (error_body msg) in
  (exists msg, out = {| calls := [built]; reply := failed msg |})
  \/ exists token ttsConfig,
       let call :=
         Agent.join_call env
           (Agent.requestBody env
              ("conversation-" +:+ pretty now +:+ "-" +:+ substring 2 8 random36)
              req token agentUid
              (Agent.requester_toString (requester_id req)) ttsConfig) in
       Agent.getTTSConfig env (env_template env "TTS_VENDOR") = Ok ttsConfig
       /\ ((exists msg,
              fetch call = Throw msg
              /\ out = {| calls := [built; Fetched call]; reply := failed msg |})
           \/ (exists response,
                 fetch call = Ok response /\ response_ok response = false
                 /\ out = {| calls := [built; Fetched call];
                             reply := failed ("Failed to start conversation: "
                                              +:+ pretty (response_status response)) |})
           \/ (exists response msg,
                 fetch call = Ok response /\ response_ok response = true
                 /\ response_json response = Throw msg
                 /\ out = {| calls := [built; Fetched call]; reply := failed msg |})
           \/ (exists response data,
                 fetch call = Ok response /\ response_ok response = true
                 /\ response_json response = Ok data
                 /\ out = {| calls := [built; Fetched call];
                             reply := res_json data |})).
Proof.
  intros agentUid built out failed. subst out.
  unfold Agent.invite, Agent.invite_body, Eff.try_catch, Eff.bind,
    Eff.build_token, Eff.do_fetch, Eff.lift, Eff.throw, Eff.ret, expiration_time.
  fold agentUid. fold built.
  destruct (buildTokenWithUid _ _ _ _ _ _ _) as [token|msg]; [|left; eauto].
  destruct (env_missing env "TTS_VENDOR"); [left; eauto|].
  destruct (Agent.getTTSConfig _ _) as [ttsConfig|msg]; [|left; eauto].
  right. exists token, ttsConfig. split; [reflexivity|].
  change ("conversation" +:+ "-" +:+ pretty now +:+ "-" +:+ substring 2 8 random36)
    with ("conversation-" +:+ pretty now +:+ "-" +:+ substring 2 8 random36).
  destruct (fetch _) as [response|msg]; [|left; eauto].
  right. destruct (response_ok response) eqn:Hok; simpl.
  - right. destruct (response_json response) as [data|msg] eqn:Hjson;
      [right|left]; do 2 eexists; repeat split; eauto.
  - left. eexists; repeat split; eauto.
Qed.

(** The handler calls the provisioning service at most once, with the
    composed request. *)
Lemma invite_fetched (env : gmap string string) (now : Z) (random36 : string)
    (fetch : Fetch) (req : InviteAgentRequest) (call : FetchCall AgoraStartRequest) :
  In (Fetched call) (calls (Agent.invite env now random36 fetch req)) ->
  filter is_fetch (calls (Agent.invite env now random36 fetch req)) = [Fetched call]
  /\ exists uniqueName token ttsConfig,
       call = Agent.join_call env
                (Agent.requestBody env uniqueName req token
                   (env_or env "AGENT_UID" "Agent")
                   (Agent.requester_toString (requester_id req)) ttsConfig).
Proof.
  destruct (invite_cases env now random36 fetch req)
    as [[msg ->] | (token & ttsConfig & _ & Hrun)]; simpl.
  - intros [[=]|[]].
  - destruct Hrun as [(msg & _ & ->) | [(resp & _ & _ & ->)
      | [(resp & msg & _ & _ & _ & ->) | (resp & data & _ & _ & _ & ->)]]];
      simpl; (intros [[=]|[[= <-]|[]]]); (split; [reflexivity | eauto]).
Qed.

End WithPlatform.
End AgentFacts.

Module InviteClaims.
Import Types Spec.

Section WithPlatform.
Context `{Platform}.

(** A POST to [/agent/invite] is answered by a middleware, without any
    external call, or by the invite handler run on the typed body. *)
Lemma handle_invite (env : gmap string string) (w : Server.World)
    (req : Request) (out : Outcome) :
  req_method req = "POST" -> req_path req = "/agent/invite" ->
  Server.handle env w req = Server.Handled out ->
  calls out = []
  \/ exists r,
       Server.invite_request (req_body req) = Some r
       /\ Validation.validateRequestBody req = Next
       /\ out = Agent.invite env (Token.name_now (Server.draws w))
                  (Token.random36 (Server.draws w)) (Server.fetch w) r.
Proof.
  intros Hm Hp. unfold Server.handle, Server.replied.
  destruct (Validation.validateEnvironment env req); [|intros [= <-]; auto].
  destruct (Validation.validateContentType req); [|intros [= <-]; auto].
  destruct (Validation.validateRequestBody req); [|intros [= <-]; auto].
  unfold Server.route. rewrite Hm, Hp. simpl.
  destruct (Server.invite_request (req_body req)) as [r|]; [|discriminate].
  intros [= <-]. right. eauto.
Qed.

(** C1 (amended).  On a POST to /agent/invite that passed validation and
    reached the provisioning service, a response with a status s outside
    200..299 is answered with status 500 (not s) and the body
    {error: "Failed to start conversation: s"}, which has no details
    field; the service is called once, without retry. *)
Theorem invite_upstream_failure (env : gmap string string) (w : Server.World)
    (req : Request) (out : Outcome) (call : FetchCall AgoraStartRequest)
    (response : FetchResponse) :
  req_method req = "POST" -> req_path req = "/agent/invite" ->
  Server.handle env w req = Server.Handled out ->
  In (Fetched call) (calls out) ->
  Server.fetch w call = Ok response ->
  ~ (200 <= response_status response <= 299)%Z ->
  reply out =
    {| status := 500;
       payload := JObj [("error", JStr ("Failed to start conversation: "
                                        +:+ pretty (response_status response)))] |}
  /\ filter is_fetch (calls out) = [Fetched call].
Proof.
  intros Hm Hp Hout Hcall Hresp Hstatus.
  destruct (handle_invite env w req out Hm Hp Hout) as [Hnone | (r & _ & _ & ->)].
  { rewrite Hnone in Hcall. destruct Hcall. }
  split; [|apply (AgentFacts.invite_fetched _ _ _ _ _ _ Hcall)].
  assert (response_ok response = false) as Hok.
  { unfold response_ok. apply andb_false_iff.
    rewrite Z.leb_gt, Z.leb_gt. lia. }
  destruct (AgentFacts.invite_cases env (Token.name_now (Server.draws w))
              (Token.random36 (Server.draws w)) (Server.fetch w) r)
    as [[msg Heq] | (token & ttsConfig & _ & Hrun)].
  { rewrite Heq in Hcall. destruct Hcall as [[=]|[]]. }
  destruct Hrun as [(msg & Hf & Heq) | [(resp & Hf & _ & Heq)
      | [(resp & msg & Hf & Hok' & _ & Heq) | (resp & data & Hf & Hok' & _ & Heq)]]];
    rewrite Heq in Hcall |- *; simpl in Hcall;
    destruct Hcall as [[=]|[[= <-]|[]]]; simpl;
    unfold res_status_json, error_body; congruence.
Qed.

(** C4.  The request sent to the provisioning service lists exactly the
    stringified requester_id as remote_rtc_uids, and its enable_string_uid
    flag is true exactly when that string contains an ASCII letter.  The
    stringified requester_id is the string itself when the client sent a
    string, and the decimal numeral when it sent a whole number of
    absolute value up to 2^53, for which the flag is false. *)
Theorem invite_uid_flag (env : gmap string string) (now : Z) (random36 : string)
    (fetch : Fetch) (req : InviteAgentRequest) (call : FetchCall AgoraStartRequest) :
  In (Fetched call) (calls (Agent.invite env now random36 fetch req)) ->
  exists body,
    fetch_body call = Some body
    /\ remote_rtc_uids (properties body)
       = [Agent.requester_toString (requester_id req)]
    /\ (enable_string_uid (properties body) = true
        <-> exists a, In a (chars (Agent.requester_toString (requester_id req)))
                      /\ ascii_letter a)
    /\ (forall s, requester_id req = RequesterString s ->
          remote_rtc_uids (properties body) = [s]
          /\ (enable_string_uid (properties body) = true
              <-> exists a, In a (chars s) /\ ascii_letter a))
    /\ (forall q z, requester_id req = RequesterNumber (Finite q) ->
          Qeq q (inject_Z z) -> (Z.abs z <= 2 ^ 53)%Z ->
          remote_rtc_uids (properties body) = [pretty z]
          /\ enable_string_uid (properties body) = false).
Proof.
  intros Hcall.
  apply AgentFacts.invite_fetched in Hcall as (_ & name & token & cfg & ->).
  eexists. split; [reflexivity|]. split; [reflexivity|].
  split; [simpl; apply AgentFacts.test_has_letter_spec|].
  split.
  - intros s Hs. simpl. rewrite Hs. simpl.
    split; [reflexivity | apply AgentFacts.test_has_letter_spec].
  - intros q z Hn Hq Hz.
    pose proof (AgentFacts.Number_toString_whole q z Hq Hz) as Htext.
    simpl. rewrite Hn. cbv beta iota.
    change (Agent.requester_toString (RequesterNumber (Finite q)))
      with (Number_toString (Finite q)).
    rewrite Htext.
    split; [reflexivity | apply AgentFacts.pretty_Z_no_letter].
Qed.

(** C10.  The request sent to the provisioning service always has
    idle_timeout 30 and both advanced features switched off, whatever the
    client sent. *)
Theorem invite_fixed_fields (env : gmap string string) (now : Z)
    (random36 : string) (fetch : Fetch) (req : InviteAgentRequest)
    (call : FetchCall AgoraStartRequest) :
  In (Fetched call) (calls (Agent.invite env now random36 fetch req)) ->
  exists body,
    fetch_body call = Some body
    /\ idle_timeout (properties body) = 30%Z
    /\ enable_aivad (advanced_features (properties body)) = false
    /\ enable_bhvs (advanced_features (properties body)) = false.
Proof.
  intros Hcall.
  apply AgentFacts.invite_fetched in Hcall as (_ & name & token & cfg & ->).
  eexists. repeat split; reflexivity.
Qed.

End WithPlatform.
End InviteClaims.

Module InviteExamples.
Import Types Spec.

(** C1, the claim as stated, fails at upstream status 503: the request
    passes validation, the provisioning service answers 503, and the
    client receives status 500 and a body without details. *)
Lemma invite_503_answered_500 :
  Validation.validateRequestBody
    (invite_post (Sample.invite_fields (JStr "1234"))) = Next
  /\ exists out,
       Server.handle (H := Sample.platform) Sample.microsoft_env
         (Sample.world "0.k3j5x8q2m" Sample.unavailable)
         (invite_post (Sample.invite_fields (JStr "1234")))
       = Server.Handled out
       /\ status (reply out) = 500%Z
       /\ status (reply out) <> 503%Z
       /\ payload (reply out)
          = JObj [("error", JStr "Failed to start conversation: 503")]
       /\ payload (reply out)
          <> JObj [("error", JStr "Failed to start conversation: 503");
                   ("details", JStr "upstream down")].
Proof.
  split; [vm_compute; reflexivity|].
  eexists. split; [vm_compute; reflexivity|].
  simpl. repeat split; discriminate.
Qed.

Lemma invite_upstream_failure_witness :
  reply (Agent.invite (H := Sample.platform) Sample.microsoft_env
           1700000000000 "0.k3j5x8q2m" Sample.unavailable Sample.invite_1234)
  = {| status := 500;
       payload := JObj [("error", JStr ("Failed to start conversation: "
                                        +:+ pretty 503%Z))] |}
  /\ filter is_fetch
       (calls (Agent.invite (H := Sample.platform) Sample.microsoft_env
                 1700000000000 "0.k3j5x8q2m" Sample.unavailable
                 Sample.invite_1234))
     = [Fetched Sample.join_1234].
Proof.
  apply (InviteClaims.invite_upstream_failure (H := Sample.platform)
           Sample.microsoft_env
           (Sample.world "0.k3j5x8q2m" Sample.unavailable)
           (invite_post (Sample.invite_fields (JStr "1234")))
           _ Sample.join_1234
           {| response_status := 503; response_text := "upstream down";
              response_json :=
                Throw "Unexpected token u in JSON at position 0" |}).
  - reflexivity.
  - reflexivity.
  - vm_compute. reflexivity.
  - vm_compute. right. left. reflexivity.
  - reflexivity.
  - simpl. lia.
Defined.

Lemma invite_uid_flag_witness :
  exists body,
    fetch_body Sample.join_1234 = Some body
    /\ remote_rtc_uids (properties body)
       = [Agent.requester_toString (H := Sample.platform)
            (requester_id Sample.invite_1234)]
    /\ (enable_string_uid (properties body) = true
        <-> exists a,
              In a (chars (Agent.requester_toString (H := Sample.platform)
                             (requester_id Sample.invite_1234)))
              /\ ascii_letter a)
    /\ (forall s, requester_id Sample.invite_1234 = RequesterString s ->
          remote_rtc_uids (properties body) = [s]
          /\ (enable_string_uid (properties body) = true
              <-> exists a, In a (chars s) /\ ascii_letter a))
    /\ (forall q z, requester_id Sample.invite_1234 = RequesterNumber (Finite q) ->
          Qeq q (inject_Z z) -> (Z.abs z <= 2 ^ 53)%Z ->
          remote_rtc_uids (properties body) = [pretty z]
          /\ enable_string_uid (properties body) = false).
Proof.
  apply (InviteClaims.invite_uid_flag (H := Sample.platform)
           Sample.microsoft_env 1700000000000 "0.k3j5x8q2m" Sample.available
           Sample.invite_1234 Sample.join_1234).
  vm_compute. right. left. reflexivity.
Defined.

Lemma invite_fixed_fields_witness :
  exists body,
    fetch_body Sample.join_1234 = Some body
    /\ idle_timeout (properties body) = 30%Z
    /\ enable_aivad (advanced_features (properties body)) = false
    /\ enable_bhvs (advanced_features (properties body)) = false.
Proof.
  apply (InviteClaims.invite_fixed_fields (H := Sample.platform)
           Sample.microsoft_env 1700000000000 "0.k3j5x8q2m" Sample.available
           Sample.invite_1234 Sample.join_1234).
  vm_compute. right. left. reflexivity.
Defined.

(** The scenario of the specification: requester_id "1234". *)
Example invite_1234_sent :
  (fun b => (remote_rtc_uids (properties b), enable_string_uid (properties b)))
    <$> provisioning_requests
          (calls (Agent.invite (H := Sample.platform) Sample.microsoft_env
                    1700000000000 "0.k3j5x8q2m" Sample.available
                    Sample.invite_1234))
  = [(["1234"], false)].
Proof. vm_compute. reflexivity. Qed.

Example invite_user_1234_sent :
  (fun b => (remote_rtc_uids (properties b), enable_string_uid (properties b)))
    <$> provisioning_requests
          (calls (Agent.invite (H := Sample.platform) Sample.microsoft_env
                    1700000000000 "0.k3j5x8q2m" Sample.available
                    Sample.invite_user_1234))
  = [(["user-1234"], true)].
Proof. vm_compute. reflexivity. Qed.

(** On success the answer of the provisioning service is passed on. *)
Example invite_1234_answer :
  reply (Agent.invite (H := Sample.platform) Sample.microsoft_env
           1700000000000 "0.k3j5x8q2m" Sample.available Sample.invite_1234)
  = {| status := 200; payload := Sample.agent_started |}.
Proof. vm_compute. reflexivity. Qed.

End InviteExamples.

(* ===================================================================== *)
(** * The token route *)
(* ===================================================================== *)

Module TokenClaims.
Import Types Spec.

Section WithPlatform.
Context `{Platform}.

Lemma agora_vars_checked (env : gmap string string) :
  env_missing env "AGORA_APP_ID" || env_missing env "AGORA_APP_CERTIFICATE" = false
  <-> all_present env agora_vars.
Proof. unfold agora_vars. TTSFacts.present_chain. tauto. Qed.

(** A GET passes the three middlewares of the root router as soon as the
    identity provider's credentials are set, unless its path is under
    [/agent]. *)
Lemma handle_get_token (env : gmap string string) (w : Server.World)
    (req : Request) :
  req_method req = "GET" -> req_path req = "/token" ->
  all_present env agora_vars ->
  Server.handle env w req
  = Server.Handled
      (match Token.validateRequest (req_query req) with
       | Reply r => {| calls := []; reply := r |}
       | Next => Token.handler env (Server.draws w) (req_query req)
       end).
Proof.
  intros Hm Hp Henv. apply agora_vars_checked in Henv.
  unfold Server.handle, Validation.validateEnvironment,
    Validation.validateContentType, Validation.validateRequestBody,
    Server.route, Token.get, Token.validateEnvironment.
  rewrite Henv, Hm, Hp. reflexivity.
Qed.

(** C7 (amended).  A GET of /token without query parameters, served with
    the identity provider's credentials set, a clock not before the epoch
    and a token builder that succeeds, is answered with uid "0" and a
    channel that matches ^ai-conversation-\d+-[a-z0-9]{0,6}$.  The random
    suffix has six characters exactly when the radix-36 text of the
    random number has at least six digits after "0."; otherwise it is
    shorter. *)
Theorem token_defaults (env : gmap string string) (w : Server.World)
    (req : Request) (token : string) :
  req_method req = "GET" -> req_path req = "/token" -> req_query req = ∅ ->
  all_present env agora_vars ->
  (0 <= Token.name_now (Server.draws w))%Z ->
  radix36_fraction (Token.random36 (Server.draws w)) ->
  buildTokenWithUid (env !! "AGORA_APP_ID") (env !! "AGORA_APP_CERTIFICATE")
    (Token.generateChannelName (Token.name_now (Server.draws w))
       (Token.random36 (Server.draws w)))
    (UidNumber (number_of_Z 0)) PUBLISHER
    (Token.issue_now (Server.draws w) / 1000 + 3600)%Z
    (Token.issue_now (Server.draws w) / 1000 + 3600)%Z = Ok token ->
  exists channel out,
    Server.handle env w req = Server.Handled out
    /\ reply out
       = {| status := 200;
            payload := JObj [("token", JStr token); ("uid", JStr "0");
                             ("channel", JStr channel)] |}
    /\ test_channel_pattern 0 6 channel = true
    /\ (test_channel_pattern 6 6 channel = true
        <-> 8 <= String.length (Token.random36 (Server.draws w))).
Proof.
  intros Hm Hp Hq Henv Hnow Hrandom Htoken.
  exists (Token.generateChannelName (Token.name_now (Server.draws w))
            (Token.random36 (Server.draws w))).
  eexists. split; [apply (handle_get_token env w req Hm Hp Henv)|].
  rewrite Hq. unfold Token.validateRequest. rewrite !lookup_empty. simpl.
  split.
  - unfold Token.handler, Eff.try_catch, Eff.bind, Eff.build_token, Eff.ret,
      expiration_time.
    rewrite !lookup_empty. simpl.
    change (Token.parseInt "0") with (number_of_Z 0).
    rewrite Htoken. reflexivity.
  - unfold Token.generateChannelName.
    destruct (TokenFacts.pretty_Z_digits _ Hnow) as [Hne Hdigits].
    destruct (TokenFacts.random_suffix _ Hrandom) as [Hsuffix Hlen].
    rewrite !(TokenFacts.test_channel_pattern_name _ _ _ _ Hne Hdigits Hsuffix).
    rewrite Hlen. split.
    + apply andb_true_iff. split; [reflexivity | apply Nat.leb_le; lia].
    + rewrite andb_true_iff, !Nat.leb_le. lia.
Qed.

(** C6.  Both places that mint a credential, the handler of GET /token
    and the invite handler, pass the token builder the time of issuance
    in whole seconds plus 3600, as token expiry and as privilege expiry. *)
Theorem credentials_expire_after_one_hour (env : gmap string string)
    (d : Token.Draws) (query : gmap string qvalue)
    (now : Z) (random36 : string) (fetch : Fetch) (req : InviteAgentRequest) :
  (exists secs appId appCertificate channel uid,
     whole_seconds (Token.issue_now d) secs
     /\ calls (Token.handler env d query)
        = [TokenBuilt appId appCertificate channel uid PUBLISHER
             (secs + 3600)%Z (secs + 3600)%Z])
  /\ (exists secs appId appCertificate channel uid rest,
        whole_seconds now secs
        /\ calls (Agent.invite env now random36 fetch req)
           = TokenBuilt appId appCertificate channel uid PUBLISHER
               (secs + 3600)%Z (secs + 3600)%Z :: rest
        /\ filter is_fetch rest = rest).
Proof.
  assert (forall t, whole_seconds t (t / 1000)%Z) as Hsecs.
  { intros t. unfold whole_seconds.
    pose proof (Z.div_mod t 1000). pose proof (Z.mod_pos_bound t 1000). lia. }
  split.
  - exists (Token.issue_now d / 1000)%Z. do 4 eexists. split; [apply Hsecs|].
    unfold Token.handler, Eff.try_catch, Eff.bind, Eff.build_token, Eff.ret,
      expiration_time.
    destruct (buildTokenWithUid _ _ _ _ _ _ _); reflexivity.
  - exists (now / 1000)%Z. do 4 eexists.
    destruct (AgentFacts.invite_cases env now random36 fetch req)
      as [[msg ->] | (tok & cfg & _ & Hrun)].
    + exists []. split; [apply Hsecs|]. split; reflexivity.
    + eexists [Fetched _]. split; [apply Hsecs|].
      destruct Hrun as [(msg & _ & ->) | [(resp & _ & _ & ->)
        | [(resp & msg & _ & _ & _ & ->) | (resp & data & _ & _ & _ & ->)]]];
        split; reflexivity.
Qed.

End WithPlatform.

(** C7, the claim as stated, fails when the random number is 0.5, whose
    radix-36 text is "0.i": the suffix has one character and the channel
    does not match ^ai-conversation-\d+-[a-z0-9]{6}$. *)
Lemma token_suffix_one_character :
  radix36_fraction "0.i"
  /\ exists out,
       Server.handle (H := Sample.platform) Sample.agora_env
         (Sample.world "0.i" Sample.available) (token_get ∅)
       = Server.Handled out
       /\ payload (reply out)
          = JObj [("token", JStr "007eJxzYBB"); ("uid", JStr "0");
                  ("channel", JStr "ai-conversation-1700000000000-i")]
       /\ test_channel_pattern 6 6 "ai-conversation-1700000000000-i" = false
       /\ String.length (substring 2 8 "0.i") = 1.
Proof.
  split.
  - right. exists "i". split; [reflexivity | split; [discriminate | reflexivity]].
  - eexists. split; [vm_compute; reflexivity|].
    repeat split; vm_compute; reflexivity.
Qed.

Lemma token_defaults_witness :
  exists channel out,
    Server.handle (H := Sample.platform) Sample.agora_env
      (Sample.world "0.k3j5x8q2m" Sample.available) (token_get ∅)
    = Server.Handled out
    /\ reply out
       = {| status := 200;
            payload := JObj [("token", JStr "007eJxzYBB"); ("uid", JStr "0");
                             ("channel", JStr channel)] |}
    /\ test_channel_pattern 0 6 channel = true
    /\ (test_channel_pattern 6 6 channel = true
        <-> 8 <= String.length "0.k3j5x8q2m").
Proof.
  apply (token_defaults (H := Sample.platform) Sample.agora_env
           (Sample.world "0.k3j5x8q2m" Sample.available) (token_get ∅)
           "007eJxzYBB").
  - reflexivity.
  - reflexivity.
  - reflexivity.
  - repeat constructor; eexists; (split; [vm_compute; reflexivity | discriminate]).
  - simpl. lia.
  - right. exists "k3j5x8q2m".
    split; [reflexivity | split; [discriminate | reflexivity]].
  - reflexivity.
Defined.

Example token_explicit_parameters :
  reply (Token.get (H := Sample.platform) Sample.agora_env
           (Sample.draws "0.k3j5x8q2m")
           (list_to_map [("uid", QStr "1234"); ("channel", QStr "test-channel")]))
  = {| status := 200;
       payload := JObj [("token", JStr "007eJxzYBB"); ("uid", JStr "1234");
                        ("channel", JStr "test-channel")] |}.
Proof. vm_compute. reflexivity. Qed.

End TokenClaims.

(* ===================================================================== *)
(** * The middleware chain *)
(* ===================================================================== *)

Module PipelineClaims.
Import Types Spec.

Lemma convo_ai_vars_checked (env : gmap string string) :
  env_missing env "AGORA_CONVO_AI_BASE_URL"
  || env_missing env "AGORA_CUSTOMER_ID"
  || env_missing env "AGORA_CUSTOMER_SECRET" = false
  <-> all_present env convo_ai_vars.
Proof. unfold convo_ai_vars. TTSFacts.present_chain. tauto. Qed.

Lemma llm_vars_checked (env : gmap string string) :
  env_missing env "LLM_URL" || env_missing env "LLM_TOKEN" = false
  <-> all_present env llm_vars.
Proof. unfold llm_vars. TTSFacts.present_chain. tauto. Qed.


(** [validateEnvironment] lets a request through when the configuration
    its path needs is there, and answers 500 otherwise. *)
Lemma validateEnvironment_cases (env : gmap string string) (req : Request) :
  (Validation.validateEnvironment env req = Next
   /\ configured_for env (req_path req))
  \/ (exists msg,
        Validation.validateEnvironment env req
        = Reply (res_status_json 500 (error_body msg))
        /\ ~ configured_for env (req_path req)).
Proof.
  unfold Validation.validateEnvironment, configured_for, agent_configured,
    tts_configured.
  pose proof (TokenClaims.agora_vars_checked env) as Hagora.
  destruct (env_missing env "AGORA_APP_ID"
            || env_missing env "AGORA_APP_CERTIFICATE").
  { right. eexists. split; [reflexivity|]. intros [Hall _].
    apply Hagora in Hall. discriminate. }
  assert (all_present env agora_vars) as Hag by (apply Hagora; reflexivity).
  destruct (startsWith (req_path req) "/agent").
  2:{ left. split; [reflexivity | split; [exact Hag | discriminate]]. }
  pose proof (convo_ai_vars_checked env) as Hconvo.
  destruct (env_missing env "AGORA_CONVO_AI_BASE_URL"
            || env_missing env "AGORA_CUSTOMER_ID"
            || env_missing env "AGORA_CUSTOMER_SECRET").
  { right. eexists. split; [reflexivity|]. intros [_ Hall].
    destruct (Hall eq_refl) as (Hc & _). apply Hconvo in Hc. discriminate. }
  assert (all_present env convo_ai_vars) as Hco by (apply Hconvo; reflexivity).
  pose proof (llm_vars_checked env) as Hllm.
  destruct (env_missing env "LLM_URL" || env_missing env "LLM_TOKEN").
  { right. eexists. split; [reflexivity|]. intros [_ Hall].
    destruct (Hall eq_refl) as (_ & Hl & _). apply Hllm in Hl. discriminate. }
  assert (all_present env llm_vars) as Hll by (apply Hllm; reflexivity).
  destruct (env !! "TTS_VENDOR") as [ttsVendor|].
  2:{ right. eexists. split; [reflexivity|]. intros [_ Hall].
      destruct (Hall eq_refl) as (_ & _ & [[[=] _] | [[=] _]]). }
  destruct (String.eqb ttsVendor "") eqn:Hempty.
  { apply string_eqb_true in Hempty as ->.
    right. eexists. split; [reflexivity|]. intros [_ Hall].
    destruct (Hall eq_refl) as (_ & _ & [[[=] _] | [[=] _]]). }
  destruct (String.eqb ttsVendor "microsoft") eqn:Hm.
  { apply string_eqb_true in Hm as ->.
    pose proof (TTSFacts.microsoft_vars_checked env) as Hchk.
    destruct (env_missing env "MICROSOFT_TTS_KEY"
              || env_missing env "MICROSOFT_TTS_REGION"
              || env_missing env "MICROSOFT_TTS_VOICE_NAME"
              || env_missing env "MICROSOFT_TTS_RATE"
              || env_missing env "MICROSOFT_TTS_VOLUME").
    - right. eexists. split; [reflexivity|]. intros [_ Hall].
      destruct (Hall eq_refl) as (_ & _ & [[_ Hms] | [[=] _]]).
      apply Hchk in Hms. discriminate.
    - left. split; [reflexivity | split; [exact Hag | intros _]].
      split; [exact Hco | split; [exact Hll | left]].
      split; [reflexivity | apply Hchk; reflexivity]. }
  destruct (String.eqb ttsVendor "elevenlabs") eqn:He.
  { apply string_eqb_true in He as ->.
    pose proof (TTSFacts.elevenlabs_vars_checked env) as Hchk.
    destruct (env_missing env "ELEVENLABS_API_KEY"
              || env_missing env "ELEVENLABS_VOICE_ID"
              || env_missing env "ELEVENLABS_MODEL_ID").
    - right. eexists. split; [reflexivity|]. intros [_ Hall].
      destruct (Hall eq_refl) as (_ & _ & [[[=] _] | [_ Hel]]).
      apply Hchk in Hel. discriminate.
    - left. split; [reflexivity | split; [exact Hag | intros _]].
      split; [exact Hco | split; [exact Hll | right]].
      split; [reflexivity | apply Hchk; reflexivity]. }
  apply string_eqb_false in Hm, He.
  right. eexists. split; [reflexivity|]. intros [_ Hall].
  destruct (Hall eq_refl) as (_ & _ & [[[= ->] _] | [[= ->] _]]); congruence.
Qed.

Section WithPlatform.
Context `{Platform}.



(** On the path /agent/remove itself, a POST whose agent_id is falsy
    (absent, null, empty, ...) or not a string is refused by the body
    validation with status 400; the request is answered by a middleware,
    so that no external call is made. *)
Lemma remove_refused_on_exact_path (env : gmap string string)
    (w : Server.World) (req : Request) :
  req_method req = "POST" -> req_path req = "/agent/remove" ->
  truthy (body_field (req_body req) "agent_id") = false
  \/ typeof (body_field (req_body req) "agent_id") <> TString ->
  (exists msg,
     Validation.validateRequestBody req
     = Reply {| status := 400; payload := JObj [("error", JStr msg)] |})
  /\ exists r,
       Server.handle env w req = Server.Handled {| calls := []; reply := r |}
       /\ (Validation.validateEnvironment env req = Next ->
           Validation.validateContentType req = Next -> status r = 400%Z).
Proof.
  intros Hm Hp Hbad.
  assert (exists msg,
            Validation.validateRequestBody req
            = Reply {| status := 400; payload := JObj [("error", JStr msg)] |})
    as [msg Hbody].
  { unfold Validation.validateRequestBody, Validation.validateRemoveBody,
      Validation.bad_request.
    rewrite Hm, Hp. simpl.
    destruct (body_empty (req_body req)); [eexists; reflexivity|].
    destruct (truthy (body_field (req_body req) "agent_id")) eqn:Ht; simpl;
      [|eexists; reflexivity].
    destruct Hbad as [Hf | Hty]; [discriminate|].
    destruct (body_field (req_body req) "agent_id") as [[| | | s | |]|];
      try (eexists; reflexivity).
    destruct Hty. reflexivity. }
  split; [eauto|].
  unfold Server.handle, Server.replied. rewrite Hbody.
  destruct (Validation.validateEnvironment env req); [|eexists; split; [reflexivity | discriminate]].
  destruct (Validation.validateContentType req); [|eexists; split; [reflexivity | discriminate]].
  eexists. split; [reflexivity|]. reflexivity.
Qed.

(** The body validation compares the path with the two route names
    exactly: on any other path it checks no field of a body that is not
    empty. *)
Lemma validateRequestBody_other_path (req : Request) :
  req_path req <> "/agent/invite" -> req_path req <> "/agent/remove" ->
  body_empty (req_body req) = false ->
  Validation.validateRequestBody req = Next.
Proof.
  intros Hi%string_eqb_false Hr%string_eqb_false Hb.
  unfold Validation.validateRequestBody. rewrite Hb, Hi, Hr.
  destruct (negb (String.eqb (req_method req) "POST")); reflexivity.
Qed.

(** The remove handler has a guard of its own: without an agent_id it
    makes no call, and answers 500. *)
Lemma remove_guard (env : gmap string string) (fetch : Fetch) (agent_id : value) :
  truthy agent_id = false ->
  Agent.remove env fetch agent_id
  = {| calls := [];
       reply := res_status_json 500 (error_body "agent_id is required") |}.
Proof.
  intros Hf. unfold Agent.remove, Agent.remove_body. rewrite Hf. reflexivity.
Qed.

End WithPlatform.

(** C8, a defect of the code.  The claim fails at POST /agent/remove/
    (with a trailing slash) carrying {agent_id: 123}, with the whole
    configuration in place: the number 123 is not a string and is refused
    on the path /agent/remove itself, but validateRequestBody compares the
    path with "/agent/remove" exactly and checks no field here, the
    router serves the path with the remove handler, whose guard lets the
    truthy 123 through, and the provisioning service is called for the
    agent "123". *)
Theorem remove_unvalidated_on_trailing_slash :
  typeof (body_field (req_body (App.request Cases.remove_slash_123)) "agent_id")
  <> TString
  /\ Validation.validateRequestBody (remove_post Sample.remove_numeric_id)
     = Reply (res_status_json 400 (error_body "agent_id must be a string"))
  /\ Validation.validateRequestBody (App.request Cases.remove_slash_123) = Next
  /\ App.handle (H := Sample.platform) Sample.microsoft_env Cases.world_ok
       Cases.remove_slash_123
     = App.Routed
         (Server.Handled
            {| calls := [Fetched Cases.leave_number_123];
               reply := {| status := 200;
                           payload := JObj [("success", JBool true)] |} |}).
Proof.
  split; [vm_compute; discriminate|].
  split; [vm_compute; reflexivity|].
  split; vm_compute; reflexivity.
Qed.

(** On the same path a request without agent_id is not refused by the
    validation either: the guard of the handler stops it, and the client
    is answered 500 instead of 400. *)
Example remove_without_agent_id_on_trailing_slash :
  App.handle (H := Sample.platform) Sample.microsoft_env Cases.world_ok
    {| App.in_method := "POST"; App.in_path := "/agent/remove/";
       App.in_query := ∅;
       App.in_content := App.JsonObject (list_to_map [("other", JStr "x")]) |}
  = App.Routed
      (Server.replied
         (res_status_json 500 (error_body "agent_id is required"))).
Proof. vm_compute. reflexivity. Qed.


(** An OPTIONS request never reaches the configuration check: cors
    answers it, here with nothing configured at all. *)
Example preflight_without_configuration :
  App.handle (H := Sample.platform) ∅ Cases.world_ok Cases.preflight
  = App.Preflight.
Proof. reflexivity. Qed.

Example agent_route_needs_llm :
  Server.handle (H := Sample.platform) Sample.agora_env
    (Sample.world "0.k3j5x8q2m" Sample.available)
    (invite_post (Sample.invite_fields (JStr "1234")))
  = Server.replied
      (res_status_json 500
         (error_body "Agora Conversation AI credentials are not set")).
Proof. vm_compute. reflexivity. Qed.

Example remove_numeric_id_refused :
  Server.handle (H := Sample.platform) Sample.microsoft_env
    (Sample.world "0.k3j5x8q2m" Sample.available)
    (remove_post Sample.remove_numeric_id)
  = Server.replied (res_status_json 400 (error_body "agent_id must be a string")).
Proof. vm_compute. reflexivity. Qed.

End PipelineClaims.

(* ===================================================================== *)
(** * Scenarios *)
(* ===================================================================== *)

Module Scenarios.
Import Types Spec.

(** POST /agent/invite {requester_id: "1234", channel_name: "demo-chan"}
    with Microsoft fully configured: the answer of the provisioning
    service comes back unchanged. *)
Example invite_scenario :
  exists out,
    Server.handle (H := Sample.platform) Sample.microsoft_env
      (Sample.world "0.k3j5x8q2m" Sample.available)
      (invite_post (Sample.invite_fields (JStr "1234")))
    = Server.Handled out
    /\ reply out = {| status := 200; payload := Sample.agent_started |}
    /\ filter is_fetch (calls out) = [Fetched Sample.join_1234].
Proof. eexists. split; [vm_compute; reflexivity | split; reflexivity]. Qed.

(** A numeric requester_id is sent as its decimal numeral. *)
Example invite_numeric_requester :
  (fun b => (remote_rtc_uids (properties b), enable_string_uid (properties b)))
    <$> provisioning_requests
          (calls (Agent.invite (H := Sample.platform) Sample.microsoft_env
                    1700000000000 "0.k3j5x8q2m" Sample.available
                    {| requester_id := RequesterNumber (number_of_Z 1234);
                       channel_name := "demo-chan";
                       req_input_modalities := None;
                       req_output_modalities := None |}))
  = [(["1234"], false)].
Proof. vm_compute. reflexivity. Qed.

Example channel_name_number_refused :
  Validation.validateRequestBody
    (invite_post (ObjBody (list_to_map
       [("requester_id", JStr "1234");
        ("channel_name", JNum (number_of_Z 12345))])))
  = Validation.bad_request "channel_name must be a string".
Proof. vm_compute. reflexivity. Qed.

Example channel_name_missing_refused :
  Validation.validateRequestBody
    (invite_post (ObjBody (list_to_map [("requester_id", JStr "1234")])))
  = Validation.bad_request "channel_name is required".
Proof. vm_compute. reflexivity. Qed.

(** The agent credential of an invite at 1700000000000 ms expires at
    1700003600 s. *)
Example invite_credential_expiry :
  head (calls (Agent.invite (H := Sample.platform) Sample.microsoft_env
                 1700000000999 "0.k3j5x8q2m" Sample.available
                 Sample.invite_1234))
  = Some (TokenBuilt (Some "app-id") (Some "app-cert") "demo-chan"
            (UidString "Agent") PUBLISHER 1700003600 1700003600).
Proof. vm_compute. reflexivity. Qed.

(** Without an agent_id the remove route is stopped by the validation. *)
Example remove_without_agent_id :
  Server.handle (H := Sample.platform) Sample.microsoft_env
    (Sample.world "0.k3j5x8q2m" Sample.available)
    (remove_post (ObjBody (list_to_map [("other", JStr "x")])))
  = Server.replied (res_status_json 400 (error_body "agent_id is required")).
Proof. vm_compute. reflexivity. Qed.

Example remove_scenario :
  exists out,
    Server.handle (H := Sample.platform) Sample.microsoft_env
      (Sample.world "0.k3j5x8q2m" Sample.available)
      (remove_post (ObjBody (list_to_map [("agent_id", JStr "agent-123")])))
    = Server.Handled out
    /\ reply out = {| status := 200; payload := JObj [("success", JBool true)] |}
    /\ length (calls out) = 1.
Proof. eexists. split; [vm_compute; reflexivity | split; reflexivity]. Qed.

End Scenarios.

(* ===================================================================== *)
(** * Runs of the root router *)
(* ===================================================================== *)

Module RouteFacts.
Import Types Spec RouteSpec.

(** Splits every [if] and [match] of the goal on its scrutinee. *)
Ltac split_cases :=
  repeat match goal with
         | |- context [if ?b then _ else _] => destruct b eqn:?
         | |- context [match ?x with _ => _ end] => destruct x eqn:?
         end.

Section WithPlatform.
Context `{Platform}.

(** A request is answered by one of the three middlewares, in their
    order, or handed to the routes. *)
Lemma handle_cases (env : gmap string string) (w : Server.World) (req : Request) :
  (exists r,
     Server.handle env w req = Server.replied r
     /\ (Validation.validateEnvironment env req = Reply r
         \/ (Validation.validateEnvironment env req = Next
             /\ Validation.validateContentType req = Reply r)
         \/ (Validation.validateEnvironment env req = Next
             /\ Validation.validateContentType req = Next
             /\ Validation.validateRequestBody req = Reply r)))
  \/ (Validation.validateEnvironment env req = Next
      /\ Validation.validateContentType req = Next
      /\ Validation.validateRequestBody req = Next
      /\ Server.handle env w req = Server.route env w req).
Proof.
  unfold Server.handle.
  destruct (Validation.validateEnvironment env req); [|left; eauto].
  destruct (Validation.validateContentType req); [|left; eauto 6].
  destruct (Validation.validateRequestBody req); [|left; eauto 8].
  right. auto.
Qed.

(** The routes, by the method and the path they match. *)
Lemma route_cases (env : gmap string string) (w : Server.World) (req : Request)
    (out : Outcome) :
  Server.route env w req = Server.Handled out ->
  (Server.serves_get (req_method req) = true
   /\ Server.path_is "/token" (req_path req) = true
   /\ out = Token.get env (Server.draws w) (req_query req))
  \/ (req_method req = "POST"
      /\ Server.path_is "/agent/invite" (req_path req) = true
      /\ exists r,
           Server.invite_request (req_body req) = Some r
           /\ out = Agent.invite env (Token.name_now (Server.draws w))
                      (Token.random36 (Server.draws w)) (Server.fetch w) r)
  \/ (req_method req = "POST"
      /\ Server.path_is "/agent/remove" (req_path req) = true
      /\ out = Agent.remove env (Server.fetch w)
                 (body_field (req_body req) "agent_id"))
  \/ (Server.serves_get (req_method req) = true
      /\ Server.path_is "/ping" (req_path req) = true
      /\ out = {| calls := []; reply := res_json (JObj [("message", JStr "pong")]) |}).
Proof.
  unfold Server.route, Server.replied.
  destruct (Server.serves_get (req_method req)
            && Server.path_is "/token" (req_path req)) eqn:H1.
  { apply andb_prop in H1 as [Hm Hp]. intros [= <-]. auto. }
  destruct (String.eqb (req_method req) "POST"
            && Server.path_is "/agent/invite" (req_path req)) eqn:H2.
  { apply andb_prop in H2 as [Hm%string_eqb_true Hp].
    destruct (Server.invite_request (req_body req)) as [r|]; [|discriminate].
    intros [= <-]. right. left. eauto. }
  destruct (String.eqb (req_method req) "POST"
            && Server.path_is "/agent/remove" (req_path req)) eqn:H3.
  { apply andb_prop in H3 as [Hm%string_eqb_true Hp].
    intros [= <-]. right. right. left. auto. }
  destruct (Server.serves_get (req_method req)
            && Server.path_is "/ping" (req_path req)) eqn:H4;
    [|discriminate].
  apply andb_prop in H4 as [Hm Hp].
  intros [= <-]. right. right. right. auto.
Qed.

(** The routes on the path /agent/remove itself. *)
Lemma route_remove (env : gmap string string) (w : Server.World) (req : Request) :
  req_method req = "POST" -> req_path req = "/agent/remove" ->
  Server.route env w req
  = Server.Handled
      (Agent.remove env (Server.fetch w) (body_field (req_body req) "agent_id")).
Proof. intros Hm Hp. unfold Server.route. rewrite Hm, Hp. reflexivity. Qed.

(** Every run of the remove handler on a truthy agent_id that a template
    literal can print. *)
Lemma remove_cases (env : gmap string string) (fetch : Fetch)
    (agent_id : value) (id : string) :
  truthy agent_id = true -> Agent.template_value agent_id = Ok id ->
  let call : FetchCall AgoraStartRequest :=
    {| fetch_url := upstream_url env ("/agents/" +:+ id +:+ "/leave");
       fetch_method := "POST";
       fetch_headers := upstream_headers env;
       fetch_body := None |} in
  let out := Agent.remove env fetch agent_id in
  let failed msg := res_status_json 500 (error_body msg) in
  (exists msg,
     fetch call = Throw msg
     /\ out = {| calls := [Fetched call]; reply := failed msg |})
  \/ (exists response,
        fetch call = Ok response /\ response_ok response = false
        /\ out = {| calls := [Fetched call];
                    reply := failed ("Failed to remove agent: "
                                     +:+ pretty (response_status response)) |})
  \/ (exists response,
        fetch call = Ok response /\ response_ok response = true
        /\ out = {| calls := [Fetched call];
                    reply := res_json (JObj [("success", JBool true)]) |}).
Proof.
  intros Hid Htext call out failed. subst out.
  unfold Agent.remove, Agent.remove_body, Eff.try_catch, Eff.bind,
    Eff.do_fetch, Eff.lift, Eff.throw, Eff.ret.
  rewrite Hid, Htext. simpl.
  change (env_template env "AGORA_CONVO_AI_BASE_URL" +:+ "/"
          +:+ env_template env "AGORA_APP_ID" +:+ "/agents/" +:+ id +:+ "/leave")
    with (upstream_url env ("/agents/" +:+ id +:+ "/leave")).
  fold (upstream_headers env). fold call.
  destruct (fetch call) as [response|msg]; [|left; eauto].
  right. destruct (response_ok response) eqn:Hok; simpl; [right|left]; eauto.
Qed.

(** The remove handler makes no call when its guard fires or when the
    agent_id cannot be printed. *)
Lemma remove_stopped (env : gmap string string) (fetch : Fetch)
    (agent_id : value) :
  truthy agent_id = false
  \/ (exists msg, Agent.template_value agent_id = Throw msg) ->
  exists msg,
    Agent.remove env fetch agent_id
    = {| calls := []; reply := res_status_json 500 (error_body msg) |}.
Proof.
  unfold Agent.remove, Agent.remove_body, Eff.try_catch, Eff.bind,
    Eff.lift, Eff.throw.
  intros [Hf | [msg Hthrow]].
  - rewrite Hf. simpl. eauto.
  - destruct (truthy agent_id); simpl; [|eauto].
    rewrite Hthrow. eauto.
Qed.

(** Every run of the token route. *)
Lemma token_get_cases (env : gmap string string) (d : Token.Draws)
    (query : gmap string qvalue) :
  let out := Token.get env d query in
  (exists r,
     out = {| calls := []; reply := r |}
     /\ (Token.validateEnvironment env = Reply r
         \/ Token.validateRequest query = Reply r))
  \/ (Token.validateEnvironment env = Next
      /\ Token.validateRequest query = Next
      /\ out = Token.handler env d query).
Proof.
  unfold Token.get.
  destruct (Token.validateEnvironment env); [|left; eauto].
  destruct (Token.validateRequest query); [|left; eauto].
  right. auto.
Qed.

(** The handler of the token route builds one token and nothing else. *)
Lemma token_handler_cases (env : gmap string string) (d : Token.Draws)
    (query : gmap string qvalue) :
  let uid := Token.parseInt (Token.query_or (query !! "uid") "0") in
  let channel :=
    Token.query_or (query !! "channel")
      (Token.generateChannelName (Token.name_now d) (Token.random36 d)) in
  let expiry := (Token.issue_now d / 1000 + 3600)%Z in
  let built :=
    TokenBuilt (env !! "AGORA_APP_ID") (env !! "AGORA_APP_CERTIFICATE")
      channel (UidNumber uid) PUBLISHER expiry expiry in
  let out := Token.handler env d query in
  (exists token,
     buildTokenWithUid (env !! "AGORA_APP_ID") (env !! "AGORA_APP_CERTIFICATE")
       channel (UidNumber uid) PUBLISHER expiry expiry = Ok token
     /\ out = {| calls := [built];
                 reply := res_json (JObj [("token", JStr token);
                                          ("uid", JStr (Number_toString uid));
                                          ("channel", JStr channel)]) |})
  \/ (exists msg,
        buildTokenWithUid (env !! "AGORA_APP_ID") (env !! "AGORA_APP_CERTIFICATE")
          channel (UidNumber uid) PUBLISHER expiry expiry = Throw msg
        /\ out = {| calls := [built];
                    reply := res_status_json 500
                      (JObj [("error", JStr "Failed to generate Agora token");
                             ("details", JStr msg)]) |}).
Proof.
  intros uid channel expiry built out. subst out.
  unfold Token.handler, Eff.try_catch, Eff.bind, Eff.build_token, Eff.ret,
    expiration_time.
  fold uid. fold channel. fold expiry. fold built.
  destruct (buildTokenWithUid _ _ _ _ _ _ _) as [token|msg]; [left|right]; eauto.
Qed.

End WithPlatform.
End RouteFacts.

(* ===================================================================== *)
(** * Properties of the validation middlewares *)
(* ===================================================================== *)

Module ValidationProperties.
Import Types Spec RouteSpec.

(** Names the subject an error message begins with. *)
Ltac name_subject :=
  first [ exists "Request body"; split; [simpl; tauto | reflexivity]
        | exists "requester_id"; split; [simpl; tauto | reflexivity]
        | exists "channel_name"; split; [simpl; tauto | reflexivity]
        | exists "agent_id"; split; [simpl; tauto | reflexivity] ].

Lemma validateInviteBody_reply (rid ch : value) (r : Response) :
  Validation.validateInviteBody rid ch = Reply r ->
  status r = 400%Z
  /\ exists msg,
       payload r = JObj [("error", JStr msg)]
       /\ exists subject, In subject validation_subjects
                          /\ startsWith msg subject = true.
Proof.
  unfold Validation.validateInviteBody, Validation.bad_request.
  destruct rid as [[| | | | |]|], ch as [[| | | | |]|]; simpl;
    RouteFacts.split_cases; intros Heq; try discriminate Heq;
    injection Heq as <-; (split; [reflexivity|]);
    eexists; (split; [reflexivity|]); name_subject.
Qed.

Lemma validateRemoveBody_reply (aid : value) (r : Response) :
  Validation.validateRemoveBody aid = Reply r ->
  status r = 400%Z
  /\ exists msg,
       payload r = JObj [("error", JStr msg)]
       /\ exists subject, In subject validation_subjects
                          /\ startsWith msg subject = true.
Proof.
  unfold Validation.validateRemoveBody, Validation.bad_request.
  destruct aid as [[| | | | |]|]; simpl;
    RouteFacts.split_cases; intros Heq; try discriminate Heq;
    injection Heq as <-; (split; [reflexivity|]);
    eexists; (split; [reflexivity|]); name_subject.
Qed.

Lemma validateRequestBody_reply (req : Request) (r : Response) :
  Validation.validateRequestBody req = Reply r ->
  status r = 400%Z
  /\ exists msg,
       payload r = JObj [("error", JStr msg)]
       /\ exists subject, In subject validation_subjects
                          /\ startsWith msg subject = true.
Proof.
  unfold Validation.validateRequestBody.
  destruct (negb (String.eqb (req_method req) "POST")); [discriminate|].
  destruct (body_empty (req_body req)).
  { intros [= <-]. split; [reflexivity|]. eexists. split; [reflexivity|].
    name_subject. }
  destruct (String.eqb (req_path req) "/agent/invite");
    [apply validateInviteBody_reply|].
  destruct (String.eqb (req_path req) "/agent/remove");
    [apply validateRemoveBody_reply | discriminate].
Qed.

Lemma validateContentType_reply (req : Request) (r : Response) :
  Validation.validateContentType req = Reply r ->
  req_method req = "POST" /\ req_is_json req = false
  /\ r = res_status_json 415
           (error_body "Unsupported Media Type. Content-Type must be application/json").
Proof.
  unfold Validation.validateContentType.
  destruct (String.eqb (req_method req) "POST") eqn:Hm; [|discriminate].
  destruct (req_is_json req); [discriminate|]. simpl.
  apply string_eqb_true in Hm. intros [= <-]. auto.
Qed.

Lemma validateContentType_Next (req : Request) :
  Validation.validateContentType req = Next ->
  req_method req = "POST" -> req_is_json req = true.
Proof.
  unfold Validation.validateContentType. intros Hnext Hm. rewrite Hm in Hnext.
  destruct (req_is_json req); [reflexivity | discriminate].
Qed.

(** X17.  Whenever the body validation refuses a request, it answers 400
    with a body {error: msg} whose message begins with what it is about:
    "Request body", "requester_id", "channel_name" or "agent_id". *)
Theorem body_validation_names_the_field (req : Request) (r : Response) :
  Validation.validateRequestBody req = Reply r ->
  status r = 400%Z
  /\ exists msg subject,
       payload r = JObj [("error", JStr msg)]
       /\ In subject validation_subjects
       /\ startsWith msg subject = true.
Proof.
  intros Hr.
  destruct (validateRequestBody_reply req r Hr) as (Hs & msg & Hp & subject & Hin & Hpre).
  split; [exact Hs|]. exists msg, subject. auto.
Qed.

Lemma body_validation_names_the_field_witness :
  status (res_status_json 400 (error_body "agent_id must be a string")) = 400%Z
  /\ exists msg subject,
       payload (res_status_json 400 (error_body "agent_id must be a string"))
       = JObj [("error", JStr msg)]
       /\ In subject validation_subjects
       /\ startsWith msg subject = true.
Proof.
  apply (body_validation_names_the_field (remove_post Sample.remove_numeric_id)).
  vm_compute. reflexivity.
Defined.

Lemma validateRemoveBody_Next (aid : value) :
  Validation.validateRemoveBody aid = Next <-> agent_id_ok aid.
Proof.
  unfold Validation.validateRemoveBody, Validation.bad_request, agent_id_ok.
  destruct aid as [[| b | n | s | l | l]|]; simpl;
    try (split; [RouteFacts.split_cases; discriminate
                | intros (s' & [=] & _)]).
  destruct (String.eqb s "") eqn:Hs; simpl.
  - apply string_eqb_true in Hs as ->.
    split; [discriminate | intros (s' & [= <-] & Hne); congruence].
  - apply string_eqb_false in Hs. split; [eauto | reflexivity].
Qed.

(** X18.  The body validation accepts a POST exactly when its body is
    not empty and, on the path /agent/invite, requester_id and
    channel_name pass their checks, and, on the path /agent/remove,
    agent_id is a non-empty string.  Both paths are compared exactly: on
    every other path, the other spellings under which the router serves
    the same handlers included, a body that is not empty is all that is
    required. *)
Theorem body_validation_accepts_iff (req : Request) :
  req_method req = "POST" ->
  (Validation.validateRequestBody req = Next
   <-> body_empty (req_body req) = false
       /\ (req_path req = "/agent/invite" ->
           requester_id_ok (body_field (req_body req) "requester_id")
           /\ channel_name_ok (body_field (req_body req) "channel_name"))
       /\ (req_path req = "/agent/remove" ->
           agent_id_ok (body_field (req_body req) "agent_id"))).
Proof.
  intros Hm. unfold Validation.validateRequestBody. rewrite Hm. simpl.
  destruct (body_empty (req_body req)).
  { split; [discriminate | intros [[=] _]]. }
  destruct (String.eqb (req_path req) "/agent/invite") eqn:Hi.
  { apply string_eqb_true in Hi. rewrite ValidationFacts.validateInviteBody_Next.
    split.
    - intros Hok. split; [reflexivity|]. split; [auto|].
      intros Hr. rewrite Hi in Hr. discriminate.
    - intros (_ & Hok & _). auto. }
  apply string_eqb_false in Hi.
  destruct (String.eqb (req_path req) "/agent/remove") eqn:Hr.
  { apply string_eqb_true in Hr. rewrite validateRemoveBody_Next.
    split.
    - intros Hok. split; [reflexivity|]. split; [|auto].
      intros Hi'. congruence.
    - intros (_ & _ & Hok). auto. }
  apply string_eqb_false in Hr.
  split; [|reflexivity]. intros _. split; [reflexivity|].
  split; intros Hp; congruence.
Qed.

Lemma body_validation_accepts_iff_witness :
  Validation.validateRequestBody
    (App.request Cases.remove_slash_123) = Next
  <-> body_empty (req_body (App.request Cases.remove_slash_123)) = false
      /\ (req_path (App.request Cases.remove_slash_123) = "/agent/invite" ->
          requester_id_ok
            (body_field (req_body (App.request Cases.remove_slash_123))
               "requester_id")
          /\ channel_name_ok
               (body_field (req_body (App.request Cases.remove_slash_123))
                  "channel_name"))
      /\ (req_path (App.request Cases.remove_slash_123) = "/agent/remove" ->
          agent_id_ok
            (body_field (req_body (App.request Cases.remove_slash_123))
               "agent_id")).
Proof.
  apply (body_validation_accepts_iff (App.request Cases.remove_slash_123)).
  reflexivity.
Defined.

End ValidationProperties.

(* ===================================================================== *)
(** * Properties of the root router *)
(* ===================================================================== *)

Module RouterProperties.
Import Types Spec RouteSpec.

Section WithPlatform.
Context `{Platform}.

(** The token route never calls the provisioning service. *)
Lemma token_get_calls (env : gmap string string) (d : Token.Draws)
    (query : gmap string qvalue) :
  calls (Token.get env d query) = []
  \/ exists built, calls (Token.get env d query) = [built] /\ is_fetch built = false.
Proof.
  destruct (RouteFacts.token_get_cases env d query)
    as [(r & -> & _) | (_ & _ & ->)]; [left; reflexivity|].
  right.
  destruct (RouteFacts.token_handler_cases env d query)
    as [(token & _ & ->) | (msg & _ & ->)]; eexists; split; reflexivity.
Qed.

(** The calls of a run of the invite handler. *)
Lemma invite_calls (env : gmap string string) (now : Z) (random36 : string)
    (fetch : Fetch) (req : InviteAgentRequest) :
  exists built,
    is_fetch built = false
    /\ (calls (Agent.invite env now random36 fetch req) = [built]
        \/ exists call,
             calls (Agent.invite env now random36 fetch req)
             = [built; Fetched call]
             /\ fetch_method call = "POST"
             /\ fetch_url call = upstream_url env "/join"
             /\ fetch_headers call = upstream_headers env
             /\ fetch_body call <> None).
Proof.
  exists (TokenBuilt (env !! "AGORA_APP_ID") (env !! "AGORA_APP_CERTIFICATE")
            (channel_name req) (UidString (env_or env "AGENT_UID" "Agent"))
            PUBLISHER (now / 1000 + 3600)%Z (now / 1000 + 3600)%Z).
  split; [reflexivity|].
  destruct (AgentFacts.invite_cases env now random36 fetch req)
    as [[msg ->] | (token & cfg & _ & Hrun)]; [left; reflexivity|].
  right.
  exists (Agent.join_call env
            (Agent.requestBody env
               ("conversation-" +:+ pretty now +:+ "-" +:+ substring 2 8 random36)
               req token (env_or env "AGENT_UID" "Agent")
               (Agent.requester_toString (requester_id req)) cfg)).
  split; [|repeat split; try reflexivity; discriminate].
  destruct Hrun as [(msg & _ & ->) | [(resp & _ & _ & ->)
    | [(resp & msg & _ & _ & _ & ->) | (resp & data & _ & _ & _ & ->)]]];
    reflexivity.
Qed.

(** The calls of a run of the remove handler. *)
Lemma remove_calls (env : gmap string string) (fetch : Fetch)
    (agent_id : value) :
  calls (Agent.remove env fetch agent_id) = []
  \/ exists id,
       Agent.template_value agent_id = Ok id
       /\ calls (Agent.remove env fetch agent_id)
          = [Fetched {| fetch_url :=
                          upstream_url env ("/agents/" +:+ id +:+ "/leave");
                        fetch_method := "POST";
                        fetch_headers := upstream_headers env;
                        fetch_body := None |}].
Proof.
  destruct (truthy agent_id) eqn:Ht.
  2:{ left.
      destruct (RouteFacts.remove_stopped env fetch agent_id (or_introl Ht))
        as [msg ->]. reflexivity. }
  destruct (Agent.template_value agent_id) as [id|msg] eqn:Htext.
  2:{ left.
      destruct (RouteFacts.remove_stopped env fetch agent_id
                  (or_intror (ex_intro _ msg Htext))) as [msg' ->].
      reflexivity. }
  right. exists id. split; [reflexivity|].
  destruct (RouteFacts.remove_cases env fetch agent_id id Ht Htext)
    as [(msg & _ & ->) | [(resp & _ & _ & ->) | (resp & _ & _ & ->)]];
    reflexivity.
Qed.

(** The calls made behind the routes. *)
Lemma route_fetched (env : gmap string string) (w : Server.World)
    (req : Request) (out : Outcome) (call : FetchCall AgoraStartRequest) :
  Server.route env w req = Server.Handled out ->
  In (Fetched call) (calls out) ->
  req_method req = "POST"
  /\ fetch_method call = "POST"
  /\ fetch_headers call = upstream_headers env
  /\ ((Server.path_is "/agent/invite" (req_path req) = true
       /\ fetch_url call = upstream_url env "/join"
       /\ fetch_body call <> None)
      \/ (Server.path_is "/agent/remove" (req_path req) = true
          /\ fetch_body call = None
          /\ exists id,
               Agent.template_value (body_field (req_body req) "agent_id")
               = Ok id
               /\ fetch_url call
                  = upstream_url env ("/agents/" +:+ id +:+ "/leave"))).
Proof.
  intros Hout Hcall.
  destruct (RouteFacts.route_cases env w req out Hout)
    as [(_ & _ & ->) | [(Hm & Hp & r & _ & ->) | [(Hm & Hp & ->) | (_ & _ & ->)]]].
  - destruct (token_get_calls env (Server.draws w) (req_query req))
      as [Hc | (built & Hc & Hb)]; rewrite Hc in Hcall.
    + destruct Hcall.
    + destruct Hcall as [Heq|[]]. rewrite Heq in Hb. discriminate.
  - destruct (invite_calls env (Token.name_now (Server.draws w))
                (Token.random36 (Server.draws w)) (Server.fetch w) r)
      as (built & Hb & [Hc | (c & Hc & Hmeth & Hurl & Hhead & Hbody)]);
      rewrite Hc in Hcall.
    + destruct Hcall as [Heq|[]]. rewrite Heq in Hb. discriminate.
    + destruct Hcall as [Heq|[[= <-]|[]]];
        [rewrite Heq in Hb; discriminate|]. auto 8.
  - destruct (remove_calls env (Server.fetch w)
                (body_field (req_body req) "agent_id")) as [Hc | (id & Hid & Hc)];
      rewrite Hc in Hcall.
    + destruct Hcall.
    + destruct Hcall as [[= <-]|[]]. simpl.
      split; [exact Hm|]. split; [reflexivity|]. split; [reflexivity|].
      right. split; [exact Hp|]. split; [reflexivity|]. exists id. auto.
  - destruct Hcall.
Qed.

(** X1.  The provisioning service is called only for a POST that
    declares JSON and passes the body validation, on a path that the
    router matches with /agent/invite or /agent/remove (in any letter
    case, with or without a trailing slash), and with the configuration
    in place that validateEnvironment requires for that path: the
    identity provider's credentials in every case, the rest when the
    path starts with /agent in lower case. *)
Theorem upstream_only_for_agent_posts (env : gmap string string)
    (w : Server.World) (req : Request) (out : Outcome)
    (call : FetchCall AgoraStartRequest) :
  Server.handle env w req = Server.Handled out ->
  In (Fetched call) (calls out) ->
  req_method req = "POST"
  /\ (Server.path_is "/agent/invite" (req_path req) = true
      \/ Server.path_is "/agent/remove" (req_path req) = true)
  /\ configured_for env (req_path req)
  /\ req_is_json req = true
  /\ Validation.validateRequestBody req = Next.
Proof.
  intros Hout Hcall.
  destruct (RouteFacts.handle_cases env w req)
    as [(r & Hr & _) | (Henv & Hct & Hbody & Hroute)].
  { rewrite Hr in Hout. injection Hout as <-. destruct Hcall. }
  rewrite Hroute in Hout.
  destruct (route_fetched env w req out call Hout Hcall)
    as (Hm & _ & _ & Hp).
  split; [exact Hm|]. split; [tauto|].
  split; [|split; [exact (ValidationProperties.validateContentType_Next req Hct Hm) | exact Hbody]].
  destruct (PipelineClaims.validateEnvironment_cases env req)
    as [[_ Hconf] | (msg & Hreply & _)]; [exact Hconf | congruence].
Qed.

(** X2.  Serving one request builds at most one credential and calls the
    provisioning service at most once: nothing is retried. *)
Theorem one_credential_one_call (env : gmap string string)
    (w : Server.World) (req : Request) (out : Outcome) :
  Server.handle env w req = Server.Handled out ->
  length (filter is_fetch (calls out)) <= 1
  /\ length (filter is_token_built (calls out)) <= 1.
Proof.
  intros Hout.
  destruct (RouteFacts.handle_cases env w req)
    as [(r & Hr & _) | (_ & _ & _ & Hroute)].
  { rewrite Hr in Hout. injection Hout as <-. simpl. lia. }
  rewrite Hroute in Hout.
  destruct (RouteFacts.route_cases env w req out Hout)
    as [(_ & _ & ->) | [(_ & _ & r & _ & ->) | [(_ & _ & ->) | (_ & _ & ->)]]].
  - destruct (token_get_calls env (Server.draws w) (req_query req))
      as [-> | (built & -> & Hb)]; [simpl; lia|].
    destruct built; [|discriminate]. simpl. lia.
  - destruct (invite_calls env (Token.name_now (Server.draws w))
                (Token.random36 (Server.draws w)) (Server.fetch w) r)
      as (built & Hb & [-> | (call & -> & _)]);
      (destruct built; [|discriminate]); simpl; lia.
  - destruct (remove_calls env (Server.fetch w)
                (body_field (req_body req) "agent_id")) as [-> | (id & _ & ->)];
      simpl; lia.
  - simpl. lia.
Qed.

(** X21.  Every call to the provisioning service is a POST that carries
    the same two headers, the JSON content type and the Basic
    authorization built from the customer id and secret; the invite
    route posts a body to <base>/<appId>/join and the remove route posts
    no body to <base>/<appId>/agents/<agent_id>/leave, where <agent_id>
    is the agent_id of the request body as a template literal prints it
    (123 for the number 123). *)
Theorem upstream_calls_are_authenticated (env : gmap string string)
    (w : Server.World) (req : Request) (out : Outcome)
    (call : FetchCall AgoraStartRequest) :
  Server.handle env w req = Server.Handled out ->
  In (Fetched call) (calls out) ->
  fetch_method call = "POST"
  /\ fetch_headers call = upstream_headers env
  /\ ((Server.path_is "/agent/invite" (req_path req) = true
       /\ fetch_url call = upstream_url env "/join"
       /\ fetch_body call <> None)
      \/ (Server.path_is "/agent/remove" (req_path req) = true
          /\ fetch_body call = None
          /\ exists id,
               Agent.template_value (body_field (req_body req) "agent_id")
               = Ok id
               /\ fetch_url call
                  = upstream_url env ("/agents/" +:+ id +:+ "/leave"))).
Proof.
  intros Hout Hcall.
  destruct (RouteFacts.handle_cases env w req)
    as [(r & Hr & _) | (_ & _ & _ & Hroute)].
  { rewrite Hr in Hout. injection Hout as <-. destruct Hcall. }
  rewrite Hroute in Hout.
  destruct (route_fetched env w req out call Hout Hcall) as (_ & Hm & Hh & Hp).
  auto.
Qed.

End WithPlatform.
End RouterProperties.

Module RouterExamples.
Import Types Spec RouteSpec.

Lemma upstream_only_for_agent_posts_witness :
  req_method (App.request Cases.remove_slash_123) = "POST"
  /\ (Server.path_is "/agent/invite"
        (req_path (App.request Cases.remove_slash_123)) = true
      \/ Server.path_is "/agent/remove"
           (req_path (App.request Cases.remove_slash_123)) = true)
  /\ configured_for Sample.microsoft_env
       (req_path (App.request Cases.remove_slash_123))
  /\ req_is_json (App.request Cases.remove_slash_123) = true
  /\ Validation.validateRequestBody (App.request Cases.remove_slash_123) = Next.
Proof.
  apply (RouterProperties.upstream_only_for_agent_posts (H := Sample.platform)
           Sample.microsoft_env Cases.world_ok
           (App.request Cases.remove_slash_123)
           (Agent.remove (H := Sample.platform) Sample.microsoft_env
              Sample.available (Some (JNum (number_of_Z 123))))
           Cases.leave_number_123).
  - vm_compute. reflexivity.
  - vm_compute. left. reflexivity.
Defined.

Lemma one_credential_one_call_witness :
  length (filter is_fetch
            (calls (Agent.invite (H := Sample.platform) Sample.microsoft_env
                      1700000000000 "0.k3j5x8q2m" Sample.unavailable
                      Sample.invite_1234))) <= 1
  /\ length (filter is_token_built
               (calls (Agent.invite (H := Sample.platform) Sample.microsoft_env
                         1700000000000 "0.k3j5x8q2m" Sample.unavailable
                         Sample.invite_1234))) <= 1.
Proof.
  apply (RouterProperties.one_credential_one_call (H := Sample.platform)
           Sample.microsoft_env Cases.world_503 Cases.invite_1234_post).
  vm_compute. reflexivity.
Defined.

Lemma upstream_calls_are_authenticated_witness :
  fetch_method Cases.leave_number_123 = "POST"
  /\ fetch_headers Cases.leave_number_123
     = upstream_headers (H := Sample.platform) Sample.microsoft_env
  /\ ((Server.path_is "/agent/invite"
         (req_path (App.request Cases.remove_slash_123)) = true
       /\ fetch_url Cases.leave_number_123
          = upstream_url Sample.microsoft_env "/join"
       /\ fetch_body Cases.leave_number_123 <> None)
      \/ (Server.path_is "/agent/remove"
            (req_path (App.request Cases.remove_slash_123)) = true
          /\ fetch_body Cases.leave_number_123 = None
          /\ exists id,
               Agent.template_value (H := Sample.platform)
                 (body_field (req_body (App.request Cases.remove_slash_123))
                    "agent_id")
               = Ok id
               /\ fetch_url Cases.leave_number_123
                  = upstream_url Sample.microsoft_env
                      ("/agents/" +:+ id +:+ "/leave"))).
Proof.
  apply (RouterProperties.upstream_calls_are_authenticated (H := Sample.platform)
           Sample.microsoft_env Cases.world_ok
           (App.request Cases.remove_slash_123)
           (Agent.remove (H := Sample.platform) Sample.microsoft_env
              Sample.available (Some (JNum (number_of_Z 123))))).
  - vm_compute. reflexivity.
  - vm_compute. left. reflexivity.
Defined.

End RouterExamples.

(* ===================================================================== *)
(** * What the client can be answered *)
(* ===================================================================== *)

Module ReplyProperties.
Import Types Spec RouteSpec.

Lemma token_validateRequest_reply (query : gmap string qvalue) (r : Response) :
  Token.validateRequest query = Reply r -> status r = 400%Z.
Proof.
  unfold Token.validateRequest.
  RouteFacts.split_cases; intros Heq; try discriminate Heq;
    injection Heq as <-; reflexivity.
Qed.

Section WithPlatform.
Context `{Platform}.

(** A reply made in the root router, by a middleware or by a handler,
    has status 200, 400, 415 or 500. *)
Lemma router_reply_status (env : gmap string string) (w : Server.World)
    (req : Request) (out : Outcome) :
  Server.handle env w req = Server.Handled out ->
  In (status (reply out)) answered_statuses.
Proof.
  intros Hout. unfold answered_statuses.
  destruct (RouteFacts.handle_cases env w req)
    as [(r & Hr & Hwho) | (_ & _ & _ & Hroute)].
  { rewrite Hr in Hout. injection Hout as <-. simpl.
    destruct Hwho as [Henv | [[_ Hct] | (_ & _ & Hbody)]].
    - destruct (PipelineClaims.validateEnvironment_cases env req)
        as [[Hnext _] | (msg & Hreply & _)]; [congruence|].
      rewrite Hreply in Henv. injection Henv as <-. simpl. auto.
    - apply ValidationProperties.validateContentType_reply in Hct as (_ & _ & ->).
      simpl. auto.
    - apply ValidationProperties.validateRequestBody_reply in Hbody as [-> _].
      simpl. auto. }
  rewrite Hroute in Hout.
  destruct (RouteFacts.route_cases env w req out Hout)
    as [(_ & _ & ->) | [(_ & _ & r & _ & ->) | [(_ & _ & ->) | (_ & _ & ->)]]].
  - destruct (RouteFacts.token_get_cases env (Server.draws w) (req_query req))
      as [(r & -> & [Henv | Hreq]) | (_ & _ & ->)].
    + unfold Token.validateEnvironment in Henv.
      destruct (env_missing env "AGORA_APP_ID"
                || env_missing env "AGORA_APP_CERTIFICATE"); [|discriminate].
      injection Henv as <-. simpl. auto.
    + apply token_validateRequest_reply in Hreq. simpl. rewrite Hreq. simpl. auto.
    + destruct (RouteFacts.token_handler_cases env (Server.draws w) (req_query req))
        as [(token & _ & ->) | (msg & _ & ->)]; simpl; auto.
  - destruct (AgentFacts.invite_cases env (Token.name_now (Server.draws w))
                (Token.random36 (Server.draws w)) (Server.fetch w) r)
      as [[msg ->] | (token & cfg & _ & Hrun)]; [simpl; auto|].
    destruct Hrun as [(msg & _ & ->) | [(resp & _ & _ & ->)
      | [(resp & msg & _ & _ & _ & ->) | (resp & data & _ & _ & _ & ->)]]];
      simpl; auto.
  - destruct (truthy (body_field (req_body req) "agent_id")) eqn:Ht.
    2:{ destruct (RouteFacts.remove_stopped env (Server.fetch w) _ (or_introl Ht))
          as [msg ->]. simpl. auto. }
    destruct (Agent.template_value (body_field (req_body req) "agent_id"))
      as [id|msg] eqn:Htext.
    2:{ destruct (RouteFacts.remove_stopped env (Server.fetch w) _
                    (or_intror (ex_intro _ msg Htext))) as [msg' ->].
        simpl. auto. }
    destruct (RouteFacts.remove_cases env (Server.fetch w) _ id Ht Htext)
      as [(msg & _ & ->) | [(resp & _ & _ & ->) | (resp & _ & _ & ->)]];
      simpl; auto.
  - simpl. auto.
Qed.

(** The invite handler is entered with a body outside its declared type
    only on another spelling of its path: on /agent/invite itself the
    body validation has checked the fields. *)
Lemma ill_typed_only_off_path (env : gmap string string) (w : Server.World)
    (req : Request) :
  Server.handle env w req = Server.IllTyped ->
  req_method req = "POST"
  /\ Server.path_is "/agent/invite" (req_path req) = true
  /\ req_path req <> "/agent/invite".
Proof.
  destruct (RouteFacts.handle_cases env w req)
    as [(r & -> & _) | (_ & _ & Hbody & ->)]; [discriminate|].
  unfold Server.route, Server.replied.
  destruct (Server.serves_get (req_method req)
            && Server.path_is "/token" (req_path req)); [discriminate|].
  destruct (String.eqb (req_method req) "POST"
            && Server.path_is "/agent/invite" (req_path req)) eqn:Hinvite.
  2:{ destruct (String.eqb (req_method req) "POST"
                && Server.path_is "/agent/remove" (req_path req));
        [discriminate|].
      destruct (Server.serves_get (req_method req)
                && Server.path_is "/ping" (req_path req)); discriminate. }
  apply andb_prop in Hinvite as [Hm%string_eqb_true Hp].
  destruct (Server.invite_request (req_body req)) as [r|] eqn:Hr;
    [discriminate|].
  intros _. split; [exact Hm|]. split; [exact Hp|]. intros Hexact.
  unfold Validation.validateRequestBody in Hbody.
  rewrite Hm, Hexact in Hbody. simpl in Hbody.
  destruct (body_empty (req_body req)); [discriminate|].
  apply ValidationFacts.validateInviteBody_Next in Hbody as [Hid (c & Hc & _)].
  unfold Server.invite_request in Hr. rewrite Hc in Hr.
  destruct (body_field (req_body req) "requester_id") as [[| | n | s | |]|];
    simpl in Hid; try tauto; discriminate.
Qed.

(** X3.  Whatever the request, the configuration and the answer of the
    provisioning service, a reply made by the middlewares and handlers of
    the server has status 200, 400, 415 or 500: the status of the
    provisioning service is never passed on as the status of the reply.
    The other answers are those of the framework: cors answers an
    OPTIONS request (204), the error of express.json() is answered with
    its own status, and Express answers 404 when no route matches. *)
Theorem reply_status_is_fixed (env : gmap string string) (w : Server.World)
    (i : App.Incoming) :
  (App.in_method i = "OPTIONS" /\ App.handle env w i = App.Preflight)
  \/ (exists status,
        App.in_content i = App.JsonRefused status
        /\ App.handle env w i = App.ParseError status)
  \/ App.handle env w i = App.Routed Server.Unrouted
  \/ (exists out,
        App.handle env w i = App.Routed (Server.Handled out)
        /\ In (status (reply out)) answered_statuses)
  \/ (App.handle env w i = App.Routed Server.IllTyped
      /\ App.in_method i = "POST"
      /\ Server.path_is "/agent/invite" (App.in_path i) = true
      /\ App.in_path i <> "/agent/invite").
Proof.
  unfold App.handle.
  destruct (String.eqb (App.in_method i) "OPTIONS") eqn:Hm.
  { left. split; [apply string_eqb_true, Hm | reflexivity]. }
  right.
  destruct (App.in_content i) eqn:Hc; [| | |left; eauto]; right;
    (destruct (Server.handle env w (App.request i)) as [out| |] eqn:Hout;
     [ right; left; exists out;
       split; [reflexivity | exact (router_reply_status _ _ _ _ Hout)]
     | left; reflexivity
     | right; right; split; [reflexivity|];
       exact (ill_typed_only_off_path _ _ _ Hout) ]).
Qed.

(** X15.  GET /ping answers {message: "pong"} exactly when the identity
    provider's application id and certificate are configured, whatever
    else is missing; without them it answers 500 like every other route. *)
Theorem ping_needs_the_credentials (env : gmap string string)
    (w : Server.World) (req : Request) :
  req_method req = "GET" -> req_path req = "/ping" ->
  (all_present env agora_vars ->
   Server.handle env w req
   = Server.replied {| status := 200;
                       payload := JObj [("message", JStr "pong")] |})
  /\ (~ all_present env agora_vars ->
      Server.handle env w req
      = Server.replied {| status := 500;
                          payload := JObj [("error",
                            JStr "Agora credentials are not set")] |}).
Proof.
  intros Hm Hp.
  pose proof (TokenClaims.agora_vars_checked env) as Hchk.
  unfold Server.handle, Validation.validateEnvironment,
    Validation.validateContentType, Validation.validateRequestBody, Server.route.
  rewrite Hm, Hp.
  destruct (env_missing env "AGORA_APP_ID"
            || env_missing env "AGORA_APP_CERTIFICATE").
  - split; [|reflexivity]. intros Hall. apply Hchk in Hall. discriminate.
  - split; [reflexivity|]. intros Hno. destruct Hno. apply Hchk. reflexivity.
Qed.

(** X16.  With the configuration in place, a POST for which
    req.is('application/json') is falsy (it has no body, or another
    Content-Type) is answered 415 whatever its path, and a POST whose
    JSON body is the empty object or the empty array is answered 400
    "Request body is required" whatever its path. *)
Theorem content_type_before_body (env : gmap string string)
    (w : Server.World) (i : App.Incoming) :
  App.in_method i = "POST" ->
  Validation.validateEnvironment env (App.request i) = Next ->
  (App.in_content i = App.NotJson ->
   App.handle env w i
   = App.Routed
       (Server.replied
          {| status := 415;
             payload := JObj [("error", JStr
               "Unsupported Media Type. Content-Type must be application/json")] |}))
  /\ (App.in_content i = App.JsonObject ∅
      \/ App.in_content i = App.JsonArray [] ->
      App.handle env w i
      = App.Routed
          (Server.replied
             {| status := 400;
                payload := JObj [("error", JStr "Request body is required")] |})).
Proof.
  intros Hm Henv.
  unfold App.handle, Server.handle. rewrite Henv.
  unfold Validation.validateContentType, Validation.validateRequestBody,
    App.request. simpl. rewrite Hm. simpl.
  split.
  - intros ->. reflexivity.
  - intros [-> | ->]; reflexivity.
Qed.

End WithPlatform.

Lemma ping_needs_the_credentials_witness :
  Server.handle (H := Sample.platform) Sample.agora_env Cases.world_ok Sample.ping
  = Server.replied {| status := 200;
                      payload := JObj [("message", JStr "pong")] |}.
Proof.
  apply (ping_needs_the_credentials (H := Sample.platform) Sample.agora_env
           Cases.world_ok Sample.ping eq_refl eq_refl).
  repeat constructor; eexists; (split; [vm_compute; reflexivity | discriminate]).
Defined.

Lemma content_type_before_body_witness :
  App.handle (H := Sample.platform) Sample.agora_env Cases.world_ok
    Cases.empty_object_post
  = App.Routed
      (Server.replied
         {| status := 400;
            payload := JObj [("error", JStr "Request body is required")] |}).
Proof.
  apply (content_type_before_body (H := Sample.platform) Sample.agora_env
           Cases.world_ok Cases.empty_object_post).
  - reflexivity.
  - vm_compute. reflexivity.
  - left. reflexivity.
Defined.

(** A POST that declares JSON and sends no body at all is answered 415:
    req.is('application/json') is null for it. *)
Example post_without_body :
  App.handle (H := Sample.platform) Sample.agora_env Cases.world_ok
    Cases.token_post_plain
  = App.Routed
      (Server.replied
         (res_status_json 415
            (error_body
               "Unsupported Media Type. Content-Type must be application/json"))).
Proof. vm_compute. reflexivity. Qed.

(** GET /token?uid[]=5&channel[]=abc: the channel is not a string. *)
Example token_channel_array :
  reply (Token.get (H := Sample.platform) Sample.agora_env
           (Sample.draws "0.k3j5x8q2m") Cases.token_arrays)
  = res_status_json 400
      (error_body "Invalid channel parameter. Must be a string").
Proof. vm_compute. reflexivity. Qed.

Example reply_statuses_of_the_framework :
  App.status_of
    (App.handle (H := Sample.platform) Sample.microsoft_env Cases.world_ok
       Cases.preflight) = Some 204%Z
  /\ App.status_of
       (App.handle (H := Sample.platform) Sample.microsoft_env Cases.world_ok
          {| App.in_method := "GET"; App.in_path := "/nowhere";
             App.in_query := ∅; App.in_content := App.NotJson |}) = Some 404%Z.
Proof. split; vm_compute; reflexivity. Qed.

End ReplyProperties.

(* ===================================================================== *)
(** * Properties of the invite handler *)
(* ===================================================================== *)

Module InviteProperties.
Import Types Spec RouteSpec.

Section WithPlatform.
Context `{Platform}.

(** The reply of the invite handler, read off what [fetch] returned for
    the call it made. *)
Lemma invite_reply (env : gmap string string) (now : Z) (random36 : string)
    (fetch : Fetch) (req : InviteAgentRequest) (call : FetchCall AgoraStartRequest) :
  In (Fetched call) (calls (Agent.invite env now random36 fetch req)) ->
  reply (Agent.invite env now random36 fetch req)
  = match fetch call with
    | Throw msg => res_status_json 500 (error_body msg)
    | Ok response =>
        if response_ok response then
          match response_json response with
          | Ok data => res_json data
          | Throw msg => res_status_json 500 (error_body msg)
          end
        else res_status_json 500
               (error_body ("Failed to start conversation: "
                            +:+ pretty (response_status response)))
    end.
Proof.
  destruct (AgentFacts.invite_cases env now random36 fetch req)
    as [[msg ->] | (token & cfg & _ & Hrun)].
  { intros [[=]|[]]. }
  destruct Hrun as [(msg & Hf & ->) | [(resp & Hf & Hok & ->)
    | [(resp & msg & Hf & Hok & Hj & ->) | (resp & data & Hf & Hok & Hj & ->)]]];
    simpl; (intros [[=]|[[= <-]|[]]]); rewrite Hf; try rewrite Hok;
    try rewrite Hj; reflexivity.
Qed.

Lemma response_ok_spec (response : FetchResponse) :
  response_ok response = true <-> (200 <= response_status response <= 299)%Z.
Proof.
  unfold response_ok. rewrite andb_true_iff, !Z.leb_le. tauto.
Qed.

(** X4.  When the provisioning service answers an invite with a status in
    200..299, the client receives status 200 and the parsed body of that
    answer unchanged; if the body is not JSON, it receives 500 with the
    message of the parse error. *)
Theorem invite_success_passthrough (env : gmap string string)
    (w : Server.World) (req : Request) (out : Outcome)
    (call : FetchCall AgoraStartRequest) (response : FetchResponse) :
  req_method req = "POST" -> req_path req = "/agent/invite" ->
  Server.handle env w req = Server.Handled out ->
  In (Fetched call) (calls out) ->
  Server.fetch w call = Ok response ->
  (200 <= response_status response <= 299)%Z ->
  (forall data, response_json response = Ok data ->
     reply out = {| status := 200; payload := data |})
  /\ (forall msg, response_json response = Throw msg ->
        reply out = {| status := 500; payload := JObj [("error", JStr msg)] |}).
Proof.
  intros Hm Hp Hout Hcall Hresp Hstatus.
  destruct (InviteClaims.handle_invite env w req out Hm Hp Hout)
    as [Hnone | (r & _ & _ & ->)].
  { rewrite Hnone in Hcall. destruct Hcall. }
  rewrite (invite_reply _ _ _ _ _ _ Hcall), Hresp.
  apply response_ok_spec in Hstatus. rewrite Hstatus.
  split; intros x ->; reflexivity.
Qed.

(** X5.  When the provisioning service cannot be reached during an
    invite, the client receives 500 with the message of the transport
    error, and the call is not repeated. *)
Theorem invite_transport_failure (env : gmap string string)
    (w : Server.World) (req : Request) (out : Outcome)
    (call : FetchCall AgoraStartRequest) (msg : string) :
  req_method req = "POST" -> req_path req = "/agent/invite" ->
  Server.handle env w req = Server.Handled out ->
  In (Fetched call) (calls out) ->
  Server.fetch w call = Throw msg ->
  reply out = {| status := 500; payload := JObj [("error", JStr msg)] |}
  /\ filter is_fetch (calls out) = [Fetched call].
Proof.
  intros Hm Hp Hout Hcall Hresp.
  destruct (InviteClaims.handle_invite env w req out Hm Hp Hout)
    as [Hnone | (r & _ & _ & ->)].
  { rewrite Hnone in Hcall. destruct Hcall. }
  rewrite (invite_reply _ _ _ _ _ _ Hcall), Hresp.
  split; [reflexivity | apply (AgentFacts.invite_fetched _ _ _ _ _ _ Hcall)].
Qed.

(** The configuration check leaves nothing for [getTTSConfig] to refuse. *)
Lemma checked_environment_resolves (env : gmap string string) (req : Request) :
  Validation.validateEnvironment env req = Next ->
  startsWith (req_path req) "/agent" = true ->
  env_missing env "TTS_VENDOR" = false
  /\ exists cfg,
       Agent.getTTSConfig env (env_template env "TTS_VENDOR") = Ok cfg
       /\ TTSVendor_value (vendor cfg) = env_template env "TTS_VENDOR".
Proof.
  intros Hnext Hagent.
  destruct (PipelineClaims.validateEnvironment_cases env req)
    as [[_ [_ Hconf]] | (msg & Hreply & _)]; [|congruence].
  destruct (Hconf Hagent) as (_ & _ & [[Hv Hall] | [Hv Hall]]);
    unfold env_missing, env_template, Agent.getTTSConfig; rewrite Hv; simpl.
  - apply TTSFacts.microsoft_vars_checked in Hall. rewrite Hall.
    split; [reflexivity|]. eexists. split; reflexivity.
  - apply TTSFacts.elevenlabs_vars_checked in Hall. rewrite Hall.
    split; [reflexivity|]. eexists. split; reflexivity.
Qed.

(** X6.  The configuration check and getTTSConfig agree: whenever
    validateEnvironment lets a request under /agent through, TTS_VENDOR
    is set and getTTSConfig returns a configuration for it, tagged with
    the configured vendor, so that behind the check the invite handler
    never stops for a missing TTS setting. *)
Theorem environment_check_covers_tts (env : gmap string string) (req : Request) :
  Validation.validateEnvironment env req = Next ->
  startsWith (req_path req) "/agent" = true ->
  exists cfg,
    env !! "TTS_VENDOR" = Some (TTSVendor_value (vendor cfg))
    /\ Agent.getTTSConfig env (TTSVendor_value (vendor cfg)) = Ok cfg.
Proof.
  intros Hnext Hagent.
  destruct (checked_environment_resolves env req Hnext Hagent)
    as (Hset & cfg & Hcfg & Hv).
  exists cfg. rewrite Hv. split; [|exact Hcfg].
  unfold env_missing, env_template in *.
  destruct (env !! "TTS_VENDOR"); [reflexivity | discriminate].
Qed.

(** The run of the invite handler once the token is built and the TTS
    configuration resolved. *)
Lemma invite_after_token (env : gmap string string) (now : Z)
    (random36 : string) (fetch : Fetch) (req : InviteAgentRequest)
    (token : string) (cfg : TTSConfig) :
  buildTokenWithUid (env !! "AGORA_APP_ID") (env !! "AGORA_APP_CERTIFICATE")
    (channel_name req) (UidString (env_or env "AGENT_UID" "Agent")) PUBLISHER
    (now / 1000 + 3600)%Z (now / 1000 + 3600)%Z = Ok token ->
  env_missing env "TTS_VENDOR" = false ->
  Agent.getTTSConfig env (env_template env "TTS_VENDOR") = Ok cfg ->
  calls (Agent.invite env now random36 fetch req)
  = [TokenBuilt (env !! "AGORA_APP_ID") (env !! "AGORA_APP_CERTIFICATE")
       (channel_name req) (UidString (env_or env "AGENT_UID" "Agent")) PUBLISHER
       (now / 1000 + 3600)%Z (now / 1000 + 3600)%Z;
     Fetched (Agent.join_call env
                (Agent.requestBody env
                   ("conversation-" +:+ pretty now +:+ "-"
                    +:+ substring 2 8 random36)
                   req token (env_or env "AGENT_UID" "Agent")
                   (Agent.requester_toString (requester_id req)) cfg))].
Proof.
  intros Htoken Hvendor Hcfg.
  unfold Agent.invite, Agent.invite_body, Eff.try_catch, Eff.bind,
    Eff.build_token, Eff.do_fetch, Eff.lift, Eff.throw, Eff.ret, expiration_time.
  rewrite Htoken, Hvendor, Hcfg.
  destruct (fetch _) as [response|msg]; [|reflexivity].
  destruct (negb (response_ok response)); [reflexivity|].
  destruct (response_json response); reflexivity.
Qed.

(** X7.  A POST to /agent/invite that passes the three middlewares and
    whose agent token is built always reaches the provisioning service,
    exactly once, with that token and with the TTS configuration of the
    configured vendor. *)
Theorem validated_invite_reaches_upstream (env : gmap string string)
    (w : Server.World) (req : Request) (r : InviteAgentRequest) (token : string) :
  req_method req = "POST" -> req_path req = "/agent/invite" ->
  Validation.validateEnvironment env req = Next ->
  Validation.validateContentType req = Next ->
  Validation.validateRequestBody req = Next ->
  Server.invite_request (req_body req) = Some r ->
  buildTokenWithUid (env !! "AGORA_APP_ID") (env !! "AGORA_APP_CERTIFICATE")
    (channel_name r) (UidString (env_or env "AGENT_UID" "Agent")) PUBLISHER
    (Token.name_now (Server.draws w) / 1000 + 3600)%Z
    (Token.name_now (Server.draws w) / 1000 + 3600)%Z = Ok token ->
  exists out call body,
    Server.handle env w req = Server.Handled out
    /\ filter is_fetch (calls out) = [Fetched call]
    /\ fetch_body call = Some body
    /\ Types.token (properties body) = token
    /\ env !! "TTS_VENDOR" = Some (TTSVendor_value (vendor (tts (properties body)))).
Proof.
  intros Hm Hp Henv Hct Hbody Hr Htoken.
  assert (startsWith (req_path req) "/agent" = true) as Hagent
    by (rewrite Hp; reflexivity).
  destruct (checked_environment_resolves env req Henv Hagent)
    as (Hset & cfg & Hcfg & Hv).
  eexists _, _, _. split.
  { unfold Server.handle, Server.route. rewrite Henv, Hct, Hbody, Hm, Hp, Hr.
    reflexivity. }
  rewrite (invite_after_token _ _ _ _ _ _ _ Htoken Hset Hcfg).
  split; [reflexivity|]. split; [reflexivity|]. split; [reflexivity|].
  simpl. rewrite Hv. unfold env_missing, env_template in *.
  destruct (env !! "TTS_VENDOR"); [reflexivity | discriminate].
Qed.

(** X8.  The credential an invite sends to the provisioning service is
    the one built for the channel and the agent identity named in the
    same request: the token builder was called first, for the client's
    channel_name and for AGENT_UID (or "Agent"), as publisher, and the
    request carries its result. *)
Theorem invite_credential_matches_request (env : gmap string string) (now : Z)
    (random36 : string) (fetch : Fetch) (req : InviteAgentRequest)
    (call : FetchCall AgoraStartRequest) :
  In (Fetched call) (calls (Agent.invite env now random36 fetch req)) ->
  exists body expiry,
    fetch_body call = Some body
    /\ channel (properties body) = channel_name req
    /\ agent_rtc_uid (properties body) = env_or env "AGENT_UID" "Agent"
    /\ calls (Agent.invite env now random36 fetch req)
       = [TokenBuilt (env !! "AGORA_APP_ID") (env !! "AGORA_APP_CERTIFICATE")
            (channel (properties body))
            (UidString (agent_rtc_uid (properties body))) PUBLISHER
            expiry expiry;
          Fetched call]
    /\ buildTokenWithUid (env !! "AGORA_APP_ID") (env !! "AGORA_APP_CERTIFICATE")
         (channel (properties body))
         (UidString (agent_rtc_uid (properties body))) PUBLISHER expiry expiry
       = Ok (Types.token (properties body)).
Proof.
  unfold Agent.invite, Agent.invite_body, Eff.try_catch, Eff.bind,
    Eff.build_token, Eff.do_fetch, Eff.lift, Eff.throw, Eff.ret.
  destruct (buildTokenWithUid _ _ _ _ _ _ _) as [token|msg] eqn:Htoken.
  2:{ simpl. intros [[=]|[]]. }
  destruct (env_missing env "TTS_VENDOR").
  { simpl. intros [[=]|[]]. }
  destruct (Agent.getTTSConfig _ _) as [cfg|msg].
  2:{ simpl. intros [[=]|[]]. }
  destruct (fetch _) as [response|msg];
    [destruct (negb (response_ok response));
       [|destruct (response_json response)]|];
    simpl; (intros [[=]|[[= <-]|[]]]); eexists _, _;
    (split; [reflexivity|]); (split; [reflexivity|]); (split; [reflexivity|]);
    (split; [reflexivity | exact Htoken]).
Qed.

(** X9.  In the request an invite sends, the modalities the client
    supplied (any truthy value) are passed on unchanged; otherwise the
    comma-separated list of INPUT_MODALITIES / OUTPUT_MODALITIES is used
    when that variable is set, and ["text"] / ["text", "audio"] when it
    is not. *)
Theorem invite_modalities_precedence (env : gmap string string) (now : Z)
    (random36 : string) (fetch : Fetch) (req : InviteAgentRequest)
    (call : FetchCall AgoraStartRequest) :
  In (Fetched call) (calls (Agent.invite env now random36 fetch req)) ->
  exists body,
    fetch_body call = Some body
    /\ (truthy (req_input_modalities req) = true ->
        Some (input_modalities (llm (properties body)))
        = req_input_modalities req)
    /\ (truthy (req_output_modalities req) = true ->
        Some (output_modalities (llm (properties body)))
        = req_output_modalities req)
    /\ (truthy (req_input_modalities req) = false ->
        input_modalities (llm (properties body))
        = match env !! "INPUT_MODALITIES" with
          | Some s => JArr (JStr <$> split "," s)
          | None => JArr [JStr "text"]
          end)
    /\ (truthy (req_output_modalities req) = false ->
        output_modalities (llm (properties body))
        = match env !! "OUTPUT_MODALITIES" with
          | Some s => JArr (JStr <$> split "," s)
          | None => JArr [JStr "text"; JStr "audio"]
          end).
Proof.
  intros Hcall.
  apply AgentFacts.invite_fetched in Hcall as (_ & name & token & cfg & ->).
  eexists. split; [reflexivity|]. simpl. unfold Agent.modalities.
  repeat split; intros Ht;
    try (destruct (req_input_modalities req) as [v|]; [|discriminate];
         rewrite Ht; reflexivity);
    try (destruct (req_output_modalities req) as [v|]; [|discriminate];
         rewrite Ht; reflexivity);
    try (destruct (req_input_modalities req) as [v|]; [rewrite Ht|]; reflexivity);
    try (destruct (req_output_modalities req) as [v|]; [rewrite Ht|]; reflexivity).
Qed.

(** X20.  A configuration returned by getTTSConfig carries the values of
    the environment as they are: for Microsoft the key, the region and
    the voice name, with rate and volume read by parseFloat; for
    ElevenLabs the API key, the voice id and the model id, each in its
    own field. *)
Theorem getTTSConfig_values (env : gmap string string) (v : string)
    (cfg : TTSConfig) :
  Agent.getTTSConfig env v = Ok cfg ->
  (v = "microsoft" /\ vendor cfg = Microsoft
   /\ exists key region voice rate volume,
        env !! "MICROSOFT_TTS_KEY" = Some key
        /\ env !! "MICROSOFT_TTS_REGION" = Some region
        /\ env !! "MICROSOFT_TTS_VOICE_NAME" = Some voice
        /\ env !! "MICROSOFT_TTS_RATE" = Some rate
        /\ env !! "MICROSOFT_TTS_VOLUME" = Some volume
        /\ params cfg = MicrosoftTTSParams key region voice
                          (parseFloat rate) (parseFloat volume))
  \/ (v = "elevenlabs" /\ vendor cfg = ElevenLabs
      /\ exists key voice model,
           env !! "ELEVENLABS_API_KEY" = Some key
           /\ env !! "ELEVENLABS_VOICE_ID" = Some voice
           /\ env !! "ELEVENLABS_MODEL_ID" = Some model
           /\ params cfg = ElevenLabsTTSParams key voice model).
Proof.
  assert (forall k, env_missing env k = false ->
                    exists x, env !! k = Some x /\ env_template env k = x) as Hget.
  { intros k. unfold env_missing, env_template.
    destruct (env !! k); [eauto | discriminate]. }
  unfold Agent.getTTSConfig. simpl.
  destruct (String.eqb v "microsoft") eqn:Hm.
  { apply string_eqb_true in Hm as ->.
    destruct (env_missing env "MICROSOFT_TTS_KEY") eqn:H1; [discriminate|].
    destruct (env_missing env "MICROSOFT_TTS_REGION") eqn:H2; [discriminate|].
    destruct (env_missing env "MICROSOFT_TTS_VOICE_NAME") eqn:H3; [discriminate|].
    destruct (env_missing env "MICROSOFT_TTS_RATE") eqn:H4; [discriminate|].
    destruct (env_missing env "MICROSOFT_TTS_VOLUME") eqn:H5; [discriminate|].
    simpl. intros [= <-]. left. split; [reflexivity|]. split; [reflexivity|].
    destruct (Hget _ H1) as (x1 & E1 & ->). destruct (Hget _ H2) as (x2 & E2 & ->).
    destruct (Hget _ H3) as (x3 & E3 & ->). destruct (Hget _ H4) as (x4 & E4 & ->).
    destruct (Hget _ H5) as (x5 & E5 & ->).
    exists x1, x2, x3, x4, x5. auto 10. }
  destruct (String.eqb v "elevenlabs") eqn:He; [|discriminate].
  apply string_eqb_true in He as ->.
  destruct (env_missing env "ELEVENLABS_API_KEY") eqn:H1; [discriminate|].
  destruct (env_missing env "ELEVENLABS_VOICE_ID") eqn:H2; [discriminate|].
  destruct (env_missing env "ELEVENLABS_MODEL_ID") eqn:H3; [discriminate|].
  simpl. intros [= <-]. right. split; [reflexivity|]. split; [reflexivity|].
  destruct (Hget _ H1) as (x1 & E1 & ->). destruct (Hget _ H2) as (x2 & E2 & ->).
  destruct (Hget _ H3) as (x3 & E3 & ->).
  exists x1, x2, x3. auto 10.
Qed.

End WithPlatform.
End InviteProperties.

Module InviteWitnesses.
Import Types Spec RouteSpec.

Lemma invite_success_passthrough_witness :
  (forall data, Ok Sample.agent_started = Ok data ->
     reply (Agent.invite (H := Sample.platform) Sample.microsoft_env
              1700000000000 "0.k3j5x8q2m" Sample.available Sample.invite_1234)
     = {| status := 200; payload := data |})
  /\ (forall msg, Ok Sample.agent_started = Throw msg ->
        reply (Agent.invite (H := Sample.platform) Sample.microsoft_env
                 1700000000000 "0.k3j5x8q2m" Sample.available Sample.invite_1234)
        = {| status := 500; payload := JObj [("error", JStr msg)] |}).
Proof.
  apply (InviteProperties.invite_success_passthrough (H := Sample.platform)
           Sample.microsoft_env Cases.world_ok Cases.invite_1234_post
           _ Sample.join_1234
           {| response_status := 200; response_text := "";
              response_json := Ok Sample.agent_started |}).
  - reflexivity.
  - reflexivity.
  - vm_compute. reflexivity.
  - vm_compute. right. left. reflexivity.
  - reflexivity.
  - simpl. lia.
Defined.

Lemma invite_transport_failure_witness :
  reply (Agent.invite (H := Sample.platform) Sample.microsoft_env
           1700000000000 "0.k3j5x8q2m" Cases.unreachable Sample.invite_1234)
  = {| status := 500; payload := JObj [("error", JStr "fetch failed")] |}
  /\ filter is_fetch
       (calls (Agent.invite (H := Sample.platform) Sample.microsoft_env
                 1700000000000 "0.k3j5x8q2m" Cases.unreachable
                 Sample.invite_1234))
     = [Fetched Sample.join_1234].
Proof.
  apply (InviteProperties.invite_transport_failure (H := Sample.platform)
           Sample.microsoft_env Cases.world_down Cases.invite_1234_post
           _ Sample.join_1234 "fetch failed").
  - reflexivity.
  - reflexivity.
  - vm_compute. reflexivity.
  - vm_compute. right. left. reflexivity.
  - reflexivity.
Defined.

Lemma environment_check_covers_tts_witness :
  exists cfg,
    Sample.microsoft_env !! "TTS_VENDOR" = Some (TTSVendor_value (vendor cfg))
    /\ Agent.getTTSConfig (H := Sample.platform) Sample.microsoft_env
         (TTSVendor_value (vendor cfg)) = Ok cfg.
Proof.
  apply (InviteProperties.environment_check_covers_tts (H := Sample.platform)
           Sample.microsoft_env Cases.invite_1234_post).
  - vm_compute. reflexivity.
  - reflexivity.
Defined.

Lemma validated_invite_reaches_upstream_witness :
  exists out call body,
    Server.handle (H := Sample.platform) Sample.microsoft_env Cases.world_503
      Cases.invite_1234_post = Server.Handled out
    /\ filter is_fetch (calls out) = [Fetched call]
    /\ fetch_body call = Some body
    /\ Types.token (properties body) = "007eJxzYBB"
    /\ Sample.microsoft_env !! "TTS_VENDOR"
       = Some (TTSVendor_value (vendor (tts (properties body)))).
Proof.
  apply (InviteProperties.validated_invite_reaches_upstream
           (H := Sample.platform) Sample.microsoft_env Cases.world_503
           Cases.invite_1234_post Sample.invite_1234 "007eJxzYBB").
  - reflexivity.
  - reflexivity.
  - vm_compute. reflexivity.
  - reflexivity.
  - vm_compute. reflexivity.
  - vm_compute. reflexivity.
  - reflexivity.
Defined.

Lemma invite_credential_matches_request_witness :
  exists body expiry,
    fetch_body Sample.join_1234 = Some body
    /\ channel (properties body) = "demo-chan"
    /\ agent_rtc_uid (properties body) = "Agent"
    /\ calls (Agent.invite (H := Sample.platform) Sample.microsoft_env
                1700000000000 "0.k3j5x8q2m" Sample.available Sample.invite_1234)
       = [TokenBuilt (Sample.microsoft_env !! "AGORA_APP_ID")
            (Sample.microsoft_env !! "AGORA_APP_CERTIFICATE")
            (channel (properties body))
            (UidString (agent_rtc_uid (properties body))) PUBLISHER
            expiry expiry;
          Fetched Sample.join_1234]
    /\ buildTokenWithUid (Platform := Sample.platform)
         (Sample.microsoft_env !! "AGORA_APP_ID")
         (Sample.microsoft_env !! "AGORA_APP_CERTIFICATE")
         (channel (properties body))
         (UidString (agent_rtc_uid (properties body))) PUBLISHER expiry expiry
       = Ok (Types.token (properties body)).
Proof.
  apply (InviteProperties.invite_credential_matches_request
           (H := Sample.platform) Sample.microsoft_env 1700000000000
           "0.k3j5x8q2m" Sample.available Sample.invite_1234 Sample.join_1234).
  vm_compute. right. left. reflexivity.
Defined.

Lemma invite_modalities_precedence_witness :
  exists body,
    fetch_body Sample.join_1234 = Some body
    /\ (truthy None = true ->
        Some (input_modalities (llm (properties body))) = None)
    /\ (truthy None = true ->
        Some (output_modalities (llm (properties body))) = None)
    /\ (truthy None = false ->
        input_modalities (llm (properties body))
        = match Sample.microsoft_env !! "INPUT_MODALITIES" with
          | Some s => JArr (JStr <$> split "," s)
          | None => JArr [JStr "text"]
          end)
    /\ (truthy None = false ->
        output_modalities (llm (properties body))
        = match Sample.microsoft_env !! "OUTPUT_MODALITIES" with
          | Some s => JArr (JStr <$> split "," s)
          | None => JArr [JStr "text"; JStr "audio"]
          end).
Proof.
  apply (InviteProperties.invite_modalities_precedence (H := Sample.platform)
           Sample.microsoft_env 1700000000000 "0.k3j5x8q2m" Sample.available
           Sample.invite_1234 Sample.join_1234).
  vm_compute. right. left. reflexivity.
Defined.

Lemma getTTSConfig_values_witness :
  ("elevenlabs" = "microsoft" /\ ElevenLabs = Microsoft
   /\ exists key region voice rate volume,
        Sample.elevenlabs_env !! "MICROSOFT_TTS_KEY" = Some key
        /\ Sample.elevenlabs_env !! "MICROSOFT_TTS_REGION" = Some region
        /\ Sample.elevenlabs_env !! "MICROSOFT_TTS_VOICE_NAME" = Some voice
        /\ Sample.elevenlabs_env !! "MICROSOFT_TTS_RATE" = Some rate
        /\ Sample.elevenlabs_env !! "MICROSOFT_TTS_VOLUME" = Some volume
        /\ ElevenLabsTTSParams "key" "voice" "eleven_flash_v2_5"
           = MicrosoftTTSParams key region voice
               (parseFloat (Platform := Sample.platform) rate)
               (parseFloat (Platform := Sample.platform) volume))
  \/ ("elevenlabs" = "elevenlabs" /\ ElevenLabs = ElevenLabs
      /\ exists key voice model,
           Sample.elevenlabs_env !! "ELEVENLABS_API_KEY" = Some key
           /\ Sample.elevenlabs_env !! "ELEVENLABS_VOICE_ID" = Some voice
           /\ Sample.elevenlabs_env !! "ELEVENLABS_MODEL_ID" = Some model
           /\ ElevenLabsTTSParams "key" "voice" "eleven_flash_v2_5"
              = ElevenLabsTTSParams key voice model).
Proof.
  apply (InviteProperties.getTTSConfig_values (H := Sample.platform)
           Sample.elevenlabs_env "elevenlabs"
           {| vendor := ElevenLabs;
              params := ElevenLabsTTSParams "key" "voice" "eleven_flash_v2_5" |}).
  vm_compute. reflexivity.
Defined.

End InviteWitnesses.

(* ===================================================================== *)
(** * Properties of the remove handler *)
(* ===================================================================== *)

Module RemoveProperties.
Import Types Spec RouteSpec.

Section WithPlatform.
Context `{Platform}.

(** X10.  A POST to /agent/remove that passes the three middlewares
    always reaches the provisioning service, exactly once and without
    building a credential: one POST without body to
    <base>/<appId>/agents/<agent_id>/leave, where agent_id is the
    non-empty string of the request. *)
Theorem validated_remove_calls_upstream (env : gmap string string)
    (w : Server.World) (req : Request) :
  req_method req = "POST" -> req_path req = "/agent/remove" ->
  Validation.validateEnvironment env req = Next ->
  Validation.validateContentType req = Next ->
  Validation.validateRequestBody req = Next ->
  exists id out,
    body_field (req_body req) "agent_id" = Some (JStr id)
    /\ id <> ""
    /\ Server.handle env w req = Server.Handled out
    /\ calls out
       = [Fetched {| fetch_url :=
                       upstream_url env ("/agents/" +:+ id +:+ "/leave");
                     fetch_method := "POST";
                     fetch_headers := upstream_headers env;
                     fetch_body := None |}].
Proof.
  intros Hm Hp Henv Hct Hbody.
  assert (exists id, body_field (req_body req) "agent_id" = Some (JStr id)
                     /\ id <> "") as (id & Hid & Hne).
  { unfold Validation.validateRequestBody, Validation.validateRemoveBody in Hbody.
    rewrite Hm, Hp in Hbody. simpl in Hbody.
    destruct (body_empty (req_body req)); [discriminate|].
    destruct (body_field (req_body req) "agent_id") as [[| | | id | |]|];
      simpl in Hbody; try discriminate.
    - destruct b; discriminate.
    - destruct (negb (number_falsy n)); discriminate.
    - exists id. split; [reflexivity|]. intros ->. discriminate. }
  exists id. eexists. split; [exact Hid|]. split; [exact Hne|]. split.
  { unfold Server.handle. rewrite Henv, Hct, Hbody.
    rewrite (RouteFacts.route_remove env w req Hm Hp), Hid. reflexivity. }
  assert (truthy (Some (JStr id)) = true) as Ht.
  { simpl. apply negb_true_iff, string_eqb_false, Hne. }
  destruct (RouteFacts.remove_cases env (Server.fetch w) (Some (JStr id)) id
              Ht eq_refl)
    as [(msg & _ & ->) | [(resp & _ & _ & ->) | (resp & _ & _ & ->)]];
    reflexivity.
Qed.

(** X11.  The reply of /agent/remove depends on the status of the
    provisioning service only: a status in 200..299 gives 200 with
    {success: true}, whatever the body of that answer; any other status
    s gives 500 with {error: "Failed to remove agent: s"}; a transport
    error gives 500 with its message. *)
Theorem remove_reply_by_status (env : gmap string string)
    (w : Server.World) (req : Request) (out : Outcome)
    (call : FetchCall AgoraStartRequest) :
  req_method req = "POST" -> req_path req = "/agent/remove" ->
  Server.handle env w req = Server.Handled out ->
  In (Fetched call) (calls out) ->
  (forall response, Server.fetch w call = Ok response ->
     ((200 <= response_status response <= 299)%Z ->
      reply out = {| status := 200;
                     payload := JObj [("success", JBool true)] |})
     /\ (~ (200 <= response_status response <= 299)%Z ->
         reply out
         = {| status := 500;
              payload := JObj [("error", JStr ("Failed to remove agent: "
                                   +:+ pretty (response_status response)))] |}))
  /\ (forall msg, Server.fetch w call = Throw msg ->
        reply out = {| status := 500; payload := JObj [("error", JStr msg)] |}).
Proof.
  intros Hm Hp Hout Hcall.
  destruct (RouteFacts.handle_cases env w req)
    as [(r & Hr & _) | (_ & _ & _ & Hroute)].
  { rewrite Hr in Hout. injection Hout as <-. destruct Hcall. }
  rewrite Hroute, (RouteFacts.route_remove env w req Hm Hp) in Hout.
  injection Hout as <-.
  destruct (truthy (body_field (req_body req) "agent_id")) eqn:Ht.
  2:{ destruct (RouteFacts.remove_stopped env (Server.fetch w) _ (or_introl Ht))
        as [msg Heq]. rewrite Heq in Hcall. destruct Hcall. }
  destruct (Agent.template_value (body_field (req_body req) "agent_id"))
    as [id|msg] eqn:Htext.
  2:{ destruct (RouteFacts.remove_stopped env (Server.fetch w) _
                  (or_intror (ex_intro _ msg Htext))) as [msg' Heq].
      rewrite Heq in Hcall. destruct Hcall. }
  destruct (RouteFacts.remove_cases env (Server.fetch w) _ id Ht Htext)
    as [(msg & Hf & Heq) | [(resp & Hf & Hok & Heq) | (resp & Hf & Hok & Heq)]];
    rewrite Heq in Hcall |- *; destruct Hcall as [[= <-]|[]]; simpl;
    (split; [intros response Hresp | intros msg' Hresp]);
    rewrite Hf in Hresp; try discriminate; injection Hresp as <-;
    try reflexivity;
    (split; intros Hs;
     [try reflexivity;
      apply InviteProperties.response_ok_spec in Hs; congruence
     | try reflexivity;
       destruct Hs; apply InviteProperties.response_ok_spec; exact Hok]).
Qed.

End WithPlatform.

Lemma validated_remove_calls_upstream_witness :
  exists id out,
    body_field (req_body Cases.remove_agent_123) "agent_id" = Some (JStr id)
    /\ id <> ""
    /\ Server.handle (H := Sample.platform) Sample.microsoft_env Cases.world_ok
         Cases.remove_agent_123 = Server.Handled out
    /\ calls out
       = [Fetched {| fetch_url :=
                       upstream_url Sample.microsoft_env
                         ("/agents/" +:+ id +:+ "/leave");
                     fetch_method := "POST";
                     fetch_headers :=
                       upstream_headers (H := Sample.platform)
                         Sample.microsoft_env;
                     fetch_body := None |}].
Proof.
  apply (validated_remove_calls_upstream (H := Sample.platform)
           Sample.microsoft_env Cases.world_ok Cases.remove_agent_123).
  - reflexivity.
  - reflexivity.
  - vm_compute. reflexivity.
  - reflexivity.
  - vm_compute. reflexivity.
Defined.

Lemma remove_reply_by_status_witness :
  (forall response, Sample.unavailable Cases.leave_123 = Ok response ->
     ((200 <= response_status response <= 299)%Z ->
      reply (Agent.remove (H := Sample.platform) Sample.microsoft_env
               Sample.unavailable (Some (JStr "agent-123")))
      = {| status := 200; payload := JObj [("success", JBool true)] |})
     /\ (~ (200 <= response_status response <= 299)%Z ->
         reply (Agent.remove (H := Sample.platform) Sample.microsoft_env
                  Sample.unavailable (Some (JStr "agent-123")))
         = {| status := 500;
              payload := JObj [("error", JStr ("Failed to remove agent: "
                                   +:+ pretty (response_status response)))] |}))
  /\ (forall msg, Sample.unavailable Cases.leave_123 = Throw msg ->
        reply (Agent.remove (H := Sample.platform) Sample.microsoft_env
                 Sample.unavailable (Some (JStr "agent-123")))
        = {| status := 500; payload := JObj [("error", JStr msg)] |}).
Proof.
  apply (remove_reply_by_status (H := Sample.platform) Sample.microsoft_env
           Cases.world_503 Cases.remove_agent_123).
  - reflexivity.
  - reflexivity.
  - vm_compute. reflexivity.
  - vm_compute. left. reflexivity.
Defined.

Example remove_503 :
  reply (Agent.remove (H := Sample.platform) Sample.microsoft_env
           Sample.unavailable (Some (JStr "agent-123")))
  = {| status := 500;
       payload := JObj [("error", JStr "Failed to remove agent: 503")] |}.
Proof. vm_compute. reflexivity. Qed.

End RemoveProperties.

(* ===================================================================== *)
(** * Properties of the token route *)
(* ===================================================================== *)

Module TokenProperties.
Import Types Spec RouteSpec.

Lemma string_forall_Forall (p : ascii -> bool) (P : ascii -> Prop) (s : string) :
  (forall a, p a = true <-> P a) ->
  string_forall p s = true <-> Forall P (chars s).
Proof.
  intros Hp. unfold chars. induction s as [|a s IH]; simpl.
  - split; [constructor | reflexivity].
  - rewrite andb_true_iff, Forall_cons, IH, Hp. tauto.
Qed.

Lemma is_digit_spec (a : ascii) : is_digit a = true <-> 48 <= code a <= 57.
Proof. unfold is_digit. rewrite andb_true_iff, !Nat.leb_le. tauto. Qed.

Lemma alnum_or_hyphen_spec (a : ascii) :
  is_letter a || is_digit a || Ascii.eqb a "-" = true <-> alnum_or_hyphen a.
Proof.
  unfold alnum_or_hyphen.
  rewrite !orb_true_iff, AgentFacts.is_letter_spec, is_digit_spec, Ascii.eqb_eq.
  tauto.
Qed.

Lemma digits_spec (s : string) :
  string_forall is_digit s = true <-> Forall (fun a => 48 <= code a <= 57) (chars s).
Proof. apply string_forall_Forall, is_digit_spec. Qed.

Lemma string_length_zero (s : string) : String.length s = 0 <-> s = "".
Proof. destruct s; simpl; split; congruence. Qed.

Lemma channel_check (o : option string) :
  match o with
  | Some c =>
      if String.eqb c "" then Next
      else if (String.length c <? 1)%nat || (64 <? String.length c)%nat then
        Reply (res_status_json 400 (error_body
          "Invalid channel parameter. Length must be between 1 and 64 characters"))
      else if negb (test_alnum_hyphen c) then
        Reply (res_status_json 400 (error_body
          "Invalid channel parameter. Only alphanumeric characters and hyphens are allowed"))
      else Next
  | None => Next
  end = Next
  <-> channel_query_ok o.
Proof.
  unfold channel_query_ok, test_alnum_hyphen. destruct o as [c|].
  2:{ split; [|reflexivity]. intros _ x [=]. }
  destruct (String.eqb c "") eqn:Hc.
  { apply string_eqb_true in Hc as ->. split; [|reflexivity].
    intros _ x [= <-]. split; [simpl; lia | constructor]. }
  simpl. apply string_eqb_false in Hc.
  assert ((String.length c <? 1)%nat = false) as ->.
  { apply Nat.ltb_ge. destruct c; [congruence | simpl; lia]. }
  simpl. destruct (64 <? String.length c)%nat eqn:Hlen.
  { apply Nat.ltb_lt in Hlen. split; [discriminate|]. intros Hch.
    destruct (Hch c eq_refl) as [Hle _]. lia. }
  apply Nat.ltb_ge in Hlen.
  destruct (string_forall _ c) eqn:Hall; simpl.
  - split; [|reflexivity]. intros _ x [= <-]. split; [exact Hlen|].
    apply (string_forall_Forall _ _ _ alnum_or_hyphen_spec), Hall.
  - split; [discriminate|]. intros Hch. destruct (Hch c eq_refl) as [_ Hf].
    apply (string_forall_Forall _ _ _ alnum_or_hyphen_spec) in Hf. congruence.
Qed.

Lemma uid_value_check (o : option qvalue) :
  q_truthy o && negb (test_digits (default "" (q_toString <$> o))) = false
  <-> uid_value_ok o.
Proof.
  unfold uid_value_ok. destruct o as [v|].
  2:{ split; [intros _ x [=] | reflexivity]. }
  change (default "" (q_toString <$> Some v)) with (q_toString v).
  assert (test_digits (q_toString v) = true
          <-> q_toString v <> ""
              /\ Forall (fun a => 48 <= code a <= 57) (chars (q_toString v)))
    as Hdigits.
  { unfold test_digits.
    rewrite andb_true_iff, negb_true_iff, string_eqb_false, digits_spec.
    tauto. }
  destruct (q_truthy (Some v)) eqn:Ht; cbn [andb].
  - rewrite negb_false_iff, Hdigits. split.
    + intros Hd x [= <-]. right. exact Hd.
    + intros Hd. destruct (Hd v eq_refl) as [-> | Hok]; [discriminate | exact Hok].
  - split; [|reflexivity]. intros _ x [= <-]. left.
    destruct v as [s | l |]; try discriminate.
    simpl in Ht. apply negb_false_iff, string_eqb_true in Ht as ->. reflexivity.
Qed.

Lemma channel_value_check (o : option qvalue) :
  (if q_truthy o then
     match o with
     | Some (QStr c) =>
         if (String.length c <? 1)%nat || (64 <? String.length c)%nat then
           Reply (res_status_json 400 (error_body
             "Invalid channel parameter. Length must be between 1 and 64 characters"))
         else if negb (test_alnum_hyphen c) then
           Reply (res_status_json 400 (error_body
             "Invalid channel parameter. Only alphanumeric characters and hyphens are allowed"))
         else Next
     | _ =>
         Reply (res_status_json 400
                  (error_body "Invalid channel parameter. Must be a string"))
     end
   else Next) = Next
  <-> channel_value_ok o.
Proof.
  unfold channel_value_ok. destruct o as [[c | l |]|]; simpl.
  - pose proof (channel_check (Some c)) as Hc. simpl in Hc.
    destruct (String.eqb c "") eqn:He; simpl; rewrite Hc; split.
    + intros Hok v [= <-]. eauto.
    + intros Hok. destruct (Hok _ eq_refl) as (c' & [= <-] & Hc'). exact Hc'.
    + intros Hok v [= <-]. eauto.
    + intros Hok. destruct (Hok _ eq_refl) as (c' & [= <-] & Hc'). exact Hc'.
  - split; [discriminate|]. intros Hok.
    destruct (Hok _ eq_refl) as (c & [=] & _).
  - split; [discriminate|]. intros Hok.
    destruct (Hok _ eq_refl) as (c & [=] & _).
  - split; [|reflexivity]. intros _ v [=].
Qed.

(** X12.  The token route accepts a query exactly when uid is missing,
    the empty string, or a value whose text is made of one or more
    decimal digits (a string of digits, or an array such as ['5'], which
    the test converts), and channel is missing, or a string that is empty
    or made of at most 64 letters, digits and hyphens; a channel that is
    an array or an object is refused.  Every refused query is answered
    400. *)
Theorem token_query_accepted_iff (query : gmap string qvalue) :
  (Token.validateRequest query = Next
   <-> uid_value_ok (query !! "uid") /\ channel_value_ok (query !! "channel"))
  /\ (forall r, Token.validateRequest query = Reply r -> status r = 400%Z).
Proof.
  split; [|apply ReplyProperties.token_validateRequest_reply].
  unfold Token.validateRequest.
  rewrite <- uid_value_check, <- channel_value_check.
  destruct (q_truthy (query !! "uid")
            && negb (test_digits (default "" (q_toString <$> query !! "uid")))).
  - split; [discriminate | intros [[=] _]].
  - tauto.
Qed.

(** Behind [validateRequest] the handler finds a channel that is a
    string, or none. *)
Lemma validated_channel_is_string (query : gmap string qvalue) :
  Token.validateRequest query = Next ->
  query !! "channel" = None \/ exists c, query !! "channel" = Some (QStr c).
Proof.
  unfold Token.validateRequest.
  destruct (q_truthy (query !! "uid") && _); [discriminate|].
  destruct (query !! "channel") as [[c | l |]|]; simpl; eauto; discriminate.
Qed.

(** GET /token?uid[]=5 is accepted, and the uid is read as 5. *)
Example token_uid_array :
  Token.validateRequest (list_to_map [("uid", QArr [QStr "5"])]) = Next
  /\ payload
       (reply (Token.get (H := Sample.platform) Sample.agora_env
                 (Sample.draws "0.k3j5x8q2m")
                 (list_to_map [("uid", QArr [QStr "5"])])))
     = JObj [("token", JStr "007eJxzYBB"); ("uid", JStr "5");
             ("channel", JStr "ai-conversation-1700000000000-k3j5x8")].
Proof. split; vm_compute; reflexivity. Qed.

End TokenProperties.

Module ParseIntFacts.
Import Types Spec RouteSpec.

Lemma digit_not_space (a : ascii) :
  is_digit a = true -> is_white_space a = false.
Proof. destruct a as [[] [] [] [] [] [] [] []]; vm_compute; congruence. Qed.

Lemma digit_no_sign (a : ascii) (s : string) :
  is_digit a = true -> Token.strip_sign (String a s) = (false, String a s).
Proof.
  destruct a as [[] [] [] [] [] [] [] []]; intros Ha;
    try reflexivity; vm_compute in Ha; discriminate.
Qed.

Lemma digit_not_x (b : ascii) :
  is_digit b = true -> b <> "x"%char /\ b <> "X"%char.
Proof. intros Hb. split; intros ->; vm_compute in Hb; discriminate. Qed.

Lemma digits_no_hex_prefix (s : string) :
  string_forall is_digit s = true -> Token.strip_hex_prefix s = (10%Z, s).
Proof.
  destruct s as [|a [|b s]]; try reflexivity.
  - intros _. destruct a as [[] [] [] [] [] [] [] []]; reflexivity.
  - simpl. intros [_ [Hb _]%andb_prop]%andb_prop.
    destruct (digit_not_x b Hb) as [Hx HX].
    destruct a as [[] [] [] [] [] [] [] []]; try reflexivity.
    destruct b as [[] [] [] [] [] [] [] []]; try reflexivity; congruence.
Qed.

Lemma digit_value_decimal (a : ascii) :
  is_digit a = true ->
  Token.digit_value 10 a = Some (Z.of_nat (code a) - 48)%Z.
Proof.
  intros Ha. unfold Token.digit_value. rewrite Ha.
  apply TokenProperties.is_digit_spec in Ha.
  destruct (Z.of_nat (code a) - 48 <? 10)%Z eqn:Hlt; [reflexivity|].
  apply Z.ltb_ge in Hlt. lia.
Qed.

Lemma parse_digits_decimal (s : string) (acc : Z) :
  string_forall is_digit s = true ->
  Token.parse_digits 10 (Some acc) s = Some (digits_value_from acc s).
Proof.
  revert acc. induction s as [|a s IH]; intros acc; simpl; [reflexivity|].
  intros [Ha Hs]%andb_prop. rewrite (digit_value_decimal a Ha). simpl.
  apply IH, Hs.
Qed.

(** [parseInt] reads a non-empty string of digits as its decimal value. *)
Lemma parseInt_digits (s : string) :
  s <> "" -> string_forall is_digit s = true ->
  Token.parseInt s = number_of_Z (digits_value s).
Proof.
  intros Hne Hs. destruct s as [|a s]; [congruence|].
  pose proof Hs as Hall. simpl in Hs. apply andb_prop in Hs as [Ha Hs].
  unfold Token.parseInt.
  assert (trim_start (String a s) = String a s) as ->.
  { simpl. rewrite (digit_not_space a Ha). reflexivity. }
  rewrite (digit_no_sign a s Ha), (digits_no_hex_prefix _ Hall).
  simpl. rewrite (digit_value_decimal a Ha). simpl.
  rewrite (parse_digits_decimal s _ Hs). reflexivity.
Qed.

Lemma digits_value_from_nonneg (s : string) (acc : Z) :
  string_forall is_digit s = true -> (0 <= acc)%Z ->
  (0 <= digits_value_from acc s)%Z.
Proof.
  revert acc. induction s as [|a s IH]; intros acc; simpl; [auto|].
  intros [Ha Hs]%andb_prop Hacc. apply TokenProperties.is_digit_spec in Ha.
  apply IH; [exact Hs | lia].
Qed.

Lemma pretty_N_char_value (d : N) :
  (d < 10)%N -> (Z.of_nat (code (pretty_N_char d)) - 48)%Z = Z.of_N d.
Proof.
  intros Hd. destruct d as [|p]; [reflexivity|].
  do 4 (destruct p as [p|p|]; try reflexivity; try lia).
Qed.

(** Reading back the digits [pretty_N_go] writes in front of [s]. *)
Lemma digits_value_pretty_go (x : N) (s : string) :
  exists k : nat,
    forall acc,
      digits_value_from acc (pretty_N_go x s)
      = digits_value_from (acc * 10 ^ Z.of_nat k + Z.of_N x)%Z s.
Proof.
  revert s. induction (N.lt_wf_0 x) as [x _ IH]. intros s.
  destruct (decide (0 < x)%N) as [Hx|Hx].
  - rewrite pretty_N_go_step by exact Hx.
    destruct (IH (x `div` 10)%N (N.div_lt x 10 Hx eq_refl)
                (String (pretty_N_char (x `mod` 10)) s)) as [k Hk].
    exists (S k). intros acc. rewrite Hk. simpl digits_value_from.
    rewrite pretty_N_char_value by (apply N.mod_lt; discriminate).
    f_equal. rewrite Nat2Z.inj_succ, Z.pow_succ_r by lia.
    rewrite N2Z.inj_div, N2Z.inj_mod. change (Z.of_N 10) with 10%Z.
    pose proof (Z.div_mod (Z.of_N x) 10). lia.
  - assert (x = 0%N) as -> by lia. exists 0. intros acc.
    rewrite pretty_N_go_0. f_equal. simpl. lia.
Qed.

(** The decimal numeral of a non-negative integer reads back as it. *)
Lemma digits_value_pretty (n : Z) :
  (0 <= n)%Z -> digits_value (pretty n) = n.
Proof.
  intros Hn. destruct n as [|p|p]; [reflexivity| |lia].
  unfold pretty, pretty_Z, pretty, pretty_positive, pretty, pretty_N.
  destruct (decide (N.pos p = 0%N)) as [[=]|_].
  destruct (digits_value_pretty_go (N.pos p) "") as [k Hk].
  unfold digits_value. rewrite Hk. simpl. lia.
Qed.

Section WithPlatform.
Context `{Platform}.

(** A safe non-negative integer prints as its decimal numeral. *)
Lemma Number_toString_integer (n : Z) :
  (0 <= n <= 2 ^ 53)%Z -> Number_toString (number_of_Z n) = pretty n.
Proof.
  intros Hn. unfold Number_toString, number_of_Z, Number_isInteger, inject_Z.
  simpl Qnum. simpl Qden.
  rewrite Z.mod_1_r, Z.div_1_r. simpl Z.eqb.
  assert ((Z.abs n <=? 2 ^ 53)%Z = true) as -> by (apply Z.leb_le; lia).
  reflexivity.
Qed.

End WithPlatform.
End ParseIntFacts.

Module TokenEcho.
Import Types Spec RouteSpec.

Section WithPlatform.
Context `{Platform}.

(** X13.  With the credentials configured, GET /token with a uid made of
    digits (of value at most 2^53) and an acceptable channel builds one
    token for that channel and that numeric uid, and answers 200 with the
    token, the channel unchanged and the uid as the decimal numeral of its
    value, so that leading zeros are dropped; neither the generated
    channel name nor the random source is used. *)
Theorem token_echoes_parameters (env : gmap string string) (d : Token.Draws)
    (query : gmap string qvalue) (s c token : string) :
  all_present env agora_vars ->
  query !! "uid" = Some (QStr s) -> s <> "" ->
  Forall (fun a => 48 <= code a <= 57) (chars s) ->
  (digits_value s <= 2 ^ 53)%Z ->
  query !! "channel" = Some (QStr c) -> c <> "" ->
  String.length c <= 64 -> Forall alnum_or_hyphen (chars c) ->
  buildTokenWithUid (env !! "AGORA_APP_ID") (env !! "AGORA_APP_CERTIFICATE")
    c (UidNumber (number_of_Z (digits_value s))) PUBLISHER
    (Token.issue_now d / 1000 + 3600)%Z (Token.issue_now d / 1000 + 3600)%Z
  = Ok token ->
  Token.get env d query
  = {| calls :=
         [TokenBuilt (env !! "AGORA_APP_ID") (env !! "AGORA_APP_CERTIFICATE")
            c (UidNumber (number_of_Z (digits_value s))) PUBLISHER
            (Token.issue_now d / 1000 + 3600)%Z
            (Token.issue_now d / 1000 + 3600)%Z];
       reply := {| status := 200;
                   payload := JObj [("token", JStr token);
                                    ("uid", JStr (pretty (digits_value s)));
                                    ("channel", JStr c)] |} |}.
Proof.
  intros Henv Hu Hs Hdigits Hmax Hc Hcne Hlen Hchars Htoken.
  assert (Token.validateRequest query = Next) as Hvalid.
  { unfold Token.validateRequest.
    assert (uid_value_ok (query !! "uid")) as Huid.
    { rewrite Hu. intros x [= <-]. right. split; [exact Hs | exact Hdigits]. }
    apply TokenProperties.uid_value_check in Huid. rewrite Huid.
    apply TokenProperties.channel_value_check. rewrite Hc. intros x [= <-].
    exists c. split; [reflexivity|]. intros x [= <-]. auto. }
  apply TokenProperties.digits_spec in Hdigits.
  apply TokenClaims.agora_vars_checked in Henv.
  unfold Token.get, Token.validateEnvironment. rewrite Henv, Hvalid.
  assert (Token.query_or (query !! "uid") "0" = s) as Hqs.
  { rewrite Hu. unfold Token.query_or, q_truthy.
    apply string_eqb_false in Hs. rewrite Hs. reflexivity. }
  assert (Token.query_or (query !! "channel")
            (Token.generateChannelName (Token.name_now d) (Token.random36 d)) = c)
    as Hqc.
  { rewrite Hc. unfold Token.query_or, q_truthy.
    apply string_eqb_false in Hcne. rewrite Hcne. reflexivity. }
  pose proof (ParseIntFacts.digits_value_from_nonneg s 0 Hdigits (Z.le_refl 0))
    as Hpos.
  pose proof (RouteFacts.token_handler_cases env d query) as Hcases.
  cbv zeta in Hcases.
  rewrite Hqs, Hqc, (ParseIntFacts.parseInt_digits s Hs Hdigits) in Hcases.
  rewrite Htoken in Hcases.
  destruct Hcases as [(tok & [= <-] & ->) | (msg & [=] & _)].
  fold (digits_value s) in Hpos.
  rewrite ParseIntFacts.Number_toString_integer by lia.
  reflexivity.
Qed.

(** X14.  The uid of a token response is stable: for a uid made of digits
    (of value at most 2^53) the text the route answers with is itself an
    acceptable uid parameter, and sending it back is answered with the
    same text. *)
Theorem token_uid_is_stable (s : string) :
  s <> "" -> Forall (fun a => 48 <= code a <= 57) (chars s) ->
  (digits_value s <= 2 ^ 53)%Z ->
  Number_toString (Token.parseInt s) <> ""
  /\ uid_query_ok (Some (Number_toString (Token.parseInt s)))
  /\ Number_toString (Token.parseInt (Number_toString (Token.parseInt s)))
     = Number_toString (Token.parseInt s).
Proof.
  intros Hs Hdigits Hmax. apply TokenProperties.digits_spec in Hdigits.
  pose proof (ParseIntFacts.digits_value_from_nonneg s 0 Hdigits (Z.le_refl 0))
    as Hpos. fold (digits_value s) in Hpos.
  rewrite (ParseIntFacts.parseInt_digits s Hs Hdigits).
  rewrite ParseIntFacts.Number_toString_integer by lia.
  destruct (TokenFacts.pretty_Z_digits _ Hpos) as [Hne Hd].
  split; [exact Hne|]. split.
  - intros x [= <-]. apply TokenProperties.digits_spec, Hd.
  - rewrite (ParseIntFacts.parseInt_digits _ Hne Hd).
    rewrite (ParseIntFacts.digits_value_pretty _ Hpos).
    apply ParseIntFacts.Number_toString_integer. lia.
Qed.

End WithPlatform.

Lemma token_echoes_parameters_witness :
  Token.get (H := Sample.platform) Sample.agora_env
    (Sample.draws "0.k3j5x8q2m") Cases.token_007
  = {| calls :=
         [TokenBuilt (Sample.agora_env !! "AGORA_APP_ID")
            (Sample.agora_env !! "AGORA_APP_CERTIFICATE")
            "test-channel" (UidNumber (number_of_Z (digits_value "007")))
            PUBLISHER
            (Token.issue_now (Sample.draws "0.k3j5x8q2m") / 1000 + 3600)%Z
            (Token.issue_now (Sample.draws "0.k3j5x8q2m") / 1000 + 3600)%Z];
       reply := {| status := 200;
                   payload := JObj [("token", JStr "007eJxzYBB");
                                    ("uid", JStr (pretty (digits_value "007")));
                                    ("channel", JStr "test-channel")] |} |}.
Proof.
  apply (token_echoes_parameters (H := Sample.platform) Sample.agora_env
           (Sample.draws "0.k3j5x8q2m") Cases.token_007 "007" "test-channel"
           "007eJxzYBB").
  - repeat constructor; eexists; (split; [vm_compute; reflexivity | discriminate]).
  - vm_compute. reflexivity.
  - discriminate.
  - apply TokenProperties.digits_spec. reflexivity.
  - vm_compute. discriminate.
  - vm_compute. reflexivity.
  - discriminate.
  - simpl. lia.
  - apply (TokenProperties.string_forall_Forall _ _ _
             TokenProperties.alnum_or_hyphen_spec). reflexivity.
  - reflexivity.
Defined.

Lemma token_uid_is_stable_witness :
  Number_toString (H := Sample.platform) (Token.parseInt "007") <> ""
  /\ uid_query_ok
       (Some (Number_toString (H := Sample.platform) (Token.parseInt "007")))
  /\ Number_toString (H := Sample.platform)
       (Token.parseInt
          (Number_toString (H := Sample.platform) (Token.parseInt "007")))
     = Number_toString (H := Sample.platform) (Token.parseInt "007").
Proof.
  apply (token_uid_is_stable (H := Sample.platform) "007").
  - discriminate.
  - apply TokenProperties.digits_spec. reflexivity.
  - vm_compute. discriminate.
Defined.

Example token_007_uid :
  reply (Token.get (H := Sample.platform) Sample.agora_env
           (Sample.draws "0.k3j5x8q2m") Cases.token_007)
  = {| status := 200;
       payload := JObj [("token", JStr "007eJxzYBB"); ("uid", JStr "7");
                        ("channel", JStr "test-channel")] |}.
Proof. vm_compute. reflexivity. Qed.

End TokenEcho.

(* ===================================================================== *)
(** * The two body validations side by side *)
(* ===================================================================== *)

Module SiblingProperties.
Import Types Spec RouteSpec.

Lemma alnum_or_hyphen_not_space (a : ascii) :
  is_letter a || is_digit a || Ascii.eqb a "-" = true ->
  is_white_space a = false.
Proof. destruct a as [[] [] [] [] [] [] [] []]; vm_compute; congruence. Qed.

(** A string the Fastify pattern accepts is not blank. *)
Lemma test_alnum_hyphen_not_blank (s : string) :
  test_alnum_hyphen s = true ->
  truthy (Some (JStr s)) = true /\ String.eqb (trim s) "" = false.
Proof.
  unfold test_alnum_hyphen. intros [Hne Hall]%andb_prop.
  apply ValidationFacts.requester_string_spec.
  destruct s as [|a s]; [discriminate|].
  simpl in Hall. apply andb_prop in Hall as [Ha _].
  exists a. split; [left; reflexivity | apply alnum_or_hyphen_not_space, Ha].
Qed.

Lemma test_alnum_hyphen_spec (s : string) :
  test_alnum_hyphen s = true <-> s <> "" /\ Forall alnum_or_hyphen (chars s).
Proof.
  unfold test_alnum_hyphen.
  rewrite andb_true_iff, negb_true_iff, string_eqb_false.
  rewrite (TokenProperties.string_forall_Forall _ _ _
             TokenProperties.alnum_or_hyphen_spec).
  tauto.
Qed.

Lemma fastify_fields (b : reqbody) (k : string) :
  Fastify.body_field (Fastify.of_reqbody b) k = body_field b k.
Proof. destruct b; reflexivity. Qed.

Lemma fastify_body_empty (b : reqbody) :
  Fastify.body_empty (Fastify.of_reqbody b) = body_empty b.
Proof. destruct b; reflexivity. Qed.

(** The two chains of invite checks differ on string requester ids only. *)
Lemma fastify_invite_iff (rid ch : value) :
  Fastify.validateInviteBody rid ch = Next
  <-> Validation.validateInviteBody rid ch = Next
      /\ (forall s, rid = Some (JStr s) -> Forall alnum_or_hyphen (chars s)).
Proof.
  destruct rid as [[| b | n | s | l | l]|];
    try (split; [intros Hn; split; [exact Hn | intros s [=]] | intros [Hn _]; exact Hn]).
  unfold Fastify.validateInviteBody, Validation.validateInviteBody,
    Fastify.bad_request, Validation.bad_request.
  destruct (test_alnum_hyphen s) eqn:Htest.
  - destruct (test_alnum_hyphen_not_blank s Htest) as [Ht Htrim].
    rewrite Ht, Htrim. simpl.
    apply test_alnum_hyphen_spec in Htest as [_ Hall].
    split; [intros Hn; split; [exact Hn | intros x [= <-]; exact Hall]
           | intros [Hn _]; exact Hn].
  - destruct (truthy (Some (JStr s))) eqn:Ht; simpl.
    + destruct (truthy ch); simpl.
      * split; [discriminate|]. intros [_ Hall].
        assert (test_alnum_hyphen s = true); [|congruence].
        apply test_alnum_hyphen_spec. split; [|apply Hall; reflexivity].
        intros ->. discriminate.
      * split; [discriminate | intros [[=] _]].
    + split; [discriminate | intros [[=] _]].
Qed.

(** X19.  The body validation of the Fastify server is the stricter of
    the two: on a request without query string it accepts exactly when
    the Express validation accepts and, on /agent/invite, a requester_id
    given as a string consists of letters, digits and hyphens only.  All
    other checks of the two servers agree. *)
Theorem fastify_validation_is_stricter (req : Request) :
  Fastify.validateRequestBody (as_fastify req) = Next
  <-> Validation.validateRequestBody req = Next
      /\ (req_method req = "POST" -> req_path req = "/agent/invite" ->
          forall s, body_field (req_body req) "requester_id" = Some (JStr s) ->
                    Forall alnum_or_hyphen (chars s)).
Proof.
  unfold Fastify.validateRequestBody, Validation.validateRequestBody, as_fastify.
  simpl. rewrite fastify_body_empty, !fastify_fields.
  destruct (String.eqb (req_method req) "POST") eqn:Hm; simpl.
  2:{ apply string_eqb_false in Hm. split; [|reflexivity]. intros _.
      split; [reflexivity | contradiction]. }
  apply string_eqb_true in Hm.
  destruct (body_empty (req_body req)).
  { split; [discriminate | intros [[=] _]]. }
  destruct (String.eqb (req_path req) "/agent/invite") eqn:Hp.
  { apply string_eqb_true in Hp. rewrite fastify_invite_iff.
    split; intros [Hn Hs]; (split; [exact Hn|]); auto. }
  apply string_eqb_false in Hp.
  change (Fastify.validateRemoveBody (body_field (req_body req) "agent_id"))
    with (Validation.validateRemoveBody (body_field (req_body req) "agent_id")).
  split; [intros Hn; split; [exact Hn | contradiction] | intros [Hn _]; exact Hn].
Qed.

(** A requester id with a blank in it: accepted by Express, refused by
    Fastify. *)
Example requester_with_blank :
  Validation.validateRequestBody
    (invite_post (Sample.invite_fields (JStr "user 1"))) = Next
  /\ Fastify.validateRequestBody
       (as_fastify (invite_post (Sample.invite_fields (JStr "user 1"))))
     = Fastify.bad_request
         "requester_id must contain only alphanumeric characters and hyphens".
Proof. split; vm_compute; reflexivity. Qed.

End SiblingProperties.
